(** * TorrentCellRenderer: the torrent row of the GTK client

    A shallow embedding of [gtk/TorrentCellRenderer.cc].  The file draws one
    torrent as a row of a list view, in a compact and a full layout.

    - [double] values are IEEE binary64 numbers ([spec_float]).
    - C++ [int] arithmetic is done in [Z]; signed overflow is undefined in
      C++, so the embedding covers the defined executions.  The one unsigned
      sum of the file ([haveTotal]) wraps at 2^64.
    - libtransmission, gettext, fmt and GTK are collaborators that live
      outside this file; what they return is taken from the interfaces
      [Formatters] and [Toolkit], and the torrent object is represented by the
      values its accessors return.
    - The member functions of [TorrentCellRenderer::Impl] read and write the
      renderer, its three child renderers and the snapshot they draw on; they
      are written in a state monad [M] whose failure is the dereference of a
      null torrent pointer. *)

From Stdlib Require Import ZArith List String Ascii Bool Lia DecimalString.
From Stdlib Require Import Floats.SpecFloat.
Import ListNotations.

Local Open Scope string_scope.
Local Open Scope Z_scope.

(** ** Doubles *)

Definition double : Type := spec_float.

Module Double.

Definition prec : Z := 53.
Definition emax : Z := 1024.

Definition of_int (z : Z) : double := binary_normalize prec emax z 0 false.
Definition mul (a b : double) : double := SFmul prec emax a b.
Definition sub (a b : double) : double := SFsub prec emax a b.

(** [a > b] of C++: false as soon as one side is a NaN. *)
Definition gt (a b : double) : bool := SFltb b a.
(** [a >= b] of C++. *)
Definition ge (a b : double) : bool := SFleb b a.

Definition zero : double := S754_zero false.
Definition one : double := of_int 1.
Definition hundred : double := of_int 100.

Definition is_nan (a : double) : bool :=
  match a with S754_nan => true | _ => false end.

(** [static_cast<int>(d)]: truncation toward zero.  Out of the range of
    [int] (and for infinities and NaN) the conversion is undefined in C++;
    the value given there is the integer indefinite of x86-64. *)
Definition int_min : Z := - 2 ^ 31.
Definition int_max : Z := 2 ^ 31 - 1.

Definition to_int (d : double) : Z :=
  match d with
  | S754_zero _ => 0
  | S754_finite s m e =>
      let mag := if 0 <=? e then Z.shiftl (Z.pos m) e else Z.shiftr (Z.pos m) (- e) in
      let v := if s then - mag else mag in
      if (int_min <=? v) && (v <=? int_max) then v else int_min
  | _ => int_min
  end.

End Double.

(** glib's [MAX(a, b)]: [(((a) > (b)) ? (a) : (b))]. *)
Definition MAX (a b : double) : double := if Double.gt a b then a else b.

(** [std::max] on [int]. *)
Definition std_max (a b : Z) : Z := if a <? b then b else a.

(** ** libtransmission data: [tr_stat] and the torrent *)

Inductive tr_torrent_activity :=
| TR_STATUS_STOPPED
| TR_STATUS_CHECK_WAIT
| TR_STATUS_CHECK
| TR_STATUS_DOWNLOAD_WAIT
| TR_STATUS_DOWNLOAD
| TR_STATUS_SEED_WAIT
| TR_STATUS_SEED.

Inductive tr_stat_errtype :=
| TR_STAT_OK
| TR_STAT_TRACKER_WARNING
| TR_STAT_TRACKER_ERROR
| TR_STAT_LOCAL_ERROR.

Definition activity_eqb (a b : tr_torrent_activity) : bool :=
  match a, b with
  | TR_STATUS_STOPPED, TR_STATUS_STOPPED
  | TR_STATUS_CHECK_WAIT, TR_STATUS_CHECK_WAIT
  | TR_STATUS_CHECK, TR_STATUS_CHECK
  | TR_STATUS_DOWNLOAD_WAIT, TR_STATUS_DOWNLOAD_WAIT
  | TR_STATUS_DOWNLOAD, TR_STATUS_DOWNLOAD
  | TR_STATUS_SEED_WAIT, TR_STATUS_SEED_WAIT
  | TR_STATUS_SEED, TR_STATUS_SEED => true
  | _, _ => false
  end.

(** The numeric value of the error kind; [TR_STAT_OK] is 0, which is what
    [st->error != 0] tests. *)
Definition errtype_value (e : tr_stat_errtype) : Z :=
  match e with
  | TR_STAT_OK => 0
  | TR_STAT_TRACKER_WARNING => 1
  | TR_STAT_TRACKER_ERROR => 2
  | TR_STAT_LOCAL_ERROR => 3
  end.

(** The fields of [tr_stat] this file reads.  The [float] fields are held
    as the [double] they are promoted to (the promotion is exact). *)
Record tr_stat := {
  activity : tr_torrent_activity;
  error : tr_stat_errtype;
  errorString : string;
  leftUntilDone : Z;
  haveUnchecked : Z;
  haveValid : Z;
  sizeWhenDone : Z;
  uploadedEver : Z;
  percentDone : double;
  percentComplete : double;
  metadataPercentComplete : double;
  seedRatioPercentDone : double;
  recheckProgress : double;
  ratio : double;
  eta : Z;
  peersConnected : Z;
  peersSendingToUs : Z;
  peersGettingFromUs : Z;
  webseedsSendingToUs : Z;
  isStalled : bool;
  finished : bool
}.

(** A torrent, as seen through the accessors this file calls. *)
Record tr_torrent := {
  tor_name : string;
  tor_files : list string;
  tor_total_size : Z;
  tor_has_metadata : bool;
  tor_seed_ratio : option double;
  tor_stats : tr_stat
}.

Definition tr_torrentName (tor : tr_torrent) : string := tor_name tor.
Definition tr_torrentFileCount (tor : tr_torrent) : Z := Z.of_nat (List.length (tor_files tor)).
(** [tr_torrentFile(tor, i).name] *)
Definition tr_torrentFile_name (tor : tr_torrent) (i : nat) : string := nth i (tor_files tor) "".
Definition tr_torrentTotalSize (tor : tr_torrent) : Z := tor_total_size tor.
Definition tr_torrentHasMetadata (tor : tr_torrent) : bool := tor_has_metadata tor.
(** [tr_torrentGetSeedRatio(tor, &ratio)]: [Some ratio] when it returns true. *)
Definition tr_torrentGetSeedRatio (tor : tr_torrent) : option double := tor_seed_ratio tor.
(** The statistics snapshot the torrent holds; this file reads it through a
    pointer to const. *)
Definition tr_torrentStatCached (tor : tr_torrent) : tr_stat := tor_stats tor.

(** ** Formatting collaborators *)

Inductive fmt_value :=
| FmtStr (s : string)
| FmtInt (z : Z)
| FmtDouble (d : double).

(** [fmt::arg(name, value)] *)
Definition fmt_arg := (string * fmt_value)%type.

Definition arg (name : string) (s : string) : fmt_arg := (name, FmtStr s).
Definition arg_int (name : string) (z : Z) : fmt_arg := (name, FmtInt z).
Definition arg_double (name : string) (d : double) : fmt_arg := (name, FmtDouble d).

Class Formatters := {
  (** [_()] *)
  gettext : string -> string;
  ngettext : string -> string -> Z -> string;
  (** [fmt::format] with a run-time template and named arguments *)
  fmt_format : string -> list fmt_arg -> string;
  tr_strlsize : Z -> string;
  tr_strpercent : double -> string;
  tr_strlratio : double -> string;
  tr_format_time_left : Z -> string;
  tr_formatter_speed_KBps : double -> string;
  tr_truncd : double -> Z -> double
}.

(** [fmt::format(FMT_STRING("{:d}"), n)] *)
Definition fmt_int (z : Z) : string := NilZero.string_of_int (Z.to_int z).

Definition uint64_mod : Z := 2 ^ 64.

Definition string_empty (s : string) : bool :=
  match s with EmptyString => true | _ => false end.

(** ** The strings of a row *)

Section Strings.

Context {F : Formatters}.

Definition getProgressString (tor : tr_torrent) (total_size : Z) (st : tr_stat) : string :=
  let gstr := "" in
  let isDone := leftUntilDone st =? 0 in
  let haveTotal := (haveUnchecked st + haveValid st) mod uint64_mod in
  let isSeed := total_size <=? haveValid st in
  (* [double seedRatio;] is written by tr_torrentGetSeedRatio only when it
     returns true, and is read only under [hasSeedRatio] *)
  let hasSeedRatio := match tr_torrentGetSeedRatio tor with Some _ => true | None => false end in
  let seedRatio := match tr_torrentGetSeedRatio tor with Some r => r | None => Double.zero end in
  let gstr :=
    if negb isDone then (* downloading *)
      gstr ++ fmt_format
        (gettext "{current_size} of {complete_size} ({percent_done}%)")
        [ arg "current_size" (tr_strlsize haveTotal);
          arg "complete_size" (tr_strlsize (sizeWhenDone st));
          arg "percent_done" (tr_strpercent (Double.mul (percentDone st) Double.hundred)) ]
    else if negb isSeed && hasSeedRatio then (* partial seed, seed ratio *)
      gstr ++ fmt_format
        (gettext "{current_size} of {complete_size} ({percent_complete}%), uploaded {uploaded_size} (Ratio: {ratio}, Goal: {seed_ratio})")
        [ arg "current_size" (tr_strlsize haveTotal);
          arg "complete_size" (tr_strlsize total_size);
          arg "percent_complete" (tr_strpercent (Double.mul (percentComplete st) Double.hundred));
          arg "uploaded_size" (tr_strlsize (uploadedEver st));
          arg "ratio" (tr_strlratio (ratio st));
          arg "seed_ratio" (tr_strlratio seedRatio) ]
    else if negb isSeed then (* partial seed, no seed ratio *)
      gstr ++ fmt_format
        (gettext "{current_size} of {complete_size} ({percent_complete}%), uploaded {uploaded_size} (Ratio: {ratio})")
        [ arg "current_size" (tr_strlsize haveTotal);
          arg "complete_size" (tr_strlsize total_size);
          arg "percent_complete" (tr_strpercent (Double.mul (percentComplete st) Double.hundred));
          arg "uploaded_size" (tr_strlsize (uploadedEver st));
          arg "ratio" (tr_strlratio (ratio st)) ]
    else if hasSeedRatio then (* seed, seed ratio *)
      gstr ++ fmt_format
        (gettext "{complete_size}, uploaded {uploaded_size} (Ratio: {ratio}, Goal: {seed_ratio})")
        [ arg "complete_size" (tr_strlsize total_size);
          arg "uploaded_size" (tr_strlsize (uploadedEver st));
          arg "ratio" (tr_strlratio (ratio st));
          arg "seed_ratio" (tr_strlratio seedRatio) ]
    else (* seed, no seed ratio *)
      gstr ++ fmt_format
        (gettext "{complete_size}, uploaded {uploaded_size} (Ratio: {ratio})")
        [ arg "complete_size" (tr_strlsize total_size);
          arg "uploaded_size" (tr_strlsize (uploadedEver st));
          arg "ratio" (tr_strlratio (ratio st)) ] in
  (* add time remaining when applicable *)
  if activity_eqb (activity st) TR_STATUS_DOWNLOAD
     || (hasSeedRatio && activity_eqb (activity st) TR_STATUS_SEED)
  then
    let eta := eta st in
    let gstr := gstr ++ " - " in
    if eta <? 0 then gstr ++ gettext "Remaining time unknown"
    else gstr ++ tr_format_time_left eta
  else gstr.

Definition getShortTransferString (tor : tr_torrent) (st : tr_stat)
    (uploadSpeed_KBps downloadSpeed_KBps : double) : string :=
  let have_meta := tr_torrentHasMetadata tor in
  let have_down := have_meta && ((0 <? peersSendingToUs st) || (0 <? webseedsSendingToUs st)) in
  if have_down then
    fmt_format
      (gettext "{download_speed} ▼  {upload_speed} ▲")
      [ arg "upload_speed" (tr_formatter_speed_KBps uploadSpeed_KBps);
        arg "download_speed" (tr_formatter_speed_KBps downloadSpeed_KBps) ]
  else
    let have_up := have_meta && (0 <? peersGettingFromUs st) in
    if have_up then
      fmt_format (gettext "{upload_speed} ▲")
        [ arg "upload_speed" (tr_formatter_speed_KBps uploadSpeed_KBps) ]
    else if isStalled st then gettext "Stalled"
    else "".

(** The seven activities are all there are: the [default] case of the
    switch is not reached. *)
Definition getShortStatusString (tor : tr_torrent) (st : tr_stat)
    (uploadSpeed_KBps downloadSpeed_KBps : double) : string :=
  match activity st with
  | TR_STATUS_STOPPED => if finished st then gettext "Finished" else gettext "Paused"
  | TR_STATUS_CHECK_WAIT => gettext "Queued for verification"
  | TR_STATUS_DOWNLOAD_WAIT => gettext "Queued for download"
  | TR_STATUS_SEED_WAIT => gettext "Queued for seeding"
  | TR_STATUS_CHECK =>
      fmt_format
        (gettext "Verifying local data ({percent_done}% tested)")
        [ arg_double "percent_done" (tr_truncd (Double.mul (recheckProgress st) Double.hundred) 1) ]
  | TR_STATUS_DOWNLOAD
  | TR_STATUS_SEED =>
      (* FMT_STRING("{:s} {:s}") *)
      getShortTransferString tor st uploadSpeed_KBps downloadSpeed_KBps
        ++ " "
        ++ fmt_format (gettext "Ratio: {ratio}") [ arg "ratio" (tr_strlratio (ratio st)) ]
  end.

Definition getErrorString (st : tr_stat) : option string :=
  match error st with
  | TR_STAT_TRACKER_WARNING =>
      Some (fmt_format (gettext "Tracker warning: '{warning}'") [ arg "warning" (errorString st) ])
  | TR_STAT_TRACKER_ERROR =>
      Some (fmt_format (gettext "Tracker Error: '{error}'") [ arg "error" (errorString st) ])
  | TR_STAT_LOCAL_ERROR =>
      Some (fmt_format (gettext "Local error: '{error}'") [ arg "error" (errorString st) ])
  | TR_STAT_OK => None
  end.

(** Here the [default] case is [g_assert_not_reached()]. *)
Definition getActivityString (tor : tr_torrent) (st : tr_stat)
    (uploadSpeed_KBps downloadSpeed_KBps : double) : string :=
  match activity st with
  | TR_STATUS_STOPPED
  | TR_STATUS_CHECK_WAIT
  | TR_STATUS_CHECK
  | TR_STATUS_DOWNLOAD_WAIT
  | TR_STATUS_SEED_WAIT => getShortStatusString tor st uploadSpeed_KBps downloadSpeed_KBps
  | TR_STATUS_DOWNLOAD =>
      if negb (tr_torrentHasMetadata tor) then
        fmt_format
          (ngettext
             "Downloading metadata from {active_count} connected peer ({percent_done}% done)"
             "Downloading metadata from {active_count} connected peers ({percent_done}% done)"
             (peersConnected st))
          [ arg_int "active_count" (peersConnected st);
            arg "percent_done" (tr_strpercent (Double.mul (metadataPercentComplete st) Double.hundred)) ]
      else if negb (peersSendingToUs st =? 0) && negb (webseedsSendingToUs st =? 0) then
        fmt_format
          (ngettext
             "Downloading from {active_count} of {connected_count} connected peer and webseed"
             "Downloading from {active_count} of {connected_count} connected peers and webseeds"
             (peersConnected st + webseedsSendingToUs st))
          [ arg_int "active_count" (peersSendingToUs st + webseedsSendingToUs st);
            arg_int "connected_count" (peersConnected st + webseedsSendingToUs st) ]
      else if negb (webseedsSendingToUs st =? 0) then
        fmt_format
          (ngettext
             "Downloading from {active_count} webseed"
             "Downloading from {active_count} webseeds"
             (webseedsSendingToUs st))
          [ arg_int "active_count" (webseedsSendingToUs st) ]
      else
        fmt_format
          (ngettext
             "Downloading from {active_count} of {connected_count} connected peer"
             "Downloading from {active_count} of {connected_count} connected peers"
             (peersConnected st))
          [ arg_int "active_count" (peersSendingToUs st);
            arg_int "connected_count" (peersConnected st) ]
  | TR_STATUS_SEED =>
      fmt_format
        (ngettext
           "Seeding to {active_count} of {connected_count} connected peer"
           "Seeding to {active_count} of {connected_count} connected peers"
           (peersConnected st))
        [ arg_int "active_count" (peersGettingFromUs st);
          arg_int "connected_count" (peersConnected st) ]
  end.

(** [std::optional::value_or] *)
Definition value_or {A : Type} (o : option A) (d : A) : A :=
  match o with Some v => v | None => d end.

Definition getStatusString (tor : tr_torrent) (st : tr_stat)
    (uploadSpeed_KBps downloadSpeed_KBps : double) (ignore_errors : bool) : string :=
  let status_str :=
    value_or (if ignore_errors then None else getErrorString st)
             (getActivityString tor st uploadSpeed_KBps downloadSpeed_KBps) in
  if negb (activity_eqb (activity st) TR_STATUS_CHECK_WAIT)
     && negb (activity_eqb (activity st) TR_STATUS_CHECK)
     && negb (activity_eqb (activity st) TR_STATUS_DOWNLOAD_WAIT)
     && negb (activity_eqb (activity st) TR_STATUS_SEED_WAIT)
     && negb (activity_eqb (activity st) TR_STATUS_STOPPED)
  then
    let buf := getShortTransferString tor st uploadSpeed_KBps downloadSpeed_KBps in
    if negb (string_empty buf) then status_str ++ (" - " ++ buf) (* FMT_STRING(" - {:s}") *)
    else status_str
  else status_str.

(** [get_percent_done]: the value returned and the flag written to [*seed]. *)
Definition get_percent_done (tor : tr_torrent) (st : tr_stat) : double * bool :=
  if activity_eqb (activity st) TR_STATUS_SEED
     && match tr_torrentGetSeedRatio tor with Some _ => true | None => false end
  then (MAX Double.zero (seedRatioPercentDone st), true)
  else (MAX Double.zero (percentDone st), false).

End Strings.

(** ** GTK data *)

(** [Gdk::Rectangle]; a default-constructed rectangle is all zero. *)
Module Rectangle.
Record t := mk { get_x : Z; get_y : Z; get_width : Z; get_height : Z }.
Definition default : t := mk 0 0 0 0.
Definition set_x (v : Z) (r : t) : t := mk v (get_y r) (get_width r) (get_height r).
Definition set_y (v : Z) (r : t) : t := mk (get_x r) v (get_width r) (get_height r).
Definition set_width (v : Z) (r : t) : t := mk (get_x r) (get_y r) v (get_height r).
Definition set_height (v : Z) (r : t) : t := mk (get_x r) (get_y r) (get_width r) v.
End Rectangle.

(** [Gtk::Requisition], read through the macros [REQ_WIDTH] and [REQ_HEIGHT]. *)
Record Requisition := { REQ_WIDTH : Z; REQ_HEIGHT : Z }.

Inductive EllipsizeMode := ELLIPSIZE_NONE | ELLIPSIZE_START | ELLIPSIZE_MIDDLE | ELLIPSIZE_END.
Inductive Weight := WEIGHT_NORMAL | WEIGHT_BOLD.
Inductive IconSize := ICON_SIZE_NORMAL | ICON_SIZE_LARGE | ICON_SIZE_MENU | ICON_SIZE_DND.

(** An icon is the one the icon cache gives for a mime type. *)
Inductive Icon := gtr_get_mime_type_icon (mime_type : string).

(** [Gdk::RGBA(name)] *)
Inductive RGBA := Gdk_RGBA (name : string).

(** [Gtk::CellRendererState] and [Gtk::StateFlags] are bit sets. *)
Definition CellRendererState : Type := Z.
Definition StateFlags : Type := Z.
Definition CELL_RENDERER_SELECTED : CellRendererState := 1.
Definition CELL_RENDERER_INSENSITIVE : CellRendererState := 4.
Definition STATE_FLAG_DIR_RTL : StateFlags := 256.

Module CellRendererText.
Record t := mk {
  property_text : string;
  property_ellipsize : EllipsizeMode;
  property_scale : double;
  property_weight : Weight;
  property_foreground : string;
  property_foreground_set : bool;
  property_xpad : Z;
  property_ypad : Z
}.
Definition set_text (v : string) (r : t) : t :=
  mk v (property_ellipsize r) (property_scale r) (property_weight r)
     (property_foreground r) (property_foreground_set r) (property_xpad r) (property_ypad r).
Definition set_ellipsize (v : EllipsizeMode) (r : t) : t :=
  mk (property_text r) v (property_scale r) (property_weight r)
     (property_foreground r) (property_foreground_set r) (property_xpad r) (property_ypad r).
Definition set_scale (v : double) (r : t) : t :=
  mk (property_text r) (property_ellipsize r) v (property_weight r)
     (property_foreground r) (property_foreground_set r) (property_xpad r) (property_ypad r).
Definition set_weight (v : Weight) (r : t) : t :=
  mk (property_text r) (property_ellipsize r) (property_scale r) v
     (property_foreground r) (property_foreground_set r) (property_xpad r) (property_ypad r).
(** Writing the colour also marks it as set. *)
Definition set_foreground (v : string) (r : t) : t :=
  mk (property_text r) (property_ellipsize r) (property_scale r) (property_weight r)
     v true (property_xpad r) (property_ypad r).
Definition set_foreground_set (v : bool) (r : t) : t :=
  mk (property_text r) (property_ellipsize r) (property_scale r) (property_weight r)
     (property_foreground r) v (property_xpad r) (property_ypad r).
End CellRendererText.

Module CellRendererProgress.
Record t := mk {
  property_value : Z;
  property_text : string;
  property_sensitive : bool
}.
Definition set_value (v : Z) (r : t) : t := mk v (property_text r) (property_sensitive r).
Definition set_text (v : string) (r : t) : t := mk (property_value r) v (property_sensitive r).
Definition set_sensitive (v : bool) (r : t) : t := mk (property_value r) (property_text r) v.
End CellRendererProgress.

Module CellRendererPixbuf.
Record t := mk {
  property_gicon : option Icon;
  property_icon_size : IconSize;
  property_sensitive : bool
}.
Definition set_gicon (v : Icon) (r : t) : t := mk (Some v) (property_icon_size r) (property_sensitive r).
Definition set_icon_size (v : IconSize) (r : t) : t := mk (property_gicon r) v (property_sensitive r).
Definition set_sensitive (v : bool) (r : t) : t := mk (property_gicon r) (property_icon_size r) v.
End CellRendererPixbuf.

(** ** Cairo objects and what is drawn

    A surface or a context is named by the call that makes it. *)

Inductive SurfaceFormat := ARGB32 | A8.

Inductive Operator := OPERATOR_CLEAR | OPERATOR_DEST_OVER | OPERATOR_HSL_COLOR.

Inductive Surface :=
| ImageSurface_create (format : SurfaceFormat) (width height : Z)
| get_target (c : Context)
| Surface_create (target : Surface) (x y width height : Z)
with Context :=
| cell_snapshot
| append_cairo (area : Rectangle.t)
| Context_create (s : Surface).

(** Where a child renderer draws: on a cairo context (gtkmm 3, and the
    cell's own snapshot) or on a snapshot made for the occasion (gtkmm 4). *)
Inductive DrawTarget :=
| OnContext (c : Context)
| OnTempSnapshot.

Inductive Event :=
| render_icon (r : CellRendererPixbuf.t) (background_area cell_area : Rectangle.t) (flags : CellRendererState)
| render_text (r : CellRendererText.t) (background_area cell_area : Rectangle.t) (flags : CellRendererState)
| render_progress (onto : DrawTarget) (r : CellRendererProgress.t)
    (background_area cell_area : Rectangle.t) (flags : CellRendererState)
| gsk_render_node_draw (from : DrawTarget) (c : Context)
| set_source_rgb (c : Context) (red green blue : double)
| set_source (c : Context) (s : Surface) (x y : double)
| set_operator (c : Context) (op : Operator)
| rectangle (c : Context) (x y width height : Z)
| fill (c : Context)
| mask (c : Context) (s : Surface) (x y : Z).

(** What GTK, the icon cache and the headers this file includes provide. *)
Class Toolkit := {
  (** the build: gtkmm 4 ([IF_GTKMM4] takes its first argument) or gtkmm 3 *)
  GTKMM4 : bool;
  Widget : Type;
  (** HigWorkarea.h *)
  GUI_PAD : Z;
  GUI_PAD_SMALL : Z;
  UnknownMimeType : string;
  DirectoryMimeType : string;
  tr_get_mime_type_for_filename : string -> string;
  (** [get_preferred_size]: minimum and natural size *)
  icon_get_preferred_size : CellRendererPixbuf.t -> Widget -> Requisition * Requisition;
  text_get_preferred_size : CellRendererText.t -> Widget -> Requisition * Requisition;
  (** [get_preferred_width]: minimum and natural width *)
  icon_get_preferred_width : CellRendererPixbuf.t -> Widget -> Z * Z;
  text_get_preferred_width : CellRendererText.t -> Widget -> Z * Z;
  (** [renderer_.get_state(widget, flags)] *)
  get_state : Widget -> CellRendererState -> StateFlags;
  device_to_user : Context -> double * double -> double * double;
  get_red : RGBA -> double;
  get_green : RGBA -> double;
  get_blue : RGBA -> double
}.

Definition DefaultBarHeight : Z := 12.
Definition CompactBarWidth : Z := 50.
(** 0.9, the nearest binary64 number *)
Definition SmallScale : double := S754_finite false 8106479329266893 (-53).

(** ** The renderer *)

(** The members of [TorrentCellRenderer::Impl], the padding of the renderer
    it belongs to, and [drawn], what has been issued so far on the snapshot
    the render functions are given. *)
Record Renderer := mkRenderer {
  torrent : option tr_torrent;
  bar_height : Z;
  upload_speed_KBps : double;
  download_speed_KBps : double;
  compact : bool;
  padding : Z * Z;
  text_renderer_ : CellRendererText.t;
  progress_renderer_ : CellRendererProgress.t;
  icon_renderer_ : CellRendererPixbuf.t;
  drawn : list Event
}.

Definition with_text_renderer (f : CellRendererText.t -> CellRendererText.t) (w : Renderer) : Renderer :=
  mkRenderer (torrent w) (bar_height w) (upload_speed_KBps w) (download_speed_KBps w) (compact w)
    (padding w) (f (text_renderer_ w)) (progress_renderer_ w) (icon_renderer_ w) (drawn w).

Definition with_progress_renderer (f : CellRendererProgress.t -> CellRendererProgress.t) (w : Renderer) : Renderer :=
  mkRenderer (torrent w) (bar_height w) (upload_speed_KBps w) (download_speed_KBps w) (compact w)
    (padding w) (text_renderer_ w) (f (progress_renderer_ w)) (icon_renderer_ w) (drawn w).

Definition with_icon_renderer (f : CellRendererPixbuf.t -> CellRendererPixbuf.t) (w : Renderer) : Renderer :=
  mkRenderer (torrent w) (bar_height w) (upload_speed_KBps w) (download_speed_KBps w) (compact w)
    (padding w) (text_renderer_ w) (progress_renderer_ w) (f (icon_renderer_ w)) (drawn w).

Definition with_drawn (f : list Event -> list Event) (w : Renderer) : Renderer :=
  mkRenderer (torrent w) (bar_height w) (upload_speed_KBps w) (download_speed_KBps w) (compact w)
    (padding w) (text_renderer_ w) (progress_renderer_ w) (icon_renderer_ w) (f (drawn w)).

(** State and failure: [None] is the dereference of a null torrent. *)
Definition M (A : Type) : Type := Renderer -> option (A * Renderer).

Definition ret {A : Type} (a : A) : M A := fun w => Some (a, w).

Definition bind {A B : Type} (m : M A) (k : A -> M B) : M B :=
  fun w => match m w with
           | Some (a, w') => k a w'
           | None => None
           end.

Definition gets {A : Type} (f : Renderer -> A) : M A := fun w => Some (f w, w).
Definition modify (f : Renderer -> Renderer) : M unit := fun w => Some (tt, f w).

Declare Scope render_scope.
Delimit Scope render_scope with render.
Notation "x <- c1 ;; c2" := (bind c1 (fun x => c2))
  (at level 61, c1 at next level, right associativity) : render_scope.
Notation "' pat <- c1 ;; c2" := (bind c1 (fun x => match x with pat => c2 end))
  (at level 61, pat pattern, c1 at next level, right associativity) : render_scope.
Notation "c1 ;; c2" := (bind c1 (fun _ => c2))
  (at level 61, right associativity) : render_scope.
Local Open Scope render_scope.

(** [static_cast<tr_torrent*>(torrent.get_value())], then used through [->]. *)
Definition deref_torrent : M tr_torrent :=
  fun w => match torrent w with
           | Some tor => Some (tor, w)
           | None => None
           end.

Definition set_text_renderer (f : CellRendererText.t -> CellRendererText.t) : M unit :=
  modify (with_text_renderer f).
Definition set_progress_renderer (f : CellRendererProgress.t -> CellRendererProgress.t) : M unit :=
  modify (with_progress_renderer f).
Definition set_icon_renderer (f : CellRendererPixbuf.t -> CellRendererPixbuf.t) : M unit :=
  modify (with_icon_renderer f).

(** One more command on the snapshot. *)
Definition emit (e : Event) : M unit := modify (with_drawn (fun l => (l ++ [e])%list)).

Fixpoint strchr (s : string) (c : ascii) : bool :=
  match s with
  | EmptyString => false
  | String a rest => if Ascii.eqb a c then true else strchr rest c
  end.

Section Rendering.

Context {F : Formatters} {T : Toolkit}.

Definition CompactIconSize : IconSize := if GTKMM4 then ICON_SIZE_NORMAL else ICON_SIZE_MENU.
Definition FullIconSize : IconSize := if GTKMM4 then ICON_SIZE_LARGE else ICON_SIZE_DND.

Definition get_icon (tor : tr_torrent) : Icon :=
  let n_files := tr_torrentFileCount tor in
  let mime_type :=
    if n_files =? 0 then UnknownMimeType
    else if 1 <? n_files then DirectoryMimeType
    else
      let name := tr_torrentFile_name tor 0 in
      if strchr name "/" then DirectoryMimeType else tr_get_mime_type_for_filename name in
  gtr_get_mime_type_icon mime_type.

(** [property_icon_size] under gtkmm 4, [property_stock_size] under gtkmm 3 *)
Definition set_icon (icon : Icon) (icon_size : IconSize) : M unit :=
  set_icon_renderer (CellRendererPixbuf.set_gicon icon) ;;
  set_icon_renderer (CellRendererPixbuf.set_icon_size icon_size).

Definition icon_renderer_get_preferred_size (widget : Widget) : M (Requisition * Requisition) :=
  gets (fun w => icon_get_preferred_size (icon_renderer_ w) widget).
Definition text_renderer_get_preferred_size (widget : Widget) : M (Requisition * Requisition) :=
  gets (fun w => text_get_preferred_size (text_renderer_ w) widget).
Definition icon_renderer_get_preferred_width (widget : Widget) : M (Z * Z) :=
  gets (fun w => icon_get_preferred_width (icon_renderer_ w) widget).
Definition text_renderer_get_preferred_width (widget : Widget) : M (Z * Z) :=
  gets (fun w => text_get_preferred_width (text_renderer_ w) widget).

(** The result is the pair written to [width] and [height]. *)
Definition get_size_compact (widget : Widget) : M (Z * Z) :=
  tor <- deref_torrent ;;
  let st := tr_torrentStatCached tor in
  let icon := get_icon tor in
  let name := tr_torrentName tor in
  up <- gets upload_speed_KBps ;;
  down <- gets download_speed_KBps ;;
  let gstr_stat := getShortStatusString tor st up down in
  '(xpad, ypad) <- gets padding ;;
  (* get the idealized cell dimensions *)
  set_icon icon CompactIconSize ;;
  '(min_size, icon_size) <- icon_renderer_get_preferred_size widget ;;
  set_text_renderer (CellRendererText.set_text name) ;;
  set_text_renderer (CellRendererText.set_ellipsize ELLIPSIZE_NONE) ;;
  set_text_renderer (CellRendererText.set_scale Double.one) ;;
  '(min_size, name_size) <- text_renderer_get_preferred_size widget ;;
  set_text_renderer (CellRendererText.set_text gstr_stat) ;;
  set_text_renderer (CellRendererText.set_scale SmallScale) ;;
  '(min_size, stat_size) <- text_renderer_get_preferred_size widget ;;
  (* LAYOUT *)
  bar <- gets bar_height ;;
  let width := xpad * 2 + REQ_WIDTH icon_size + GUI_PAD + CompactBarWidth + GUI_PAD + REQ_WIDTH stat_size in
  let height := ypad * 2 + std_max (REQ_HEIGHT name_size) bar in
  ret (width, height).

Definition get_size_full (widget : Widget) : M (Z * Z) :=
  tor <- deref_torrent ;;
  let st := tr_torrentStatCached tor in
  let total_size := tr_torrentTotalSize tor in
  let icon := get_icon tor in
  let name := tr_torrentName tor in
  up <- gets upload_speed_KBps ;;
  down <- gets download_speed_KBps ;;
  let gstr_stat := getStatusString tor st up down true in
  let gstr_prog := getProgressString tor total_size st in
  '(xpad, ypad) <- gets padding ;;
  (* get the idealized cell dimensions *)
  set_icon icon FullIconSize ;;
  '(min_size, icon_size) <- icon_renderer_get_preferred_size widget ;;
  set_text_renderer (CellRendererText.set_text name) ;;
  set_text_renderer (CellRendererText.set_weight WEIGHT_BOLD) ;;
  set_text_renderer (CellRendererText.set_scale Double.one) ;;
  set_text_renderer (CellRendererText.set_ellipsize ELLIPSIZE_NONE) ;;
  '(min_size, name_size) <- text_renderer_get_preferred_size widget ;;
  set_text_renderer (CellRendererText.set_text gstr_prog) ;;
  set_text_renderer (CellRendererText.set_weight WEIGHT_NORMAL) ;;
  set_text_renderer (CellRendererText.set_scale SmallScale) ;;
  '(min_size, prog_size) <- text_renderer_get_preferred_size widget ;;
  set_text_renderer (CellRendererText.set_text gstr_stat) ;;
  '(min_size, stat_size) <- text_renderer_get_preferred_size widget ;;
  (* LAYOUT *)
  bar <- gets bar_height ;;
  let width := xpad * 2 + REQ_WIDTH icon_size + GUI_PAD
               + std_max (REQ_WIDTH prog_size) (REQ_WIDTH stat_size) in
  let height := ypad * 2 + REQ_HEIGHT name_size + REQ_HEIGHT prog_size + GUI_PAD_SMALL + bar
                + GUI_PAD_SMALL + REQ_HEIGHT stat_size in
  ret (width, height).

(** The arguments are the contents of the two output parameters at the
    call, the result their contents at the return. *)
Definition get_preferred_width_vfunc (widget : Widget) (minimum_width natural_width : Z) : M (Z * Z) :=
  t <- gets torrent ;;
  match t with
  | Some _ =>
      c <- gets compact ;;
      '(w, h) <- (if c then get_size_compact widget else get_size_full widget) ;;
      ret (w, w)
  | None => ret (minimum_width, natural_width)
  end.

Definition get_preferred_height_vfunc (widget : Widget) (minimum_height natural_height : Z) : M (Z * Z) :=
  t <- gets torrent ;;
  match t with
  | Some _ =>
      c <- gets compact ;;
      '(w, h) <- (if c then get_size_compact widget else get_size_full widget) ;;
      ret (h, h)
  | None => ret (minimum_height, natural_height)
  end.

Definition get_progress_bar_color (st : tr_stat) : RGBA :=
  let steelblue_color := Gdk_RGBA "steelblue" in
  let forestgreen_color := Gdk_RGBA "forestgreen" in
  let silver_color := Gdk_RGBA "silver" in
  if activity_eqb (activity st) TR_STATUS_DOWNLOAD then steelblue_color
  else if activity_eqb (activity st) TR_STATUS_SEED then forestgreen_color
  else silver_color.

Definition get_mask_surface (surface : Surface) (area : Rectangle.t) : M Surface :=
  let mask_surface := ImageSurface_create A8 (Rectangle.get_width area) (Rectangle.get_height area) in
  let mask_context := Context_create mask_surface in
  emit (set_source_rgb mask_context (Double.of_int 0) (Double.of_int 0) (Double.of_int 0)) ;;
  emit (rectangle mask_context (Rectangle.get_x area) (Rectangle.get_y area)
          (Rectangle.get_width area) (Rectangle.get_height area)) ;;
  emit (fill mask_context) ;;
  emit (set_operator mask_context OPERATOR_CLEAR) ;;
  emit (mask mask_context surface (Rectangle.get_x area) (Rectangle.get_y area)) ;;
  emit (fill mask_context) ;;
  ret mask_surface.

Definition adjust_progress_bar_hue (bg_surface : Surface) (context : Context) (color : RGBA)
    (area : Rectangle.t) (bg_x bg_y : double) : M unit :=
  mask_surface <- get_mask_surface (get_target context) area ;;
  (* Add background under the progress bar, for better results around the transparent areas *)
  emit (set_source context bg_surface bg_x bg_y) ;;
  emit (set_operator context OPERATOR_DEST_OVER) ;;
  emit (rectangle context (Rectangle.get_x area) (Rectangle.get_y area)
          (Rectangle.get_width area) (Rectangle.get_height area)) ;;
  emit (fill context) ;;
  (* Adjust surface color *)
  emit (set_source_rgb context (get_red color) (get_green color) (get_blue color)) ;;
  emit (set_operator context OPERATOR_HSL_COLOR) ;;
  emit (rectangle context (Rectangle.get_x area) (Rectangle.get_y area)
          (Rectangle.get_width area) (Rectangle.get_height area)) ;;
  emit (fill context) ;;
  (* Clear out masked (fully transparent) areas *)
  emit (set_operator context OPERATOR_CLEAR) ;;
  emit (mask context mask_surface (Rectangle.get_x area) (Rectangle.get_y area)) ;;
  emit (fill context).

Definition render_progress_bar (snapshot : Context) (widget : Widget) (area : Rectangle.t)
    (flags : CellRendererState) (color : RGBA) : M unit :=
  let temp_area := Rectangle.mk 0 0 (Rectangle.get_width area) (Rectangle.get_height area) in
  let temp_surface := ImageSurface_create ARGB32 (Rectangle.get_width area) (Rectangle.get_height area) in
  let temp_context := Context_create temp_surface in
  progress <- gets progress_renderer_ ;;
  (if GTKMM4 then
     emit (render_progress OnTempSnapshot progress temp_area temp_area flags) ;;
     emit (gsk_render_node_draw OnTempSnapshot temp_context)
   else
     emit (render_progress (OnContext temp_context) progress temp_area temp_area flags)) ;;
  let context := if GTKMM4 then append_cairo area else snapshot in
  let surface :=
    if GTKMM4 then get_target context
    else Surface_create (get_target context) (Rectangle.get_x area) (Rectangle.get_y area)
           (Rectangle.get_width area) (Rectangle.get_height area) in
  let '(dx, dy) := device_to_user context (Double.of_int 0, Double.of_int 0) in
  adjust_progress_bar_hue surface temp_context color temp_area
    (Double.sub dx (Double.of_int (Rectangle.get_x area)))
    (Double.sub dy (Double.of_int (Rectangle.get_y area))) ;;
  emit (set_source context (get_target temp_context)
          (Double.of_int (Rectangle.get_x area)) (Double.of_int (Rectangle.get_y area))) ;;
  emit (rectangle context (Rectangle.get_x area) (Rectangle.get_y area)
          (Rectangle.get_width area) (Rectangle.get_height area)) ;;
  emit (fill context).

Definition render_compact (snapshot : Context) (widget : Widget)
    (background_area : Rectangle.t) (flags : CellRendererState) : M unit :=
  tor <- deref_torrent ;;
  let st := tr_torrentStatCached tor in
  let active := negb (activity_eqb (activity st) TR_STATUS_STOPPED)
                && negb (activity_eqb (activity st) TR_STATUS_DOWNLOAD_WAIT)
                && negb (activity_eqb (activity st) TR_STATUS_SEED_WAIT) in
  let '(percentDone, seed) := get_percent_done tor st in
  let sensitive := active || negb (errtype_value (error st) =? 0) in
  let flags :=
    if activity_eqb (activity st) TR_STATUS_STOPPED
    then Z.lor flags CELL_RENDERER_INSENSITIVE else flags in
  (if negb (errtype_value (error st) =? 0) && (Z.land flags CELL_RENDERER_SELECTED =? 0)
   then set_text_renderer (CellRendererText.set_foreground "red")
   else set_text_renderer (CellRendererText.set_foreground_set false)) ;;
  let icon := get_icon tor in
  let name := tr_torrentName tor in
  let progress_color := get_progress_bar_color st in
  up <- gets upload_speed_KBps ;;
  down <- gets download_speed_KBps ;;
  let gstr_stat := getShortStatusString tor st up down in
  '(xpad, ypad) <- gets padding ;;

  let fill_area := background_area in
  let fill_area := Rectangle.set_x (Rectangle.get_x fill_area + xpad) fill_area in
  let fill_area := Rectangle.set_y (Rectangle.get_y fill_area + ypad) fill_area in
  let fill_area := Rectangle.set_width (Rectangle.get_width fill_area - xpad * 2) fill_area in
  let fill_area := Rectangle.set_height (Rectangle.get_height fill_area - ypad * 2) fill_area in

  let icon_area := fill_area in
  set_icon icon CompactIconSize ;;
  '(min_width, width) <- icon_renderer_get_preferred_width widget ;;
  let icon_area := Rectangle.set_width width icon_area in

  let prog_area := fill_area in
  let prog_area := Rectangle.set_width CompactBarWidth prog_area in

  let stat_area := fill_area in
  set_text_renderer (CellRendererText.set_text gstr_stat) ;;
  set_text_renderer (CellRendererText.set_ellipsize ELLIPSIZE_NONE) ;;
  set_text_renderer (CellRendererText.set_scale SmallScale) ;;
  '(min_width, width) <- text_renderer_get_preferred_width widget ;;
  let stat_area := Rectangle.set_width width stat_area in

  let name_area := fill_area in
  let name_area :=
    Rectangle.set_width
      (Rectangle.get_width fill_area - Rectangle.get_width icon_area - Rectangle.get_width stat_area
       - Rectangle.get_width prog_area - GUI_PAD * 3) name_area in

  let '(icon_area, prog_area, stat_area, name_area) :=
    if Z.land (get_state widget flags) STATE_FLAG_DIR_RTL =? 0 then
      let icon_area := Rectangle.set_x (Rectangle.get_x fill_area) icon_area in
      let prog_area :=
        Rectangle.set_x (Rectangle.get_x fill_area + Rectangle.get_width fill_area
                         - Rectangle.get_width prog_area) prog_area in
      let stat_area :=
        Rectangle.set_x (Rectangle.get_x prog_area - Rectangle.get_width stat_area - GUI_PAD) stat_area in
      let name_area :=
        Rectangle.set_x (Rectangle.get_x icon_area + Rectangle.get_width icon_area + GUI_PAD) name_area in
      (icon_area, prog_area, stat_area, name_area)
    else
      let icon_area :=
        Rectangle.set_x (Rectangle.get_x fill_area + Rectangle.get_width fill_area
                         - Rectangle.get_width icon_area) icon_area in
      let prog_area := Rectangle.set_x (Rectangle.get_x fill_area) prog_area in
      let stat_area :=
        Rectangle.set_x (Rectangle.get_x prog_area + Rectangle.get_width prog_area + GUI_PAD) stat_area in
      let name_area :=
        Rectangle.set_x (Rectangle.get_x stat_area + Rectangle.get_width stat_area + GUI_PAD) name_area in
      (icon_area, prog_area, stat_area, name_area) in

  (* RENDER *)
  set_icon icon CompactIconSize ;;
  set_icon_renderer (CellRendererPixbuf.set_sensitive sensitive) ;;
  icon_r <- gets icon_renderer_ ;;
  emit (render_icon icon_r icon_area icon_area flags) ;;

  let percent_done := Double.to_int (Double.mul percentDone Double.hundred) in
  set_progress_renderer (CellRendererProgress.set_value percent_done) ;;
  set_progress_renderer (CellRendererProgress.set_text (fmt_int percent_done ++ "%")) ;;
  set_progress_renderer (CellRendererProgress.set_sensitive sensitive) ;;
  render_progress_bar snapshot widget prog_area flags progress_color ;;

  set_text_renderer (CellRendererText.set_text gstr_stat) ;;
  set_text_renderer (CellRendererText.set_scale SmallScale) ;;
  set_text_renderer (CellRendererText.set_ellipsize ELLIPSIZE_END) ;;
  text_r <- gets text_renderer_ ;;
  emit (render_text text_r stat_area stat_area flags) ;;

  set_text_renderer (CellRendererText.set_text name) ;;
  set_text_renderer (CellRendererText.set_scale Double.one) ;;
  text_r <- gets text_renderer_ ;;
  emit (render_text text_r name_area name_area flags).

Definition render_full (snapshot : Context) (widget : Widget)
    (background_area : Rectangle.t) (flags : CellRendererState) : M unit :=
  tor <- deref_torrent ;;
  let st := tr_torrentStatCached tor in
  let total_size := tr_torrentTotalSize tor in
  let active := negb (activity_eqb (activity st) TR_STATUS_STOPPED)
                && negb (activity_eqb (activity st) TR_STATUS_DOWNLOAD_WAIT)
                && negb (activity_eqb (activity st) TR_STATUS_SEED_WAIT) in
  let '(percentDone, seed) := get_percent_done tor st in
  let sensitive := active || negb (errtype_value (error st) =? 0) in
  let flags :=
    if activity_eqb (activity st) TR_STATUS_STOPPED
    then Z.lor flags CELL_RENDERER_INSENSITIVE else flags in
  (if negb (errtype_value (error st) =? 0) && (Z.land flags CELL_RENDERER_SELECTED =? 0)
   then set_text_renderer (CellRendererText.set_foreground "red")
   else set_text_renderer (CellRendererText.set_foreground_set false)) ;;
  let icon := get_icon tor in
  let name := tr_torrentName tor in
  let progress_color := get_progress_bar_color st in
  let gstr_prog := getProgressString tor total_size st in
  up <- gets upload_speed_KBps ;;
  down <- gets download_speed_KBps ;;
  let gstr_stat := getStatusString tor st up down false in
  '(xpad, ypad) <- gets padding ;;

  (* get the idealized cell dimensions *)
  let icon_area := Rectangle.default in
  set_icon icon FullIconSize ;;
  '(min_size, size) <- icon_renderer_get_preferred_size widget ;;
  let icon_area := Rectangle.set_width (REQ_WIDTH size) icon_area in
  let icon_area := Rectangle.set_height (REQ_HEIGHT size) icon_area in

  let name_area := Rectangle.default in
  set_text_renderer (CellRendererText.set_text name) ;;
  set_text_renderer (CellRendererText.set_weight WEIGHT_BOLD) ;;
  set_text_renderer (CellRendererText.set_ellipsize ELLIPSIZE_NONE) ;;
  set_text_renderer (CellRendererText.set_scale Double.one) ;;
  '(min_size, size) <- text_renderer_get_preferred_size widget ;;
  let name_area := Rectangle.set_height (REQ_HEIGHT size) name_area in

  let prog_area := Rectangle.default in
  set_text_renderer (CellRendererText.set_text gstr_prog) ;;
  set_text_renderer (CellRendererText.set_weight WEIGHT_NORMAL) ;;
  set_text_renderer (CellRendererText.set_scale SmallScale) ;;
  '(min_size, size) <- text_renderer_get_preferred_size widget ;;
  let prog_area := Rectangle.set_height (REQ_HEIGHT size) prog_area in

  let stat_area := Rectangle.default in
  set_text_renderer (CellRendererText.set_text gstr_stat) ;;
  '(min_size, size) <- text_renderer_get_preferred_size widget ;;
  let stat_area := Rectangle.set_height (REQ_HEIGHT size) stat_area in

  let prct_area := Rectangle.default in

  (* LAYOUT *)
  let fill_area := background_area in
  let fill_area := Rectangle.set_x (Rectangle.get_x fill_area + xpad) fill_area in
  let fill_area := Rectangle.set_y (Rectangle.get_y fill_area + ypad) fill_area in
  let fill_area := Rectangle.set_width (Rectangle.get_width fill_area - xpad * 2) fill_area in
  let fill_area := Rectangle.set_height (Rectangle.get_height fill_area - ypad * 2) fill_area in

  (* icon *)
  let icon_area :=
    Rectangle.set_y (Rectangle.get_y fill_area
                     + Z.quot (Rectangle.get_height fill_area - Rectangle.get_height icon_area) 2)
      icon_area in

  (* name *)
  let name_area := Rectangle.set_y (Rectangle.get_y fill_area) name_area in
  let name_area :=
    Rectangle.set_width (Rectangle.get_width fill_area - GUI_PAD - Rectangle.get_width icon_area)
      name_area in

  let '(icon_area, name_area) :=
    if Z.land (get_state widget flags) STATE_FLAG_DIR_RTL =? 0 then
      let icon_area := Rectangle.set_x (Rectangle.get_x fill_area) icon_area in
      let name_area :=
        Rectangle.set_x (Rectangle.get_x fill_area + Rectangle.get_width fill_area
                         - Rectangle.get_width name_area) name_area in
      (icon_area, name_area)
    else
      let icon_area :=
        Rectangle.set_x (Rectangle.get_x fill_area + Rectangle.get_width fill_area
                         - Rectangle.get_width icon_area) icon_area in
      let name_area := Rectangle.set_x (Rectangle.get_x fill_area) name_area in
      (icon_area, name_area) in

  (* prog *)
  let prog_area := Rectangle.set_x (Rectangle.get_x name_area) prog_area in
  let prog_area := Rectangle.set_y (Rectangle.get_y name_area + Rectangle.get_height name_area) prog_area in
  let prog_area := Rectangle.set_width (Rectangle.get_width name_area) prog_area in

  (* progressbar *)
  bar <- gets bar_height ;;
  let prct_area := Rectangle.set_x (Rectangle.get_x prog_area) prct_area in
  let prct_area :=
    Rectangle.set_y (Rectangle.get_y prog_area + Rectangle.get_height prog_area + GUI_PAD_SMALL)
      prct_area in
  let prct_area := Rectangle.set_width (Rectangle.get_width prog_area) prct_area in
  let prct_area := Rectangle.set_height bar prct_area in

  (* status *)
  let stat_area := Rectangle.set_x (Rectangle.get_x prct_area) stat_area in
  let stat_area :=
    Rectangle.set_y (Rectangle.get_y prct_area + Rectangle.get_height prct_area + GUI_PAD_SMALL)
      stat_area in
  let stat_area := Rectangle.set_width (Rectangle.get_width prct_area) stat_area in

  (* RENDER *)
  set_icon icon FullIconSize ;;
  set_icon_renderer (CellRendererPixbuf.set_sensitive sensitive) ;;
  icon_r <- gets icon_renderer_ ;;
  emit (render_icon icon_r icon_area icon_area flags) ;;

  set_text_renderer (CellRendererText.set_text name) ;;
  set_text_renderer (CellRendererText.set_scale Double.one) ;;
  set_text_renderer (CellRendererText.set_ellipsize ELLIPSIZE_END) ;;
  set_text_renderer (CellRendererText.set_weight WEIGHT_BOLD) ;;
  text_r <- gets text_renderer_ ;;
  emit (render_text text_r name_area name_area flags) ;;

  set_text_renderer (CellRendererText.set_text gstr_prog) ;;
  set_text_renderer (CellRendererText.set_scale SmallScale) ;;
  set_text_renderer (CellRendererText.set_weight WEIGHT_NORMAL) ;;
  text_r <- gets text_renderer_ ;;
  emit (render_text text_r prog_area prog_area flags) ;;

  set_progress_renderer (CellRendererProgress.set_value (Double.to_int (Double.mul percentDone Double.hundred))) ;;
  set_progress_renderer (CellRendererProgress.set_text "") ;;
  set_progress_renderer (CellRendererProgress.set_sensitive sensitive) ;;
  render_progress_bar snapshot widget prct_area flags progress_color ;;

  set_text_renderer (CellRendererText.set_text gstr_stat) ;;
  text_r <- gets text_renderer_ ;;
  emit (render_text text_r stat_area stat_area flags).

(** [snapshot_vfunc] under gtkmm 4, [render_vfunc] under gtkmm 3; the
    cell area is not used. *)
Definition render_vfunc (snapshot : Context) (widget : Widget)
    (background_area cell_area : Rectangle.t) (flags : CellRendererState) : M unit :=
  t <- gets torrent ;;
  match t with
  | Some _ =>
      c <- gets compact ;;
      if c then render_compact snapshot widget background_area flags
      else render_full snapshot widget background_area flags
  | None => ret tt
  end.

End Rendering.

(** The constructor of [Impl]: no torrent, the default bar height, zero
    speeds, full layout; the text renderer gets no padding of its own.  The
    arguments are the child renderers as GTK makes them and the padding of
    the renderer. *)
Definition Impl_new (text0 : CellRendererText.t) (progress0 : CellRendererProgress.t)
    (icon0 : CellRendererPixbuf.t) (pad : Z * Z) : Renderer :=
  mkRenderer None DefaultBarHeight (Double.of_int 0) (Double.of_int 0) false pad
    (CellRendererText.mk
       (CellRendererText.property_text text0) (CellRendererText.property_ellipsize text0)
       (CellRendererText.property_scale text0) (CellRendererText.property_weight text0)
       (CellRendererText.property_foreground text0) (CellRendererText.property_foreground_set text0)
       0 0)
    progress0 icon0 [].

(** [property_torrent() = tor] and [property_compact() = c] *)
Definition set_property_torrent (t : option tr_torrent) (w : Renderer) : Renderer :=
  mkRenderer t (bar_height w) (upload_speed_KBps w) (download_speed_KBps w) (compact w)
    (padding w) (text_renderer_ w) (progress_renderer_ w) (icon_renderer_ w) (drawn w).

Definition set_property_compact (c : bool) (w : Renderer) : Renderer :=
  mkRenderer (torrent w) (bar_height w) (upload_speed_KBps w) (download_speed_KBps w) c
    (padding w) (text_renderer_ w) (progress_renderer_ w) (icon_renderer_ w) (drawn w).

(** ** What the properties are stated with *)

(** The five formats of a progress string. *)
Inductive ProgressFormat :=
| Downloading
| PartialSeedWithRatio
| PartialSeedNoRatio
| SeedWithRatio
| SeedNoRatio.

Definition progress_format (isDone isSeed hasSeedRatio : bool) : ProgressFormat :=
  match isDone, isSeed, hasSeedRatio with
  | false, _, _ => Downloading
  | true, false, true => PartialSeedWithRatio
  | true, false, false => PartialSeedNoRatio
  | true, true, true => SeedWithRatio
  | true, true, false => SeedNoRatio
  end.

Definition has_seed_ratio (tor : tr_torrent) : bool :=
  match tr_torrentGetSeedRatio tor with Some _ => true | None => false end.

Definition seed_ratio_goal (tor : tr_torrent) : double :=
  match tr_torrentGetSeedRatio tor with Some r => r | None => Double.zero end.

Section StringProperties.

Context {F : Formatters}.

Definition progress_text (f : ProgressFormat) (tor : tr_torrent) (total_size : Z) (st : tr_stat) : string :=
  let have := tr_strlsize ((haveUnchecked st + haveValid st) mod 2 ^ 64) in
  let complete := tr_strpercent (Double.mul (percentComplete st) Double.hundred) in
  let uploaded := tr_strlsize (uploadedEver st) in
  match f with
  | Downloading =>
      fmt_format (gettext "{current_size} of {complete_size} ({percent_done}%)")
        [ ("current_size", FmtStr have);
          ("complete_size", FmtStr (tr_strlsize (sizeWhenDone st)));
          ("percent_done", FmtStr (tr_strpercent (Double.mul (percentDone st) Double.hundred))) ]
  | PartialSeedWithRatio =>
      fmt_format
        (gettext "{current_size} of {complete_size} ({percent_complete}%), uploaded {uploaded_size} (Ratio: {ratio}, Goal: {seed_ratio})")
        [ ("current_size", FmtStr have);
          ("complete_size", FmtStr (tr_strlsize total_size));
          ("percent_complete", FmtStr complete);
          ("uploaded_size", FmtStr uploaded);
          ("ratio", FmtStr (tr_strlratio (ratio st)));
          ("seed_ratio", FmtStr (tr_strlratio (seed_ratio_goal tor))) ]
  | PartialSeedNoRatio =>
      fmt_format
        (gettext "{current_size} of {complete_size} ({percent_complete}%), uploaded {uploaded_size} (Ratio: {ratio})")
        [ ("current_size", FmtStr have);
          ("complete_size", FmtStr (tr_strlsize total_size));
          ("percent_complete", FmtStr complete);
          ("uploaded_size", FmtStr uploaded);
          ("ratio", FmtStr (tr_strlratio (ratio st))) ]
  | SeedWithRatio =>
      fmt_format
        (gettext "{complete_size}, uploaded {uploaded_size} (Ratio: {ratio}, Goal: {seed_ratio})")
        [ ("complete_size", FmtStr (tr_strlsize total_size));
          ("uploaded_size", FmtStr uploaded);
          ("ratio", FmtStr (tr_strlratio (ratio st)));
          ("seed_ratio", FmtStr (tr_strlratio (seed_ratio_goal tor))) ]
  | SeedNoRatio =>
      fmt_format
        (gettext "{complete_size}, uploaded {uploaded_size} (Ratio: {ratio})")
        [ ("complete_size", FmtStr (tr_strlsize total_size));
          ("uploaded_size", FmtStr uploaded);
          ("ratio", FmtStr (tr_strlratio (ratio st))) ]
  end.

(** The suffix that tells the time remaining, empty when there is none. *)
Definition time_remaining_suffix (tor : tr_torrent) (st : tr_stat) : string :=
  match activity st, has_seed_ratio tor with
  | TR_STATUS_DOWNLOAD, _
  | TR_STATUS_SEED, true =>
      " - " ++ (if eta st <? 0 then gettext "Remaining time unknown" else tr_format_time_left (eta st))
  | _, _ => ""
  end.

(** The transfer suffix of a status string, empty when there is none. *)
Definition transfer_suffix (tor : tr_torrent) (st : tr_stat) (up down : double) : string :=
  match activity st with
  | TR_STATUS_DOWNLOAD
  | TR_STATUS_SEED =>
      match getShortTransferString tor st up down with
      | EmptyString => ""
      | buf => " - " ++ buf
      end
  | _ => ""
  end.

End StringProperties.

(** The colours of the progress bar. *)
Definition activity_color (a : tr_torrent_activity) : RGBA :=
  match a with
  | TR_STATUS_DOWNLOAD => Gdk_RGBA "steelblue"
  | TR_STATUS_SEED => Gdk_RGBA "forestgreen"
  | _ => Gdk_RGBA "silver"
  end.

(** ** A sample environment

    Untranslated messages, named-argument substitution and crude number
    formats on one side, a GTK 3 with fixed-size glyphs on the other.  The
    properties below hold for every environment; this one is used to run the
    code on concrete rows. *)

Module Sample.

Definition show (v : fmt_value) : string :=
  match v with
  | FmtStr s => s
  | FmtInt z => fmt_int z
  | FmtDouble d => fmt_int (Double.to_int d)
  end.

Fixpoint lookup_arg (name : string) (args : list fmt_arg) : string :=
  match args with
  | [] => ""
  | (n, v) :: rest => if String.eqb n name then show v else lookup_arg name rest
  end.

(** [{name}] is replaced by the argument of that name. *)
Fixpoint substitute (template : string) (field : option string) (args : list fmt_arg) : string :=
  match template with
  | EmptyString => ""
  | String c rest =>
      match field with
      | None =>
          if Ascii.eqb c "{" then substitute rest (Some "") args
          else String c (substitute rest None args)
      | Some name =>
          if Ascii.eqb c "}" then lookup_arg name args ++ substitute rest None args
          else substitute rest (Some (name ++ String c "")) args
      end
  end.

#[export] Instance formatters : Formatters := {
  gettext := fun s => s;
  ngettext := fun singular plural n => if n =? 1 then singular else plural;
  fmt_format := fun template args => substitute template None args;
  tr_strlsize := fun n => fmt_int n ++ " B";
  tr_strpercent := fun d => fmt_int (Double.to_int d);
  tr_strlratio := fun d => fmt_int (Double.to_int d);
  tr_format_time_left := fun s => fmt_int s ++ " seconds";
  tr_formatter_speed_KBps := fun d => fmt_int (Double.to_int d) ++ " kB/s";
  tr_truncd := fun d _ => d
}.

Definition icon_pixels (s : IconSize) : Z :=
  match s with
  | ICON_SIZE_MENU | ICON_SIZE_NORMAL => 16
  | ICON_SIZE_DND | ICON_SIZE_LARGE => 32
  end.

Definition text_pixels (r : CellRendererText.t) : Z :=
  7 * Z.of_nat (String.length (CellRendererText.property_text r)).

(** The widget is its text direction: [true] is right to left. *)
#[export] Instance gtk3 : Toolkit := {
  GTKMM4 := false;
  Widget := bool;
  GUI_PAD := 6;
  GUI_PAD_SMALL := 3;
  UnknownMimeType := "unknown";
  DirectoryMimeType := "folder";
  tr_get_mime_type_for_filename := fun _ => "application/octet-stream";
  icon_get_preferred_size := fun r _ =>
    let s := icon_pixels (CellRendererPixbuf.property_icon_size r) in
    (Build_Requisition s s, Build_Requisition s s);
  text_get_preferred_size := fun r _ =>
    (Build_Requisition 0 14, Build_Requisition (text_pixels r) 14);
  icon_get_preferred_width := fun r _ =>
    let s := icon_pixels (CellRendererPixbuf.property_icon_size r) in (s, s);
  text_get_preferred_width := fun r _ => (0, text_pixels r);
  get_state := fun rtl _ => if rtl then 256 else 128;
  device_to_user := fun _ p => p;
  get_red := fun _ => Double.zero;
  get_green := fun _ => Double.zero;
  get_blue := fun _ => Double.zero
}.

Definition quarter : double := binary_normalize 53 1024 1 (-2) false.

(** A download in progress: 50 of 200 bytes, two of three peers sending. *)
Definition stat : tr_stat := {|
  activity := TR_STATUS_DOWNLOAD;
  error := TR_STAT_OK;
  errorString := "";
  leftUntilDone := 150;
  haveUnchecked := 0;
  haveValid := 50;
  sizeWhenDone := 200;
  uploadedEver := 0;
  percentDone := quarter;
  percentComplete := quarter;
  metadataPercentComplete := Double.one;
  seedRatioPercentDone := Double.zero;
  recheckProgress := Double.zero;
  ratio := Double.zero;
  eta := 60;
  peersConnected := 3;
  peersSendingToUs := 2;
  peersGettingFromUs := 0;
  webseedsSendingToUs := 0;
  isStalled := false;
  finished := false
|}.

Definition with_error (e : tr_stat_errtype) (msg : string) (st : tr_stat) : tr_stat := {|
  activity := activity st;
  error := e;
  errorString := msg;
  leftUntilDone := leftUntilDone st;
  haveUnchecked := haveUnchecked st;
  haveValid := haveValid st;
  sizeWhenDone := sizeWhenDone st;
  uploadedEver := uploadedEver st;
  percentDone := percentDone st;
  percentComplete := percentComplete st;
  metadataPercentComplete := metadataPercentComplete st;
  seedRatioPercentDone := seedRatioPercentDone st;
  recheckProgress := recheckProgress st;
  ratio := ratio st;
  eta := eta st;
  peersConnected := peersConnected st;
  peersSendingToUs := peersSendingToUs st;
  peersGettingFromUs := peersGettingFromUs st;
  webseedsSendingToUs := webseedsSendingToUs st;
  isStalled := isStalled st;
  finished := finished st
|}.

Definition with_percentDone (d : double) (st : tr_stat) : tr_stat := {|
  activity := activity st;
  error := error st;
  errorString := errorString st;
  leftUntilDone := leftUntilDone st;
  haveUnchecked := haveUnchecked st;
  haveValid := haveValid st;
  sizeWhenDone := sizeWhenDone st;
  uploadedEver := uploadedEver st;
  percentDone := d;
  percentComplete := percentComplete st;
  metadataPercentComplete := metadataPercentComplete st;
  seedRatioPercentDone := seedRatioPercentDone st;
  recheckProgress := recheckProgress st;
  ratio := ratio st;
  eta := eta st;
  peersConnected := peersConnected st;
  peersSendingToUs := peersSendingToUs st;
  peersGettingFromUs := peersGettingFromUs st;
  webseedsSendingToUs := webseedsSendingToUs st;
  isStalled := isStalled st;
  finished := finished st
|}.

Definition tor : tr_torrent := {|
  tor_name := "ubuntu.iso";
  tor_files := ["ubuntu.iso"];
  tor_total_size := 200;
  tor_has_metadata := true;
  tor_seed_ratio := None;
  tor_stats := stat
|}.

Definition text0 : CellRendererText.t :=
  CellRendererText.mk "" ELLIPSIZE_NONE Double.one WEIGHT_NORMAL "" false 2 2.
Definition progress0 : CellRendererProgress.t := CellRendererProgress.mk 0 "" true.
Definition icon0 : CellRendererPixbuf.t := CellRendererPixbuf.mk None ICON_SIZE_MENU true.

(** A fresh renderer with a padding of 2 by 1, and the same showing [tor]. *)
Definition fresh : Renderer := Impl_new text0 progress0 icon0 (2, 1).
Definition row (compact_layout : bool) : Renderer :=
  set_property_compact compact_layout (set_property_torrent (Some tor) fresh).

Definition cell : Rectangle.t := Rectangle.mk 10 20 400 30.

Definition ltr : @Widget gtk3 := false.
Definition rtl : @Widget gtk3 := true.

(** The same download after the disk filled up. *)
Definition failing : tr_stat := with_error TR_STAT_LOCAL_ERROR "disk full" stat.

(** The same download with a statistics snapshot whose progress is a NaN. *)
Definition undefined_progress : tr_stat := with_percentDone S754_nan stat.

End Sample.

(** ** The stages of the progress-bar pipeline *)

Section Pipeline.

Context {T : Toolkit}.

Variables (snapshot : Context) (area : Rectangle.t) (flags : CellRendererState)
  (color : RGBA) (progress : CellRendererProgress.t).

(** The target area moved to the origin. *)
Definition whole : Rectangle.t :=
  Rectangle.mk 0 0 (Rectangle.get_width area) (Rectangle.get_height area).

Definition indicator_surface : Surface :=
  ImageSurface_create ARGB32 (Rectangle.get_width area) (Rectangle.get_height area).
Definition indicator : Context := Context_create indicator_surface.

Definition transparency_mask : Surface :=
  ImageSurface_create A8 (Rectangle.get_width area) (Rectangle.get_height area).
Definition mask_cr : Context := Context_create transparency_mask.

(** Where the result goes, and the part of it that lies under the bar. *)
Definition output : Context := if GTKMM4 then append_cairo area else snapshot.
Definition background : Surface :=
  if GTKMM4 then get_target output
  else Surface_create (get_target output) (Rectangle.get_x area) (Rectangle.get_y area)
         (Rectangle.get_width area) (Rectangle.get_height area).
Definition background_x : double :=
  Double.sub (fst (device_to_user output (Double.of_int 0, Double.of_int 0)))
             (Double.of_int (Rectangle.get_x area)).
Definition background_y : double :=
  Double.sub (snd (device_to_user output (Double.of_int 0, Double.of_int 0)))
             (Double.of_int (Rectangle.get_y area)).

(** 1. the progress renderer is drawn into a fresh ARGB32 surface *)
Definition draw_indicator : list Event :=
  if GTKMM4 then
    [ render_progress OnTempSnapshot progress whole whole flags;
      gsk_render_node_draw OnTempSnapshot indicator ]
  else
    [ render_progress (OnContext indicator) progress whole whole flags ].

(** 2. an A8 mask: filled black, then cleared through the indicator *)
Definition build_mask : list Event :=
  [ set_source_rgb mask_cr Double.zero Double.zero Double.zero;
    rectangle mask_cr 0 0 (Rectangle.get_width area) (Rectangle.get_height area);
    fill mask_cr;
    set_operator mask_cr OPERATOR_CLEAR;
    mask mask_cr (get_target indicator) 0 0;
    fill mask_cr ].

(** 3. the background goes underneath *)
Definition composite_background : list Event :=
  [ set_source indicator background background_x background_y;
    set_operator indicator OPERATOR_DEST_OVER;
    rectangle indicator 0 0 (Rectangle.get_width area) (Rectangle.get_height area);
    fill indicator ].

(** 4. the whole area takes the hue of the colour *)
Definition recolor : list Event :=
  [ set_source_rgb indicator (get_red color) (get_green color) (get_blue color);
    set_operator indicator OPERATOR_HSL_COLOR;
    rectangle indicator 0 0 (Rectangle.get_width area) (Rectangle.get_height area);
    fill indicator ].

(** 5. what was fully transparent is cleared again *)
Definition clear_masked : list Event :=
  [ set_operator indicator OPERATOR_CLEAR;
    mask indicator transparency_mask 0 0;
    fill indicator ].

(** 6. the result is copied out at the position of the target area *)
Definition copy_out : list Event :=
  [ set_source output (get_target indicator)
      (Double.of_int (Rectangle.get_x area)) (Double.of_int (Rectangle.get_y area));
    rectangle output (Rectangle.get_x area) (Rectangle.get_y area)
      (Rectangle.get_width area) (Rectangle.get_height area);
    fill output ].

Definition progress_bar_pipeline : list Event :=
  (draw_indicator ++ build_mask ++ composite_background ++ recolor ++ clear_masked ++ copy_out)%list.

End Pipeline.

(** ** The regions of a compact row *)

Record Regions := {
  icon_region : Rectangle.t;
  name_region : Rectangle.t;
  stat_region : Rectangle.t;
  prog_region : Rectangle.t
}.

(** The background area without the padding. *)
Definition inset (r : Rectangle.t) (pad : Z * Z) : Rectangle.t :=
  Rectangle.mk (Rectangle.get_x r + fst pad) (Rectangle.get_y r + snd pad)
    (Rectangle.get_width r - fst pad * 2) (Rectangle.get_height r - snd pad * 2).

(** The reflection of [r] in the vertical axis through the middle of [fill]. *)
Definition mirror (fill r : Rectangle.t) : Rectangle.t :=
  Rectangle.set_x
    (Rectangle.get_x fill + Rectangle.get_width fill
     - (Rectangle.get_x r - Rectangle.get_x fill) - Rectangle.get_width r) r.

Definition mirror_regions (fill : Rectangle.t) (R : Regions) : Regions := {|
  icon_region := mirror fill (icon_region R);
  name_region := mirror fill (name_region R);
  stat_region := mirror fill (stat_region R);
  prog_region := mirror fill (prog_region R)
|}.

Section Layout.

Context {T : Toolkit}.

Variables (fill : Rectangle.t) (icon_width stat_width : Z).

Definition name_width : Z :=
  Rectangle.get_width fill - icon_width - stat_width - CompactBarWidth - GUI_PAD * 3.

Definition across (x width : Z) : Rectangle.t :=
  Rectangle.mk x (Rectangle.get_y fill) width (Rectangle.get_height fill).

(** Left to right: the icon at the left edge, the name right of it, the
    bar at the right edge, the status left of the bar. *)
Definition ltr_regions : Regions :=
  let bar_x := Rectangle.get_x fill + Rectangle.get_width fill - CompactBarWidth in
  {| icon_region := across (Rectangle.get_x fill) icon_width;
     name_region := across (Rectangle.get_x fill + icon_width + GUI_PAD) name_width;
     stat_region := across (bar_x - stat_width - GUI_PAD) stat_width;
     prog_region := across bar_x CompactBarWidth |}.

(** Right to left: the bar at the left edge, the status right of it, the
    name right of the status, the icon at the right edge. *)
Definition rtl_regions : Regions :=
  let stat_x := Rectangle.get_x fill + CompactBarWidth + GUI_PAD in
  {| icon_region := across (Rectangle.get_x fill + Rectangle.get_width fill - icon_width) icon_width;
     name_region := across (stat_x + stat_width + GUI_PAD) name_width;
     stat_region := across stat_x stat_width;
     prog_region := across (Rectangle.get_x fill) CompactBarWidth |}.

End Layout.

(** ** What a row is drawn with *)

Section Rows.

Context {F : Formatters} {T : Toolkit}.

Variables (w : Renderer) (tor : tr_torrent) (snapshot : Context) (widget : Widget)
  (background_area : Rectangle.t) (flags : CellRendererState).

(** A stopped torrent is drawn insensitive. *)
Definition effective_flags : CellRendererState :=
  match activity (tr_torrentStatCached tor) with
  | TR_STATUS_STOPPED => Z.lor flags CELL_RENDERER_INSENSITIVE
  | _ => flags
  end.

Definition row_sensitive : bool :=
  match activity (tr_torrentStatCached tor), error (tr_torrentStatCached tor) with
  | (TR_STATUS_STOPPED | TR_STATUS_DOWNLOAD_WAIT | TR_STATUS_SEED_WAIT), TR_STAT_OK => false
  | _, _ => true
  end.

(** Errors are written in red unless the row is selected. *)
Definition row_text : CellRendererText.t :=
  match error (tr_torrentStatCached tor) with
  | TR_STAT_OK => CellRendererText.set_foreground_set false (text_renderer_ w)
  | _ =>
      if Z.land effective_flags CELL_RENDERER_SELECTED =? 0
      then CellRendererText.set_foreground "red" (text_renderer_ w)
      else CellRendererText.set_foreground_set false (text_renderer_ w)
  end.

Definition styled (text : string) (weight : Weight) (scale : double) (ellipsize : EllipsizeMode)
    (base : CellRendererText.t) : CellRendererText.t :=
  CellRendererText.mk text ellipsize scale weight
    (CellRendererText.property_foreground base) (CellRendererText.property_foreground_set base)
    (CellRendererText.property_xpad base) (CellRendererText.property_ypad base).

Definition row_icon (size : IconSize) (sensitive : bool) : CellRendererPixbuf.t :=
  CellRendererPixbuf.mk (Some (get_icon tor)) size sensitive.

Definition row_percent : Z :=
  Double.to_int (Double.mul (fst (get_percent_done tor (tr_torrentStatCached tor))) Double.hundred).

Definition short_status : string :=
  getShortStatusString tor (tr_torrentStatCached tor) (upload_speed_KBps w) (download_speed_KBps w).
Definition long_status (ignore_errors : bool) : string :=
  getStatusString tor (tr_torrentStatCached tor) (upload_speed_KBps w) (download_speed_KBps w)
    ignore_errors.
Definition progress_string : string :=
  getProgressString tor (tr_torrentTotalSize tor) (tr_torrentStatCached tor).

(** *** Compact *)

Definition compact_icon_width : Z :=
  snd (icon_get_preferred_width
         (row_icon CompactIconSize (CellRendererPixbuf.property_sensitive (icon_renderer_ w))) widget).

Definition compact_stat_width : Z :=
  snd (text_get_preferred_width
         (styled short_status (CellRendererText.property_weight row_text) SmallScale ELLIPSIZE_NONE
            row_text) widget).

Definition compact_fill : Rectangle.t := inset background_area (padding w).

Definition compact_regions : Regions :=
  if Z.land (get_state widget effective_flags) STATE_FLAG_DIR_RTL =? 0
  then ltr_regions compact_fill compact_icon_width compact_stat_width
  else rtl_regions compact_fill compact_icon_width compact_stat_width.

Definition compact_bar : CellRendererProgress.t :=
  CellRendererProgress.mk row_percent (fmt_int row_percent ++ "%") row_sensitive.

Definition compact_stat_text : CellRendererText.t :=
  styled short_status (CellRendererText.property_weight row_text) SmallScale ELLIPSIZE_END row_text.
Definition compact_name_text : CellRendererText.t :=
  styled (tr_torrentName tor) (CellRendererText.property_weight row_text) Double.one ELLIPSIZE_END
    row_text.

Definition compact_row : list Event :=
  let R := compact_regions in
  (render_icon (row_icon CompactIconSize row_sensitive) (icon_region R) (icon_region R) effective_flags
   :: progress_bar_pipeline snapshot (prog_region R) effective_flags
        (activity_color (activity (tr_torrentStatCached tor))) compact_bar
   ++ [ render_text compact_stat_text (stat_region R) (stat_region R) effective_flags;
        render_text compact_name_text (name_region R) (name_region R) effective_flags ])%list.

(** *** Full *)

Definition full_bar : CellRendererProgress.t :=
  CellRendererProgress.mk row_percent "" row_sensitive.

Definition full_name_text : CellRendererText.t :=
  styled (tr_torrentName tor) WEIGHT_BOLD Double.one ELLIPSIZE_END row_text.
Definition full_prog_text : CellRendererText.t :=
  styled progress_string WEIGHT_NORMAL SmallScale ELLIPSIZE_END row_text.
Definition full_stat_text : CellRendererText.t :=
  styled (long_status false) WEIGHT_NORMAL SmallScale ELLIPSIZE_END row_text.

(** The events of a full row, given the five areas. *)
Definition full_row (icon_area name_area prog_area prct_area stat_area : Rectangle.t) : list Event :=
  (render_icon (row_icon FullIconSize row_sensitive) icon_area icon_area effective_flags
   :: render_text full_name_text name_area name_area effective_flags
   :: render_text full_prog_text prog_area prog_area effective_flags
   :: progress_bar_pipeline snapshot prct_area effective_flags
        (activity_color (activity (tr_torrentStatCached tor))) full_bar
   ++ [ render_text full_stat_text stat_area stat_area effective_flags ])%list.

(** *** Sizes *)

Definition natural_icon (size : IconSize) : Requisition :=
  snd (icon_get_preferred_size
         (row_icon size (CellRendererPixbuf.property_sensitive (icon_renderer_ w))) widget).

Definition natural_text (text : string) (weight : Weight) (scale : double) : Requisition :=
  snd (text_get_preferred_size (styled text weight scale ELLIPSIZE_NONE (text_renderer_ w)) widget).

Definition compact_size : Z * Z :=
  let icon := natural_icon CompactIconSize in
  let name := natural_text (tr_torrentName tor)
                (CellRendererText.property_weight (text_renderer_ w)) Double.one in
  let stat := natural_text short_status
                (CellRendererText.property_weight (text_renderer_ w)) SmallScale in
  (2 * fst (padding w) + REQ_WIDTH icon + GUI_PAD + 50 + GUI_PAD + REQ_WIDTH stat,
   2 * snd (padding w) + Z.max (REQ_HEIGHT name) (bar_height w)).

Definition full_size : Z * Z :=
  let icon := natural_icon FullIconSize in
  let name := natural_text (tr_torrentName tor) WEIGHT_BOLD Double.one in
  let prog := natural_text progress_string WEIGHT_NORMAL SmallScale in
  let stat := natural_text (long_status true) WEIGHT_NORMAL SmallScale in
  (2 * fst (padding w) + REQ_WIDTH icon + GUI_PAD + Z.max (REQ_WIDTH prog) (REQ_WIDTH stat),
   2 * snd (padding w) + REQ_HEIGHT name + REQ_HEIGHT prog + GUI_PAD_SMALL + bar_height w
   + GUI_PAD_SMALL + REQ_HEIGHT stat).

End Rows.

(** ** What a list of events shows *)

Fixpoint drawn_texts (l : list Event) : list string :=
  match l with
  | [] => []
  | render_text r _ _ _ :: rest => CellRendererText.property_text r :: drawn_texts rest
  | _ :: rest => drawn_texts rest
  end.

Fixpoint drawn_icons (l : list Event) : list (option Icon) :=
  match l with
  | [] => []
  | render_icon r _ _ _ :: rest => CellRendererPixbuf.property_gicon r :: drawn_icons rest
  | _ :: rest => drawn_icons rest
  end.

(** The progress bars drawn: value and label. *)
Fixpoint drawn_bars (l : list Event) : list (Z * string) :=
  match l with
  | [] => []
  | render_progress _ r _ _ _ :: rest =>
      (CellRendererProgress.property_value r, CellRendererProgress.property_text r) :: drawn_bars rest
  | _ :: rest => drawn_bars rest
  end.

(** ** The two layouts *)

Inductive LayoutMode := CompactLayout | FullLayout.

Definition layout_mode (w : Renderer) : LayoutMode :=
  if compact w then CompactLayout else FullLayout.

Section Modes.

Context {F : Formatters} {T : Toolkit}.

Definition get_size (mode : LayoutMode) (widget : Widget) : M (Z * Z) :=
  match mode with
  | CompactLayout => get_size_compact widget
  | FullLayout => get_size_full widget
  end.

Definition render (mode : LayoutMode) (snapshot : Context) (widget : Widget)
    (background_area : Rectangle.t) (flags : CellRendererState) : M unit :=
  match mode with
  | CompactLayout => render_compact snapshot widget background_area flags
  | FullLayout => render_full snapshot widget background_area flags
  end.

End Modes.

(** The value the statistics hand to [get_percent_done]. *)
Definition percent_field (tor : tr_torrent) (st : tr_stat) : double :=
  match activity st, has_seed_ratio tor with
  | TR_STATUS_SEED, true => seedRatioPercentDone st
  | _, _ => percentDone st
  end.

(** ** What a run keeps

    [unchanged w w']: the torrent with its statistics snapshot, the two
    speeds and the other properties of the renderer are in [w'] what they
    were in [w]. *)
Definition unchanged (w w' : Renderer) : Prop :=
  torrent w' = torrent w
  /\ upload_speed_KBps w' = upload_speed_KBps w
  /\ download_speed_KBps w' = download_speed_KBps w
  /\ bar_height w' = bar_height w
  /\ compact w' = compact w
  /\ padding w' = padding w.

(** [m] returns from [w], and with the above unchanged. *)
Definition keeps {A : Type} (m : M A) (w : Renderer) : Prop :=
  exists r w', m w = Some (r, w') /\ unchanged w w'.

(** [m] does so whenever there is a torrent. *)
Definition well_behaved {A : Type} (m : M A) : Prop :=
  forall w, torrent w <> None -> keeps m w.

(** ** The regions of a full row *)

Record FullRegions := {
  full_icon_region : Rectangle.t;
  full_name_region : Rectangle.t;
  full_prog_region : Rectangle.t;
  full_prct_region : Rectangle.t;
  full_stat_region : Rectangle.t
}.

Section FullRows.

Context {F : Formatters} {T : Toolkit}.

Variables (w : Renderer) (tor : tr_torrent) (widget : Widget)
  (background_area : Rectangle.t) (flags : CellRendererState).

(** What [render_full] measures before it lays the row out. *)
Definition full_icon_size : Requisition :=
  snd (icon_get_preferred_size
         (row_icon tor FullIconSize (CellRendererPixbuf.property_sensitive (icon_renderer_ w))) widget).

Definition full_name_height : Z :=
  REQ_HEIGHT (snd (text_get_preferred_size
                     (styled (tr_torrentName tor) WEIGHT_BOLD Double.one ELLIPSIZE_NONE
                        (row_text w tor flags)) widget)).

Definition full_prog_height : Z :=
  REQ_HEIGHT (snd (text_get_preferred_size
                     (styled (progress_string tor) WEIGHT_NORMAL SmallScale ELLIPSIZE_NONE
                        (row_text w tor flags)) widget)).

Definition full_stat_height : Z :=
  REQ_HEIGHT (snd (text_get_preferred_size
                     (styled (long_status w tor false) WEIGHT_NORMAL SmallScale ELLIPSIZE_NONE
                        (row_text w tor flags)) widget)).

(** The five areas of [render_full], as its LAYOUT part computes them. *)
Definition full_regions : FullRegions :=
  let fx := Rectangle.get_x background_area + fst (padding w) in
  let fy := Rectangle.get_y background_area + snd (padding w) in
  let fw := Rectangle.get_width background_area - fst (padding w) * 2 in
  let fh := Rectangle.get_height background_area - snd (padding w) * 2 in
  let iw := REQ_WIDTH full_icon_size in
  let ih := REQ_HEIGHT full_icon_size in
  let icon_y := fy + Z.quot (fh - ih) 2 in
  let text_width := fw - GUI_PAD - iw in
  let regions := fun icon_x text_x =>
    {| full_icon_region := Rectangle.mk icon_x icon_y iw ih;
       full_name_region := Rectangle.mk text_x fy text_width full_name_height;
       full_prog_region :=
         Rectangle.mk text_x (fy + full_name_height) text_width full_prog_height;
       full_prct_region :=
         Rectangle.mk text_x (fy + full_name_height + full_prog_height + GUI_PAD_SMALL)
           text_width (bar_height w);
       full_stat_region :=
         Rectangle.mk text_x
           (fy + full_name_height + full_prog_height + GUI_PAD_SMALL + bar_height w + GUI_PAD_SMALL)
           text_width full_stat_height |} in
  if Z.land (get_state widget (effective_flags tor flags)) STATE_FLAG_DIR_RTL =? 0
  then regions fx (fx + fw - text_width)
  else regions (fx + fw - iw) fx.

Definition full_row_of (snapshot : Context) : list Event :=
  full_row w tor snapshot flags
    (full_icon_region full_regions) (full_name_region full_regions)
    (full_prog_region full_regions) (full_prct_region full_regions)
    (full_stat_region full_regions).

(** The renderer as each member function leaves it. *)
Definition after_get_size_compact : Renderer :=
  mkRenderer (torrent w) (bar_height w) (upload_speed_KBps w) (download_speed_KBps w) (compact w)
    (padding w)
    (styled (short_status w tor) (CellRendererText.property_weight (text_renderer_ w)) SmallScale
       ELLIPSIZE_NONE (text_renderer_ w))
    (progress_renderer_ w)
    (row_icon tor CompactIconSize (CellRendererPixbuf.property_sensitive (icon_renderer_ w)))
    (drawn w).

Definition after_get_size_full : Renderer :=
  mkRenderer (torrent w) (bar_height w) (upload_speed_KBps w) (download_speed_KBps w) (compact w)
    (padding w)
    (styled (long_status w tor true) WEIGHT_NORMAL SmallScale ELLIPSIZE_NONE (text_renderer_ w))
    (progress_renderer_ w)
    (row_icon tor FullIconSize (CellRendererPixbuf.property_sensitive (icon_renderer_ w)))
    (drawn w).

Definition after_render_compact (snapshot : Context) : Renderer :=
  mkRenderer (torrent w) (bar_height w) (upload_speed_KBps w) (download_speed_KBps w) (compact w)
    (padding w)
    (compact_name_text w tor flags)
    (compact_bar tor)
    (row_icon tor CompactIconSize (row_sensitive tor))
    (drawn w ++ compact_row w tor snapshot widget background_area flags)%list.

Definition after_render_full (snapshot : Context) : Renderer :=
  mkRenderer (torrent w) (bar_height w) (upload_speed_KBps w) (download_speed_KBps w) (compact w)
    (padding w)
    (full_stat_text w tor flags)
    (full_bar tor)
    (row_icon tor FullIconSize (row_sensitive tor))
    (drawn w ++ full_row_of snapshot)%list.

End FullRows.

(** ** More of what a list of events shows *)

(** The flags every child renderer was drawn with. *)
Fixpoint drawn_flags (l : list Event) : list CellRendererState :=
  match l with
  | [] => []
  | render_icon _ _ _ f :: rest => f :: drawn_flags rest
  | render_text _ _ _ f :: rest => f :: drawn_flags rest
  | render_progress _ _ _ _ f :: rest => f :: drawn_flags rest
  | _ :: rest => drawn_flags rest
  end.

(** The text renderer at each text drawn. *)
Fixpoint drawn_text_renderers (l : list Event) : list CellRendererText.t :=
  match l with
  | [] => []
  | render_text r _ _ _ :: rest => r :: drawn_text_renderers rest
  | _ :: rest => drawn_text_renderers rest
  end.

(** The [sensitive] property of the icon and of the bar at each drawing. *)
Fixpoint drawn_sensitive (l : list Event) : list bool :=
  match l with
  | [] => []
  | render_icon r _ _ _ :: rest => CellRendererPixbuf.property_sensitive r :: drawn_sensitive rest
  | render_progress _ r _ _ _ :: rest =>
      CellRendererProgress.property_sensitive r :: drawn_sensitive rest
  | _ :: rest => drawn_sensitive rest
  end.

(** The cairo context a command is issued on. *)
Definition event_context (e : Event) : option Context :=
  match e with
  | render_icon _ _ _ _ | render_text _ _ _ _ => None
  | render_progress (OnContext c) _ _ _ _ => Some c
  | render_progress OnTempSnapshot _ _ _ _ => None
  | gsk_render_node_draw _ c => Some c
  | set_source_rgb c _ _ _ => Some c
  | set_source c _ _ _ => Some c
  | set_operator c _ => Some c
  | rectangle c _ _ _ _ => Some c
  | fill c => Some c
  | mask c _ _ _ => Some c
  end.

(** ** Drawing a row several times

    GTK draws a cell whenever the view is exposed: [redraw n] is [n] draws
    of the same row, in the same place, one after the other. *)

Section Redraw.

Context {F : Formatters} {T : Toolkit}.

Fixpoint redraw (n : nat) (mode : LayoutMode) (snapshot : Context) (widget : Widget)
    (background_area : Rectangle.t) (flags : CellRendererState) : M unit :=
  match n with
  | O => ret tt
  | S k =>
      render mode snapshot widget background_area flags ;;
      redraw k mode snapshot widget background_area flags
  end.

End Redraw.

(** ** More sample rows *)

Module Rows.

(** A download nobody takes part in: no peers, no webseeds, not stalled. *)
Definition quiet_stat : tr_stat := {|
  activity := TR_STATUS_DOWNLOAD;
  error := TR_STAT_OK;
  errorString := "";
  leftUntilDone := 150;
  haveUnchecked := 0;
  haveValid := 50;
  sizeWhenDone := 200;
  uploadedEver := 0;
  percentDone := Sample.quarter;
  percentComplete := Sample.quarter;
  metadataPercentComplete := Double.one;
  seedRatioPercentDone := Double.zero;
  recheckProgress := Double.zero;
  ratio := Double.zero;
  eta := 60;
  peersConnected := 0;
  peersSendingToUs := 0;
  peersGettingFromUs := 0;
  webseedsSendingToUs := 0;
  isStalled := false;
  finished := false
|}.

(** A paused torrent. *)
Definition paused_stat : tr_stat := {|
  activity := TR_STATUS_STOPPED;
  error := TR_STAT_OK;
  errorString := "";
  leftUntilDone := 150;
  haveUnchecked := 0;
  haveValid := 50;
  sizeWhenDone := 200;
  uploadedEver := 0;
  percentDone := Sample.quarter;
  percentComplete := Sample.quarter;
  metadataPercentComplete := Double.one;
  seedRatioPercentDone := Double.zero;
  recheckProgress := Double.zero;
  ratio := Double.zero;
  eta := -1;
  peersConnected := 0;
  peersSendingToUs := 0;
  peersGettingFromUs := 0;
  webseedsSendingToUs := 0;
  isStalled := false;
  finished := false
|}.

Definition with_stats (st : tr_stat) (files : list string) : tr_torrent := {|
  tor_name := "ubuntu.iso";
  tor_files := files;
  tor_total_size := 200;
  tor_has_metadata := true;
  tor_seed_ratio := None;
  tor_stats := st
|}.

Definition quiet : tr_torrent := with_stats quiet_stat ["ubuntu.iso"].
Definition paused : tr_torrent := with_stats paused_stat ["ubuntu.iso"].
Definition failing : tr_torrent := with_stats Sample.failing ["ubuntu.iso"].
Definition nested : tr_torrent := with_stats Sample.stat ["ubuntu/ubuntu.iso"].

Definition showing (tor : tr_torrent) (compact_layout : bool) : Renderer :=
  set_property_compact compact_layout (set_property_torrent (Some tor) Sample.fresh).

End Rows.

(** * Properties *)

Local Open Scope render_scope.

(** ** Strings *)

Lemma append_empty_r (s : string) : s ++ "" = s.
Proof. induction s as [|c s IH]; simpl; [reflexivity | now rewrite IH]. Qed.

Lemma append_assoc (a b c : string) : (a ++ b) ++ c = a ++ (b ++ c).
Proof. induction a as [|x a IH]; simpl; [reflexivity | now rewrite IH]. Qed.

Lemma std_max_is_max (a b : Z) : std_max a b = Z.max a b.
Proof. unfold std_max. destruct (Z.ltb_spec a b); lia. Qed.

Section StringTheorems.

Context {F : Formatters}.

(** C2. For every statistics snapshot, [getProgressString] is the text of
    exactly one of five formats, selected by [isDone] (nothing left until
    done), [isSeed] (as much valid data as the total size) and whether a
    seed ratio is set, followed by the time-remaining suffix; the suffix is
    there exactly when the torrent is downloading, or seeding with a seed
    ratio, and reads "Remaining time unknown" for a negative eta and the
    formatted time left otherwise. *)
Theorem getProgressString_formats (tor : tr_torrent) (total_size : Z) (st : tr_stat) :
  getProgressString tor total_size st
  = progress_text
      (progress_format (leftUntilDone st =? 0) (total_size <=? haveValid st) (has_seed_ratio tor))
      tor total_size st
    ++ time_remaining_suffix tor st
  /\ (time_remaining_suffix tor st <> ""
      <-> activity st = TR_STATUS_DOWNLOAD
          \/ (has_seed_ratio tor = true /\ activity st = TR_STATUS_SEED))
  /\ (time_remaining_suffix tor st = ""
      \/ time_remaining_suffix tor st
         = " - " ++ (if eta st <? 0 then gettext "Remaining time unknown"
                     else tr_format_time_left (eta st))).
Proof.
  split; [| split].
  - unfold getProgressString, time_remaining_suffix, progress_format, progress_text,
      has_seed_ratio, seed_ratio_goal, uint64_mod, arg.
    destruct (leftUntilDone st =? 0), (total_size <=? haveValid st),
      (tr_torrentGetSeedRatio tor) as [goal|], (activity st), (eta st <? 0);
      cbn [negb andb orb activity_eqb append];
      rewrite ?append_empty_r, ?append_assoc; reflexivity.
  - unfold time_remaining_suffix.
    destruct (activity st), (has_seed_ratio tor); simpl; split;
      try (intros _; auto; fail); try (intros H; now elim H);
      try (intros [H | [H1 H2]]; discriminate); intros _; discriminate.
  - unfold time_remaining_suffix.
    destruct (activity st), (has_seed_ratio tor); auto.
Qed.

(** C8. [getErrorString] gives a string exactly for the three error kinds
    tracker warning, tracker error and local error, and nothing otherwise;
    [getStatusString], when errors are not ignored, starts with that error
    string in those three cases and with the activity string in the
    remaining one, the transfer suffix being the same in both. *)
Theorem getStatusString_error_cases (tor : tr_torrent) (st : tr_stat) (up down : double) :
  ((exists s, getErrorString st = Some s)
   <-> error st = TR_STAT_TRACKER_WARNING \/ error st = TR_STAT_TRACKER_ERROR
       \/ error st = TR_STAT_LOCAL_ERROR)
  /\ (getErrorString st = None <-> error st = TR_STAT_OK)
  /\ (forall s, getErrorString st = Some s ->
                getStatusString tor st up down false = s ++ transfer_suffix tor st up down)
  /\ (getErrorString st = None ->
      getStatusString tor st up down false
      = getActivityString tor st up down ++ transfer_suffix tor st up down).
Proof.
  assert (Hrun : forall o,
    (let status_str := value_or o (getActivityString tor st up down) in
     if negb (activity_eqb (activity st) TR_STATUS_CHECK_WAIT)
        && negb (activity_eqb (activity st) TR_STATUS_CHECK)
        && negb (activity_eqb (activity st) TR_STATUS_DOWNLOAD_WAIT)
        && negb (activity_eqb (activity st) TR_STATUS_SEED_WAIT)
        && negb (activity_eqb (activity st) TR_STATUS_STOPPED)
     then
       let buf := getShortTransferString tor st up down in
       if negb (string_empty buf) then status_str ++ (" - " ++ buf) else status_str
     else status_str)
    = value_or o (getActivityString tor st up down) ++ transfer_suffix tor st up down).
  { intros o. unfold transfer_suffix.
    destruct (activity st); cbn [negb andb activity_eqb];
      try (now rewrite append_empty_r);
      destruct (getShortTransferString tor st up down); cbn [string_empty negb];
      rewrite ?append_empty_r; reflexivity. }
  repeat split.
  - intros [s Hs]. unfold getErrorString in Hs. destruct (error st); auto; discriminate.
  - unfold getErrorString. intros [H | [H | H]]; rewrite H; eexists; reflexivity.
  - unfold getErrorString. destruct (error st); auto; discriminate.
  - unfold getErrorString. intros H; rewrite H; reflexivity.
  - intros s Hs. unfold getStatusString. rewrite Hs. apply (Hrun (Some s)).
  - intros Hn. unfold getStatusString. rewrite Hn. apply (Hrun None).
Qed.

End StringTheorems.

(** ** The progress value and the colour of the bar *)

Lemma MAX_zero_cases (x : double) :
  Double.is_nan x = false ->
  Double.ge (MAX Double.zero x) Double.zero = true
  /\ Double.ge (MAX Double.zero x) x = true
  /\ (MAX Double.zero x = x \/ MAX Double.zero x = Double.zero).
Proof.
  intros Hx. unfold MAX, Double.gt, Double.ge, Double.zero.
  destruct x as [s | s | | s m e]; try discriminate Hx; destruct s; cbn; auto.
  rewrite Z.compare_refl, Pos.compare_cont_refl. auto.
Qed.

Lemma get_progress_bar_color_eq (st : tr_stat) :
  get_progress_bar_color st = activity_color (activity st).
Proof. unfold get_progress_bar_color. destruct (activity st); reflexivity. Qed.

(** C10, as the code has it. [get_percent_done] returns [MAX(0, x)] and
    reports [seed = true] where [x] is [seedRatioPercentDone] for a torrent
    that seeds with a seed ratio set, and [seed = false] where [x] is
    [percentDone] otherwise.  The value is the larger of 0 and [x], hence
    non-negative, whenever [x] is not a NaN.  The colour of the bar depends
    on the activity alone: steelblue when downloading, forestgreen when
    seeding, silver otherwise. *)
Theorem get_percent_done_and_color (tor : tr_torrent) (st : tr_stat) :
  (activity st = TR_STATUS_SEED /\ has_seed_ratio tor = true ->
   get_percent_done tor st = (MAX Double.zero (seedRatioPercentDone st), true))
  /\ (~ (activity st = TR_STATUS_SEED /\ has_seed_ratio tor = true) ->
      get_percent_done tor st = (MAX Double.zero (percentDone st), false))
  /\ fst (get_percent_done tor st) = MAX Double.zero (percent_field tor st)
  /\ (Double.is_nan (percent_field tor st) = false ->
      Double.ge (fst (get_percent_done tor st)) Double.zero = true
      /\ Double.ge (fst (get_percent_done tor st)) (percent_field tor st) = true
      /\ (fst (get_percent_done tor st) = percent_field tor st
          \/ fst (get_percent_done tor st) = Double.zero))
  /\ get_progress_bar_color st
     = match activity st with
       | TR_STATUS_DOWNLOAD => Gdk_RGBA "steelblue"
       | TR_STATUS_SEED => Gdk_RGBA "forestgreen"
       | _ => Gdk_RGBA "silver"
       end
  /\ (forall st', activity st' = activity st ->
                  get_progress_bar_color st' = get_progress_bar_color st).
Proof.
  assert (Hfst : fst (get_percent_done tor st) = MAX Double.zero (percent_field tor st)).
  { unfold get_percent_done, percent_field, has_seed_ratio.
    destruct (activity st), (tr_torrentGetSeedRatio tor); reflexivity. }
  repeat split.
  - intros [Ha Hr]. unfold get_percent_done, has_seed_ratio in *. rewrite Ha.
    destruct (tr_torrentGetSeedRatio tor); [reflexivity | discriminate].
  - intros Hn. unfold get_percent_done, has_seed_ratio in *.
    destruct (activity st), (tr_torrentGetSeedRatio tor); try reflexivity.
    elim Hn. split; reflexivity.
  - exact Hfst.
  - rewrite Hfst. apply MAX_zero_cases. assumption.
  - rewrite Hfst. apply MAX_zero_cases. assumption.
  - rewrite Hfst. apply MAX_zero_cases. assumption.
  - rewrite get_progress_bar_color_eq. destruct (activity st); reflexivity.
  - intros st' H. rewrite !get_progress_bar_color_eq, H. reflexivity.
Qed.

(** C10 as stated fails: a NaN in [percentDone] comes back as it is, and a
    NaN is not non-negative. *)
Lemma get_percent_done_nan :
  percentDone Sample.undefined_progress = S754_nan
  /\ get_percent_done Sample.tor Sample.undefined_progress = (S754_nan, false)
  /\ Double.ge (fst (get_percent_done Sample.tor Sample.undefined_progress)) Double.zero = false.
Proof. repeat split. Qed.

(** ** Runs of the monad *)

Lemma unchanged_refl (w : Renderer) : unchanged w w.
Proof. repeat split. Qed.

Lemma unchanged_trans (a b c : Renderer) : unchanged a b -> unchanged b c -> unchanged a c.
Proof.
  unfold unchanged. intros (H1 & H2 & H3 & H4 & H5 & H6) (K1 & K2 & K3 & K4 & K5 & K6).
  repeat split; congruence.
Qed.

Lemma well_behaved_ret {A : Type} (a : A) : well_behaved (ret a).
Proof. intros w _. exists a, w. split; [reflexivity | apply unchanged_refl]. Qed.

Lemma well_behaved_bind {A B : Type} (m : M A) (k : A -> M B) :
  well_behaved m -> (forall a, well_behaved (k a)) -> well_behaved (bind m k).
Proof.
  intros Hm Hk w Hw. destruct (Hm w Hw) as (a & w1 & E1 & U1).
  assert (Hw1 : torrent w1 <> None) by (destruct U1 as [U _]; congruence).
  destruct (Hk a w1 Hw1) as (b & w2 & E2 & U2).
  exists b, w2. unfold bind. rewrite E1. split; [exact E2 | eapply unchanged_trans; eauto].
Qed.

Lemma well_behaved_gets {A : Type} (f : Renderer -> A) : well_behaved (gets f).
Proof. intros w _. exists (f w), w. split; [reflexivity | apply unchanged_refl]. Qed.

Lemma well_behaved_deref_torrent : well_behaved deref_torrent.
Proof.
  intros w Hw. unfold keeps, deref_torrent. destruct (torrent w) as [tor|] eqn:E; [| congruence].
  exists tor, w. split; [reflexivity | apply unchanged_refl].
Qed.

Lemma well_behaved_set_text_renderer f : well_behaved (set_text_renderer f).
Proof. intros w _. eexists; eexists. split; [reflexivity | repeat split]. Qed.

Lemma well_behaved_set_progress_renderer f : well_behaved (set_progress_renderer f).
Proof. intros w _. eexists; eexists. split; [reflexivity | repeat split]. Qed.

Lemma well_behaved_set_icon_renderer f : well_behaved (set_icon_renderer f).
Proof. intros w _. eexists; eexists. split; [reflexivity | repeat split]. Qed.

Lemma well_behaved_emit e : well_behaved (emit e).
Proof. intros w _. eexists; eexists. split; [reflexivity | repeat split]. Qed.

Create HintDb behaved.
#[local] Hint Resolve well_behaved_ret well_behaved_gets well_behaved_deref_torrent
  well_behaved_set_text_renderer well_behaved_set_progress_renderer
  well_behaved_set_icon_renderer well_behaved_emit : behaved.

(** One step through a computation: a bind, a branch, a destructured pair. *)
Ltac behaved_step :=
  match goal with
  | |- well_behaved (bind _ _) => apply well_behaved_bind; [| intros ?]
  | |- well_behaved (if ?c then _ else _) => destruct c
  | |- well_behaved (match ?x with (_, _) => _ end) => destruct x
  | |- well_behaved _ => solve [auto with behaved]
  end.

Ltac behaved := repeat behaved_step.

(** Running a computation: the monad and the record updates are unfolded,
    the arithmetic is left alone. *)
Ltac run :=
  cbv beta iota zeta delta
    [bind ret gets modify emit deref_torrent
     set_text_renderer set_progress_renderer set_icon_renderer
     with_text_renderer with_progress_renderer with_icon_renderer with_drawn
     torrent bar_height upload_speed_KBps download_speed_KBps compact padding
     text_renderer_ progress_renderer_ icon_renderer_ drawn
     CellRendererText.set_text CellRendererText.set_ellipsize CellRendererText.set_scale
     CellRendererText.set_weight CellRendererText.set_foreground CellRendererText.set_foreground_set
     CellRendererText.property_text CellRendererText.property_ellipsize
     CellRendererText.property_scale CellRendererText.property_weight
     CellRendererText.property_foreground CellRendererText.property_foreground_set
     CellRendererText.property_xpad CellRendererText.property_ypad
     CellRendererProgress.set_value CellRendererProgress.set_text CellRendererProgress.set_sensitive
     CellRendererProgress.property_value CellRendererProgress.property_text
     CellRendererProgress.property_sensitive
     CellRendererPixbuf.set_gicon CellRendererPixbuf.set_icon_size CellRendererPixbuf.set_sensitive
     CellRendererPixbuf.property_gicon CellRendererPixbuf.property_icon_size
     CellRendererPixbuf.property_sensitive
     Rectangle.set_x Rectangle.set_y Rectangle.set_width Rectangle.set_height
     Rectangle.get_x Rectangle.get_y Rectangle.get_width Rectangle.get_height Rectangle.default
     fst snd].

Ltac split_pairs :=
  repeat match goal with
         | |- context [match ?x with (_, _) => _ end] => destruct x eqn:?
         end.

Ltac finish_size :=
  match goal with
  | |- exists w', Some (?a, ?b, ?W) = Some (?a', ?b', w') /\ _ =>
      exists W;
      replace a with a' by (unfold CompactBarWidth; lia);
      replace b with b' by lia;
      split; [reflexivity | repeat split]
  end.

Section RenderingLemmas.

Context {F : Formatters} {T : Toolkit}.

Lemma well_behaved_set_icon icon size : well_behaved (set_icon icon size).
Proof. unfold set_icon. behaved. Qed.

Lemma render_progress_bar_run snapshot widget area flags color w :
  render_progress_bar snapshot widget area flags color w
  = Some (tt, with_drawn
                (fun l => (l ++ progress_bar_pipeline snapshot area flags color (progress_renderer_ w))%list)
                w).
Proof.
  unfold render_progress_bar, adjust_progress_bar_hue, get_mask_surface, progress_bar_pipeline,
    draw_indicator, build_mask, composite_background, recolor, clear_masked, copy_out,
    background_x, background_y, background, output, indicator, indicator_surface, mask_cr,
    transparency_mask, whole.
  destruct GTKMM4;
    match goal with
    | |- context [device_to_user ?c ?p] => destruct (device_to_user c p) as [dx dy]
    end;
    run; rewrite <- !app_assoc; reflexivity.
Qed.

Lemma get_size_compact_run widget w tor :
  torrent w = Some tor ->
  exists w', get_size_compact widget w = Some (compact_size w tor widget, w') /\ unchanged w w'.
Proof.
  intros Ht. destruct w as [t bh up down c [xpad ypad] tr pr ir dr]. cbn in Ht. subst t.
  unfold get_size_compact, compact_size, natural_icon, natural_text, short_status, row_icon, styled,
    set_icon, icon_renderer_get_preferred_size, text_renderer_get_preferred_size, unchanged.
  run. split_pairs. run. rewrite std_max_is_max.
  finish_size.
Qed.

Lemma get_size_full_run widget w tor :
  torrent w = Some tor ->
  exists w', get_size_full widget w = Some (full_size w tor widget, w') /\ unchanged w w'.
Proof.
  intros Ht. destruct w as [t bh up down c [xpad ypad] tr pr ir dr]. cbn in Ht. subst t.
  unfold get_size_full, full_size, natural_icon, natural_text, long_status, progress_string,
    row_icon, styled,
    set_icon, icon_renderer_get_preferred_size, text_renderer_get_preferred_size, unchanged.
  run. split_pairs. run. rewrite std_max_is_max.
  finish_size.
Qed.

Lemma effective_flags_eq tor flags :
  (if activity_eqb (activity (tr_torrentStatCached tor)) TR_STATUS_STOPPED
   then Z.lor flags CELL_RENDERER_INSENSITIVE else flags)
  = effective_flags tor flags.
Proof. unfold effective_flags. destruct (activity (tr_torrentStatCached tor)); reflexivity. Qed.

Lemma row_sensitive_eq tor :
  negb (activity_eqb (activity (tr_torrentStatCached tor)) TR_STATUS_STOPPED)
  && negb (activity_eqb (activity (tr_torrentStatCached tor)) TR_STATUS_DOWNLOAD_WAIT)
  && negb (activity_eqb (activity (tr_torrentStatCached tor)) TR_STATUS_SEED_WAIT)
  || negb (errtype_value (error (tr_torrentStatCached tor)) =? 0)
  = row_sensitive tor.
Proof.
  unfold row_sensitive.
  destruct (activity (tr_torrentStatCached tor)), (error (tr_torrentStatCached tor)); reflexivity.
Qed.

Lemma set_foreground_run tor flags w :
  (if negb (errtype_value (error (tr_torrentStatCached tor)) =? 0)
      && (Z.land (effective_flags tor flags) CELL_RENDERER_SELECTED =? 0)
   then set_text_renderer (CellRendererText.set_foreground "red")
   else set_text_renderer (CellRendererText.set_foreground_set false)) w
  = Some (tt, with_text_renderer (fun _ => row_text w tor flags) w).
Proof.
  unfold row_text.
  destruct (error (tr_torrentStatCached tor)); cbn [errtype_value Z.eqb negb andb];
    try reflexivity;
    destruct (Z.land (effective_flags tor flags) CELL_RENDERER_SELECTED =? 0); reflexivity.
Qed.

Lemma render_compact_run snapshot widget bg flags w tor :
  torrent w = Some tor ->
  exists w',
    render_compact snapshot widget bg flags w = Some (tt, w')
    /\ drawn w' = (drawn w ++ compact_row w tor snapshot widget bg flags)%list
    /\ unchanged w w'.
Proof.
  intros Ht. destruct w as [t bh up down c [xpad ypad] tr pr ir dr]. cbn in Ht. subst t.
  unfold render_compact.
  unfold bind at 1. unfold deref_torrent at 1. cbv beta iota zeta delta [torrent].
  rewrite !effective_flags_eq, !row_sensitive_eq, !get_progress_bar_color_eq.
  destruct (get_percent_done tor (tr_torrentStatCached tor)) as [pd seed] eqn:Epd.
  unfold bind at 1. rewrite set_foreground_run.
  unfold set_icon, icon_renderer_get_preferred_width, text_renderer_get_preferred_width.
  unfold compact_row, compact_regions, compact_icon_width, compact_stat_width, compact_fill,
    compact_bar, compact_stat_text, compact_name_text, row_icon, styled, short_status,
    row_percent, ltr_regions, rtl_regions, across, name_width, inset, unchanged.
  rewrite Epd.
  destruct (Z.land (get_state widget (effective_flags tor flags)) STATE_FLAG_DIR_RTL =? 0);
    run; split_pairs; run; rewrite render_progress_bar_run; run;
    (eexists; split; [reflexivity | split; [| repeat split]]);
    rewrite <- !app_assoc; reflexivity.
Qed.

Lemma render_full_run snapshot widget bg flags w tor :
  torrent w = Some tor ->
  exists w' icon_area name_area prog_area prct_area stat_area,
    render_full snapshot widget bg flags w = Some (tt, w')
    /\ drawn w'
       = (drawn w ++ full_row w tor snapshot flags icon_area name_area prog_area prct_area stat_area)%list
    /\ unchanged w w'.
Proof.
  intros Ht. destruct w as [t bh up down c [xpad ypad] tr pr ir dr]. cbn in Ht. subst t.
  unfold render_full.
  unfold bind at 1. unfold deref_torrent at 1. cbv beta iota zeta delta [torrent].
  rewrite !effective_flags_eq, !row_sensitive_eq, !get_progress_bar_color_eq.
  destruct (get_percent_done tor (tr_torrentStatCached tor)) as [pd seed] eqn:Epd.
  unfold bind at 1. rewrite set_foreground_run.
  unfold set_icon, icon_renderer_get_preferred_size, text_renderer_get_preferred_size.
  unfold full_row, full_bar, full_name_text, full_prog_text, full_stat_text, row_icon, styled,
    long_status, progress_string, row_percent, unchanged.
  rewrite Epd.
  destruct (Z.land (get_state widget (effective_flags tor flags)) STATE_FLAG_DIR_RTL =? 0);
    run; split_pairs; run; rewrite render_progress_bar_run; run;
    (do 6 eexists; split; [reflexivity | split; [| repeat split]]);
    rewrite <- !app_assoc; reflexivity.
Qed.

(** With no torrent the four member functions dereference a null pointer. *)
Lemma null_dereference snapshot widget bg flags w :
  torrent w = None ->
  get_size_compact widget w = None /\ get_size_full widget w = None
  /\ render_compact snapshot widget bg flags w = None
  /\ render_full snapshot widget bg flags w = None.
Proof.
  intros Ht.
  unfold get_size_compact, get_size_full, render_compact, render_full, bind, deref_torrent.
  rewrite Ht. repeat split.
Qed.

End RenderingLemmas.

(** ** What the events of a row show *)

Lemma drawn_texts_app (a b : list Event) :
  drawn_texts (a ++ b) = (drawn_texts a ++ drawn_texts b)%list.
Proof. induction a as [|e a IH]; [reflexivity |]. destruct e; simpl; rewrite IH; reflexivity. Qed.

Lemma drawn_icons_app (a b : list Event) :
  drawn_icons (a ++ b) = (drawn_icons a ++ drawn_icons b)%list.
Proof. induction a as [|e a IH]; [reflexivity |]. destruct e; simpl; rewrite IH; reflexivity. Qed.

Lemma drawn_bars_app (a b : list Event) :
  drawn_bars (a ++ b) = (drawn_bars a ++ drawn_bars b)%list.
Proof. induction a as [|e a IH]; [reflexivity |]. destruct e; simpl; rewrite IH; reflexivity. Qed.

Section PipelineLemmas.

Context {T : Toolkit}.

Variables (snapshot : Context) (area : Rectangle.t) (flags : CellRendererState)
  (color : RGBA) (progress : CellRendererProgress.t).

Lemma pipeline_texts : drawn_texts (progress_bar_pipeline snapshot area flags color progress) = [].
Proof. unfold progress_bar_pipeline, draw_indicator. destruct GTKMM4; reflexivity. Qed.

Lemma pipeline_icons : drawn_icons (progress_bar_pipeline snapshot area flags color progress) = [].
Proof. unfold progress_bar_pipeline, draw_indicator. destruct GTKMM4; reflexivity. Qed.

Lemma pipeline_bars :
  drawn_bars (progress_bar_pipeline snapshot area flags color progress)
  = [(CellRendererProgress.property_value progress, CellRendererProgress.property_text progress)].
Proof. unfold progress_bar_pipeline, draw_indicator. destruct GTKMM4; reflexivity. Qed.

End PipelineLemmas.

(** ** The layouts *)

(** The right-to-left regions are the left-to-right ones reflected in the
    middle of the fill area. *)
Lemma rtl_is_mirrored_ltr {T : Toolkit} (fill : Rectangle.t) (icon_width stat_width : Z) :
  rtl_regions fill icon_width stat_width
  = mirror_regions fill (ltr_regions fill icon_width stat_width).
Proof.
  unfold rtl_regions, ltr_regions, mirror_regions, mirror, across, name_width, Rectangle.set_x.
  cbn [icon_region name_region stat_region prog_region
       Rectangle.get_x Rectangle.get_y Rectangle.get_width Rectangle.get_height].
  f_equal; f_equal; lia.
Qed.

(** When no width is negative, the name's included, each region lies
    within the fill area. *)
Lemma regions_within_fill {T : Toolkit} (fill : Rectangle.t) (icon_width stat_width : Z)
    (rtl : bool) :
  0 <= GUI_PAD -> 0 <= icon_width -> 0 <= stat_width ->
  0 <= name_width fill icon_width stat_width ->
  let R := if rtl then rtl_regions fill icon_width stat_width
           else ltr_regions fill icon_width stat_width in
  Forall (fun r => Rectangle.get_x fill <= Rectangle.get_x r
                   /\ 0 <= Rectangle.get_width r
                   /\ Rectangle.get_x r + Rectangle.get_width r
                      <= Rectangle.get_x fill + Rectangle.get_width fill)
         [icon_region R; name_region R; stat_region R; prog_region R].
Proof.
  intros Hp Hi Hs Hn. unfold name_width, CompactBarWidth in Hn.
  destruct rtl; unfold rtl_regions, ltr_regions, across, name_width, CompactBarWidth;
    cbn [icon_region name_region stat_region prog_region
         Rectangle.get_x Rectangle.get_y Rectangle.get_width Rectangle.get_height];
    repeat (apply Forall_cons;
            [cbn [Rectangle.get_x Rectangle.get_width]; repeat split; lia |]);
    apply Forall_nil.
Qed.

(** In a fill area narrower than the bar the bar starts left of it. *)
Example narrow_fill_area :
  Rectangle.get_x (prog_region (ltr_regions (T := Sample.gtk3) (Rectangle.mk 12 21 26 28) 16 70)) = -12.
Proof. reflexivity. Qed.

Section LayoutTheorems.

Context {F : Formatters} {T : Toolkit}.

(** C1. Every size request and every render request is served in the
    layout the [compact] property selects: compact when it is true, full
    when it is false, never both.  With a torrent, the two size functions
    report the width, respectively the height, that [get_size_compact] or
    [get_size_full] computes, and the render function is [render_compact] or
    [render_full]; with none they do nothing. *)
Theorem layout_mode_dispatch (snapshot : Context) (widget : Widget)
    (background_area cell_area : Rectangle.t) (flags : CellRendererState)
    (minimum natural : Z) (w : Renderer) :
  (layout_mode w = CompactLayout <-> compact w = true)
  /\ (layout_mode w = FullLayout <-> compact w = false)
  /\ get_preferred_width_vfunc widget minimum natural w
     = match torrent w with
       | Some _ =>
           match get_size (layout_mode w) widget w with
           | Some ((width, height), w') => Some ((width, width), w')
           | None => None
           end
       | None => Some ((minimum, natural), w)
       end
  /\ get_preferred_height_vfunc widget minimum natural w
     = match torrent w with
       | Some _ =>
           match get_size (layout_mode w) widget w with
           | Some ((width, height), w') => Some ((height, height), w')
           | None => None
           end
       | None => Some ((minimum, natural), w)
       end
  /\ render_vfunc snapshot widget background_area cell_area flags w
     = match torrent w with
       | Some _ => render (layout_mode w) snapshot widget background_area flags w
       | None => Some (tt, w)
       end.
Proof.
  cbv beta iota delta [layout_mode get_preferred_width_vfunc get_preferred_height_vfunc
                       render_vfunc get_size render bind gets ret].
  destruct (torrent w) as [tor|]; destruct (compact w);
    (split; [split; congruence |]); (split; [split; congruence |]);
    repeat split;
    repeat match goal with
           | |- context [match ?m w with _ => _ end] => destruct (m w) as [[[? ?] ?]|]
           end; reflexivity.
Qed.

(** C4. With a torrent set, the size of the cell is fixed arithmetic over
    the natural sizes of the child renderers.  Compact: the width is twice
    the horizontal padding, the icon width, a pad, the 50 of the bar, a pad
    and the width of the short status; the height is twice the vertical
    padding and the larger of the name height and the bar height.  Full:
    the width is twice the horizontal padding, the icon width, a pad and the
    larger of the widths of the progress string and the status string; the
    height is twice the vertical padding and the heights of name and
    progress string, a small pad, the bar height, a small pad and the height
    of the status string.  The size functions report that size as both the
    minimum and the natural one. *)
Theorem negotiated_size (widget : Widget) (w : Renderer) (tor : tr_torrent) (minimum natural : Z) :
  torrent w = Some tor ->
  option_map fst (get_size_compact widget w)
  = Some (2 * fst (padding w)
          + REQ_WIDTH (natural_icon w tor widget CompactIconSize)
          + GUI_PAD + 50 + GUI_PAD
          + REQ_WIDTH (natural_text w widget (short_status w tor)
                         (CellRendererText.property_weight (text_renderer_ w)) SmallScale),
          2 * snd (padding w)
          + Z.max (REQ_HEIGHT (natural_text w widget (tr_torrentName tor)
                                 (CellRendererText.property_weight (text_renderer_ w)) Double.one))
                  (bar_height w))
  /\ option_map fst (get_size_full widget w)
     = Some (2 * fst (padding w)
             + REQ_WIDTH (natural_icon w tor widget FullIconSize)
             + GUI_PAD
             + Z.max (REQ_WIDTH (natural_text w widget (progress_string tor) WEIGHT_NORMAL SmallScale))
                     (REQ_WIDTH (natural_text w widget (long_status w tor true) WEIGHT_NORMAL SmallScale)),
             2 * snd (padding w)
             + REQ_HEIGHT (natural_text w widget (tr_torrentName tor) WEIGHT_BOLD Double.one)
             + REQ_HEIGHT (natural_text w widget (progress_string tor) WEIGHT_NORMAL SmallScale)
             + GUI_PAD_SMALL + bar_height w + GUI_PAD_SMALL
             + REQ_HEIGHT (natural_text w widget (long_status w tor true) WEIGHT_NORMAL SmallScale))
  /\ option_map fst (get_preferred_width_vfunc widget minimum natural w)
     = Some (let width :=
               fst (if compact w then compact_size w tor widget else full_size w tor widget) in
             (width, width))
  /\ option_map fst (get_preferred_height_vfunc widget minimum natural w)
     = Some (let height :=
               snd (if compact w then compact_size w tor widget else full_size w tor widget) in
             (height, height)).
Proof.
  intros Ht.
  destruct (get_size_compact_run widget w tor Ht) as (wc & Ec & _).
  destruct (get_size_full_run widget w tor Ht) as (wf & Ef & _).
  split; [rewrite Ec; reflexivity |].
  split; [rewrite Ef; reflexivity |].
  cbv beta iota delta [get_preferred_width_vfunc get_preferred_height_vfunc bind gets ret].
  rewrite Ht.
  destruct (compact w); rewrite ?Ec, ?Ef;
    destruct (compact_size w tor widget), (full_size w tor widget); split; reflexivity.
Qed.

End LayoutTheorems.

Section RowTheorems.

Context {F : Formatters} {T : Toolkit}.

(** C3. In compact mode the icon, the name, the status and the progress bar
    are drawn in four regions that share the top and the height of the fill
    area (the background area without the padding) and, with the three pads
    between them, run from its left edge to its right edge.  With no
    [DIR_RTL] state flag the icon is at the left edge, the bar at the right
    edge, the status a pad left of the bar and the name a pad right of the
    icon; with the flag the icon is at the right edge, the bar at the left
    edge, the status a pad right of the bar and the name a pad right of the
    status, which is the mirror image.  In both the name is as wide as the
    fill area less the icon, the status, the bar and three pads.  Nothing
    clamps that width: the four regions lie inside the fill area when the
    pad and the widths of the icon, the status and the name are not
    negative, and only then is it certain. *)
Theorem render_compact_layout (snapshot : Context) (widget : Widget)
    (background_area : Rectangle.t) (flags : CellRendererState) (w : Renderer) (tor : tr_torrent) :
  torrent w = Some tor ->
  let fill := inset background_area (padding w) in
  let state := get_state widget (effective_flags tor flags) in
  let R := compact_regions w tor widget background_area flags in
  let icon := icon_region R in
  let name := name_region R in
  let stat := stat_region R in
  let prog := prog_region R in
  let x := Rectangle.get_x in
  let width := Rectangle.get_width in
  (exists w',
     render_compact snapshot widget background_area flags w = Some (tt, w')
     /\ drawn w'
        = (drawn w
           ++ render_icon (row_icon tor CompactIconSize (row_sensitive tor)) icon icon
                (effective_flags tor flags)
           :: progress_bar_pipeline snapshot prog (effective_flags tor flags)
                (activity_color (activity (tr_torrentStatCached tor))) (compact_bar tor)
           ++ [ render_text (compact_stat_text w tor flags) stat stat (effective_flags tor flags);
                render_text (compact_name_text w tor flags) name name (effective_flags tor flags) ])%list)
  /\ Forall (fun r => Rectangle.get_y r = Rectangle.get_y fill
                      /\ Rectangle.get_height r = Rectangle.get_height fill)
            [icon; name; stat; prog]
  /\ width icon = compact_icon_width w tor widget
  /\ width stat = compact_stat_width w tor widget flags
  /\ width prog = 50
  /\ width name = width fill - width icon - width stat - width prog - 3 * GUI_PAD
  /\ (Z.land state STATE_FLAG_DIR_RTL = 0 ->
      x icon = x fill
      /\ x prog + width prog = x fill + width fill
      /\ x stat + width stat + GUI_PAD = x prog
      /\ x name = x icon + width icon + GUI_PAD
      /\ x name + width name + GUI_PAD = x stat)
  /\ (Z.land state STATE_FLAG_DIR_RTL <> 0 ->
      x icon + width icon = x fill + width fill
      /\ x prog = x fill
      /\ x stat = x prog + width prog + GUI_PAD
      /\ x name = x stat + width stat + GUI_PAD
      /\ x name + width name + GUI_PAD = x icon
      /\ R = mirror_regions fill (ltr_regions fill (width icon) (width stat)))
  /\ (0 <= GUI_PAD -> 0 <= width icon -> 0 <= width stat -> 0 <= width name ->
      Forall (fun r => x fill <= x r
                       /\ 0 <= width r
                       /\ x r + width r <= x fill + width fill)
             [icon; name; stat; prog]).
Proof.
  intros Ht fill state R icon name stat prog x width.
  split.
  { destruct (render_compact_run snapshot widget background_area flags w tor Ht) as (w' & E & D & _).
    exists w'. split; [exact E | exact D]. }
  assert (Hinside :
    0 <= GUI_PAD -> 0 <= width icon -> 0 <= width stat -> 0 <= width name ->
    Forall (fun r => x fill <= x r
                     /\ 0 <= width r
                     /\ x r + width r <= x fill + width fill)
           [icon; name; stat; prog]).
  { subst icon name stat prog R x width fill. unfold compact_regions, compact_fill.
    intros Hp Hi Hs Hn.
    destruct (Z.land (get_state widget (effective_flags tor flags)) STATE_FLAG_DIR_RTL =? 0).
    - apply (regions_within_fill _ _ _ false); assumption.
    - apply (regions_within_fill _ _ _ true); assumption. }
  revert Hinside.
  subst icon name stat prog R x width state fill.
  unfold compact_regions, compact_fill.
  destruct (Z.eqb_spec
              (Z.land (get_state widget (effective_flags tor flags)) STATE_FLAG_DIR_RTL) 0)
    as [E | E].
  - unfold ltr_regions, across, name_width, inset, CompactBarWidth.
    cbn [icon_region name_region stat_region prog_region
         Rectangle.get_x Rectangle.get_y Rectangle.get_width Rectangle.get_height].
    intros Hinside.
    repeat split; try lia; try (intros; lia); try exact Hinside.
    all: repeat constructor.
  - rewrite rtl_is_mirrored_ltr.
    unfold mirror_regions, mirror, ltr_regions, across, name_width, inset, CompactBarWidth,
      Rectangle.set_x.
    cbn [icon_region name_region stat_region prog_region
         Rectangle.get_x Rectangle.get_y Rectangle.get_width Rectangle.get_height].
    intros Hinside.
    repeat split; try lia; try (intros; lia); try exact Hinside.
    all: repeat constructor.
Qed.

(** C6. [render_progress_bar] issues, in this order and nothing else: the
    progress renderer drawn into a fresh ARGB32 surface of the size of the
    target area; an A8 mask of the same size, filled black and then cleared
    through the surface of the indicator; the background surface put
    underneath with DEST_OVER; the whole area painted with the red, green
    and blue of the colour under HSL_COLOR; the masked areas cleared again;
    the result copied to the output at the position of the target area.  The
    renderer itself is left as it was. *)
Theorem progress_bar_recoloring (snapshot : Context) (widget : Widget) (area : Rectangle.t)
    (flags : CellRendererState) (color : RGBA) (w : Renderer) :
  exists w',
    render_progress_bar snapshot widget area flags color w = Some (tt, w')
    /\ drawn w'
       = (drawn w
          ++ draw_indicator area flags (progress_renderer_ w)
          ++ build_mask area
          ++ composite_background snapshot area
          ++ recolor area color
          ++ clear_masked area
          ++ copy_out snapshot area)%list
    /\ indicator area
       = Context_create
           (ImageSurface_create ARGB32 (Rectangle.get_width area) (Rectangle.get_height area))
    /\ transparency_mask area
       = ImageSurface_create A8 (Rectangle.get_width area) (Rectangle.get_height area)
    /\ unchanged w w'
    /\ text_renderer_ w' = text_renderer_ w
    /\ progress_renderer_ w' = progress_renderer_ w
    /\ icon_renderer_ w' = icon_renderer_ w.
Proof.
  rewrite render_progress_bar_run. eexists. split; [reflexivity |].
  repeat split.
Qed.

(** C7, as the code has it.  A full row is an icon, the name, the progress
    string, the progress bar without a label and the status string.  A
    compact row is an icon, the progress bar labelled with the percentage,
    the short status and the name: the progress string is not part of it. *)
Theorem row_contents (snapshot : Context) (widget : Widget) (background_area : Rectangle.t)
    (flags : CellRendererState) (w : Renderer) (tor : tr_torrent) :
  torrent w = Some tor ->
  (exists w' row,
     render_full snapshot widget background_area flags w = Some (tt, w')
     /\ drawn w' = (drawn w ++ row)%list
     /\ drawn_icons row = [Some (get_icon tor)]
     /\ drawn_texts row = [tr_torrentName tor; progress_string tor; long_status w tor false]
     /\ drawn_bars row = [(row_percent tor, "")])
  /\ (exists w' row,
        render_compact snapshot widget background_area flags w = Some (tt, w')
        /\ drawn w' = (drawn w ++ row)%list
        /\ drawn_icons row = [Some (get_icon tor)]
        /\ drawn_texts row = [short_status w tor; tr_torrentName tor]
        /\ drawn_bars row = [(row_percent tor, fmt_int (row_percent tor) ++ "%")]).
Proof.
  intros Ht. split.
  - destruct (render_full_run snapshot widget background_area flags w tor Ht)
      as (w' & a1 & a2 & a3 & a4 & a5 & E & D & _).
    exists w'. eexists. split; [exact E |]. split; [exact D |].
    unfold full_row.
    cbn [drawn_icons drawn_texts drawn_bars].
    rewrite drawn_icons_app, drawn_texts_app, drawn_bars_app,
      pipeline_icons, pipeline_texts, pipeline_bars.
    repeat split.
  - destruct (render_compact_run snapshot widget background_area flags w tor Ht)
      as (w' & E & D & _).
    exists w'. eexists. split; [exact E |]. split; [exact D |].
    unfold compact_row.
    cbn [drawn_icons drawn_texts drawn_bars].
    rewrite drawn_icons_app, drawn_texts_app, drawn_bars_app,
      pipeline_icons, pipeline_texts, pipeline_bars.
    repeat split.
Qed.

(** C9. With no torrent the two size functions hand back their output
    parameters as they got them and the render function draws nothing and
    changes nothing.  The three never dereference a null torrent, in
    whatever state they are called, while the member functions they guard
    would. *)
Theorem null_torrent_guard (snapshot : Context) (widget : Widget)
    (background_area cell_area : Rectangle.t) (flags : CellRendererState)
    (minimum natural : Z) (w : Renderer) :
  (torrent w = None ->
   get_preferred_width_vfunc widget minimum natural w = Some ((minimum, natural), w)
   /\ get_preferred_height_vfunc widget minimum natural w = Some ((minimum, natural), w)
   /\ render_vfunc snapshot widget background_area cell_area flags w = Some (tt, w)
   /\ get_size_compact widget w = None
   /\ get_size_full widget w = None
   /\ render_compact snapshot widget background_area flags w = None
   /\ render_full snapshot widget background_area flags w = None)
  /\ get_preferred_width_vfunc widget minimum natural w <> None
  /\ get_preferred_height_vfunc widget minimum natural w <> None
  /\ render_vfunc snapshot widget background_area cell_area flags w <> None.
Proof.
  split.
  - intros Ht.
    destruct (null_dereference snapshot widget background_area flags w Ht) as (N1 & N2 & N3 & N4).
    cbv beta iota delta [get_preferred_width_vfunc get_preferred_height_vfunc render_vfunc
                         bind gets ret].
    rewrite Ht. repeat split; assumption.
  - cbv beta iota delta [get_preferred_width_vfunc get_preferred_height_vfunc render_vfunc
                         bind gets ret].
    destruct (torrent w) as [tor|] eqn:Ht; [| repeat split; discriminate].
    destruct (get_size_compact_run widget w tor Ht) as (wc & Ec & _).
    destruct (get_size_full_run widget w tor Ht) as (wf & Ef & _).
    destruct (render_compact_run snapshot widget background_area flags w tor Ht) as (w1 & E1 & _).
    destruct (render_full_run snapshot widget background_area flags w tor Ht)
      as (w2 & a1 & a2 & a3 & a4 & a5 & E2 & _).
    destruct (compact w); rewrite ?Ec, ?Ef, ?E1, ?E2;
      destruct (compact_size w tor widget), (full_size w tor widget);
      repeat split; discriminate.
Qed.

End RowTheorems.

(** ** What is only read *)

Section FrameTheorems.

Context {F : Formatters} {T : Toolkit}.

Lemma well_behaved_render_progress_bar snapshot widget area flags color :
  well_behaved (render_progress_bar snapshot widget area flags color).
Proof.
  intros w _. unfold keeps. rewrite render_progress_bar_run. eexists; eexists.
  split; [reflexivity | repeat split].
Qed.

Lemma well_behaved_get_size_compact widget : well_behaved (get_size_compact widget).
Proof.
  unfold get_size_compact, icon_renderer_get_preferred_size, text_renderer_get_preferred_size.
  pose proof well_behaved_set_icon. behaved.
Qed.

Lemma well_behaved_get_size_full widget : well_behaved (get_size_full widget).
Proof.
  unfold get_size_full, icon_renderer_get_preferred_size, text_renderer_get_preferred_size.
  pose proof well_behaved_set_icon. behaved.
Qed.

Lemma well_behaved_render_compact snapshot widget background_area flags :
  well_behaved (render_compact snapshot widget background_area flags).
Proof.
  unfold render_compact, icon_renderer_get_preferred_width, text_renderer_get_preferred_width.
  pose proof well_behaved_set_icon. pose proof well_behaved_render_progress_bar.
  behaved.
Qed.

Lemma well_behaved_render_full snapshot widget background_area flags :
  well_behaved (render_full snapshot widget background_area flags).
Proof.
  unfold render_full, icon_renderer_get_preferred_size, text_renderer_get_preferred_size.
  pose proof well_behaved_set_icon. pose proof well_behaved_render_progress_bar.
  behaved.
Qed.

(** C5. The statistics snapshot and the two speeds are only read.  Each of
    [get_size_compact], [get_size_full], [render_compact] and [render_full]
    returns with the torrent, hence its snapshot, and both speeds as they
    were, whatever else of the renderer it writes; and the string builders
    are functions of the snapshot and the speeds, so that what they build
    after such a run is what they built before it. *)
Theorem statistics_read_only (snapshot : Context) (widget : Widget)
    (background_area : Rectangle.t) (flags : CellRendererState) (w : Renderer) (tor : tr_torrent) :
  torrent w = Some tor ->
  let read_only := fun (A : Type) (m : M A) =>
    exists r w',
      m w = Some (r, w')
      /\ torrent w' = Some tor
      /\ upload_speed_KBps w' = upload_speed_KBps w
      /\ download_speed_KBps w' = download_speed_KBps w in
  read_only _ (get_size_compact widget)
  /\ read_only _ (get_size_full widget)
  /\ read_only _ (render_compact snapshot widget background_area flags)
  /\ read_only _ (render_full snapshot widget background_area flags)
  /\ (forall w' tor',
        torrent w' = Some tor' ->
        torrent w' = torrent w ->
        upload_speed_KBps w' = upload_speed_KBps w ->
        download_speed_KBps w' = download_speed_KBps w ->
        let st' := tr_torrentStatCached tor' in
        let up' := upload_speed_KBps w' in
        let down' := download_speed_KBps w' in
        let st := tr_torrentStatCached tor in
        let up := upload_speed_KBps w in
        let down := download_speed_KBps w in
        st' = st
        /\ getProgressString tor' (tr_torrentTotalSize tor') st'
           = getProgressString tor (tr_torrentTotalSize tor) st
        /\ getShortTransferString tor' st' up' down' = getShortTransferString tor st up down
        /\ getShortStatusString tor' st' up' down' = getShortStatusString tor st up down
        /\ getActivityString tor' st' up' down' = getActivityString tor st up down
        /\ forall ignore_errors,
             getStatusString tor' st' up' down' ignore_errors
             = getStatusString tor st up down ignore_errors).
Proof.
  intros Ht read_only.
  assert (Hw : torrent w <> None) by congruence.
  assert (Hkeeps : forall A (m : M A), keeps m w -> read_only A m).
  { intros A m (r & w' & E & Ut & Uu & Ud & _).
    exists r, w'. rewrite Ut, Uu, Ud, Ht. repeat split; assumption. }
  split; [apply Hkeeps, well_behaved_get_size_compact, Hw |].
  split; [apply Hkeeps, well_behaved_get_size_full, Hw |].
  split; [apply Hkeeps, well_behaved_render_compact, Hw |].
  split; [apply Hkeeps, well_behaved_render_full, Hw |].
  intros w' tor' Ht' Ut Uu Ud. cbv zeta.
  assert (tor' = tor) by congruence. subst tor'.
  rewrite Uu, Ud. repeat split.
Qed.

End FrameTheorems.

(** ** The theorems at work on the sample row *)

Section Examples.

Existing Instance Sample.formatters.
Existing Instance Sample.gtk3.

(** C7 as stated fails: the compact row of the sample torrent shows two
    texts, the short status and the name, and neither is the progress
    string. *)
Lemma compact_row_lacks_progress_string :
  exists w',
    render_vfunc cell_snapshot Sample.ltr Sample.cell Sample.cell 0 (Sample.row true) = Some (tt, w')
    /\ drawn_texts (drawn w') = ["0 kB/s ▼  0 kB/s ▲ Ratio: 0"; "ubuntu.iso"]
    /\ getProgressString Sample.tor (tr_torrentTotalSize Sample.tor) (tr_torrentStatCached Sample.tor)
       = "50 B of 200 B (25%) - 60 seconds"
    /\ ~ In (getProgressString Sample.tor (tr_torrentTotalSize Sample.tor)
               (tr_torrentStatCached Sample.tor))
            (drawn_texts (drawn w')).
Proof.
  eexists. split; [vm_compute; reflexivity |].
  split; [reflexivity |]. split; [reflexivity |].
  vm_compute. intros [H | [H | []]]; discriminate H.
Qed.

(** C3 as stated fails: in a cell 60 wide the compact row of the sample
    torrent is drawn with the status starting at -205, left of the fill
    area, which starts at 12, and with a name of width -245. *)
Lemma compact_row_overflows_narrow_cell :
  exists w',
    render_compact cell_snapshot Sample.ltr (Rectangle.mk 10 20 60 30) 0 (Sample.row true)
    = Some (tt, w')
    /\ In (render_text (compact_stat_text (Sample.row true) Sample.tor 0)
             (Rectangle.mk (-205) 21 217 28) (Rectangle.mk (-205) 21 217 28) 0)
          (drawn w')
    /\ In (render_text (compact_name_text (Sample.row true) Sample.tor 0)
             (Rectangle.mk 34 21 (-245) 28) (Rectangle.mk 34 21 (-245) 28) 0)
          (drawn w')
    /\ inset (Rectangle.mk 10 20 60 30) (padding (Sample.row true)) = Rectangle.mk 12 21 56 28
    /\ stat_region (compact_regions (Sample.row true) Sample.tor Sample.ltr
                      (Rectangle.mk 10 20 60 30) 0)
       = Rectangle.mk (-205) 21 217 28
    /\ ~ (Rectangle.get_x (inset (Rectangle.mk 10 20 60 30) (padding (Sample.row true)))
          <= Rectangle.get_x
               (stat_region (compact_regions (Sample.row true) Sample.tor Sample.ltr
                               (Rectangle.mk 10 20 60 30) 0))).
Proof.
  destruct (render_compact_run cell_snapshot Sample.ltr (Rectangle.mk 10 20 60 30) 0
              (Sample.row true) Sample.tor eq_refl) as (w' & E & D & _).
  assert (Hstat : stat_region (compact_regions (Sample.row true) Sample.tor Sample.ltr
                                 (Rectangle.mk 10 20 60 30) 0)
                  = Rectangle.mk (-205) 21 217 28) by (vm_compute; reflexivity).
  assert (Hname : name_region (compact_regions (Sample.row true) Sample.tor Sample.ltr
                                 (Rectangle.mk 10 20 60 30) 0)
                  = Rectangle.mk 34 21 (-245) 28) by (vm_compute; reflexivity).
  exists w'. split; [exact E |].
  rewrite D. unfold compact_row. rewrite Hstat, Hname.
  split; [apply in_or_app; right; right; apply in_or_app; right; left; reflexivity |].
  split; [apply in_or_app; right; right; apply in_or_app; right; right; left; reflexivity |].
  split; [reflexivity |]. split; [reflexivity |].
  cbn [Rectangle.get_x]. vm_compute. intros H. apply H. reflexivity.
Qed.

Lemma render_compact_layout_witness :
  torrent (Sample.row true) = Some Sample.tor
  /\ Z.land (get_state Sample.ltr (effective_flags Sample.tor 0)) STATE_FLAG_DIR_RTL = 0
  /\ Rectangle.get_x (icon_region (compact_regions (Sample.row true) Sample.tor Sample.ltr Sample.cell 0))
     = 12
  /\ Rectangle.get_x (name_region (compact_regions (Sample.row true) Sample.tor Sample.ltr Sample.cell 0))
     = 34
  /\ Z.land (get_state Sample.rtl (effective_flags Sample.tor 0)) STATE_FLAG_DIR_RTL = 256
  /\ Rectangle.get_x (prog_region (compact_regions (Sample.row true) Sample.tor Sample.rtl Sample.cell 0))
     = 12
  /\ Rectangle.get_x (stat_region (compact_regions (Sample.row true) Sample.tor Sample.rtl Sample.cell 0))
     = 68.
Proof.
  split; [reflexivity |]. split; [reflexivity |].
  destruct (render_compact_layout cell_snapshot Sample.ltr Sample.cell 0 (Sample.row true) Sample.tor
              eq_refl) as (_ & _ & _ & _ & Hbar & _ & Hltr & _).
  destruct (Hltr eq_refl) as (Hicon & _ & _ & Hname & _).
  split; [rewrite Hicon; reflexivity |].
  split; [rewrite Hname, Hicon; reflexivity |].
  split; [reflexivity |].
  destruct (render_compact_layout cell_snapshot Sample.rtl Sample.cell 0 (Sample.row true) Sample.tor
              eq_refl) as (_ & _ & _ & _ & Hbar' & _ & _ & Hrtl & _).
  assert (Hflag : Z.land (get_state Sample.rtl (effective_flags Sample.tor 0)) STATE_FLAG_DIR_RTL <> 0)
    by discriminate.
  destruct (Hrtl Hflag) as (_ & Hprog & Hstat & _).
  split; [rewrite Hprog; reflexivity | rewrite Hstat, Hprog, Hbar'; reflexivity].
Defined.

Lemma negotiated_size_witness :
  torrent (Sample.row true) = Some Sample.tor
  /\ option_map fst (get_size_compact Sample.ltr (Sample.row true)) = Some (299, 16)
  /\ option_map fst (get_size_full Sample.ltr (Sample.row true)) = Some (490, 62)
  /\ option_map fst (get_preferred_width_vfunc Sample.ltr 0 0 (Sample.row true)) = Some (299, 299).
Proof.
  split; [reflexivity |].
  destruct (negotiated_size Sample.ltr (Sample.row true) Sample.tor 0 0 eq_refl)
    as (Hc & Hf & Hw & _).
  rewrite Hc, Hf, Hw. repeat split.
Defined.

Lemma statistics_read_only_witness :
  torrent (Sample.row true) = Some Sample.tor
  /\ exists r w',
       render_compact cell_snapshot Sample.ltr Sample.cell 0 (Sample.row true) = Some (r, w')
       /\ torrent w' = Some Sample.tor
       /\ upload_speed_KBps w' = upload_speed_KBps (Sample.row true)
       /\ download_speed_KBps w' = download_speed_KBps (Sample.row true).
Proof.
  split; [reflexivity |].
  destruct (statistics_read_only cell_snapshot Sample.ltr Sample.cell 0 (Sample.row true) Sample.tor
              eq_refl) as (_ & _ & H & _).
  exact H.
Defined.

Lemma row_contents_witness :
  torrent (Sample.row false) = Some Sample.tor
  /\ exists w' row,
       render_full cell_snapshot Sample.ltr Sample.cell 0 (Sample.row false) = Some (tt, w')
       /\ drawn w' = (drawn (Sample.row false) ++ row)%list
       /\ drawn_texts row
          = [ "ubuntu.iso";
              "50 B of 200 B (25%) - 60 seconds";
              "Downloading from 2 of 3 connected peers - 0 kB/s ▼  0 kB/s ▲" ]
       /\ drawn_bars row = [(25, "")].
Proof.
  split; [reflexivity |].
  destruct (row_contents cell_snapshot Sample.ltr Sample.cell 0 (Sample.row false) Sample.tor eq_refl)
    as ((w' & row & E & D & _ & Ht & Hb) & _).
  exists w', row. rewrite Ht, Hb. repeat split; assumption.
Defined.

Lemma null_torrent_guard_witness :
  torrent Sample.fresh = None
  /\ get_preferred_width_vfunc Sample.ltr 3 5 Sample.fresh = Some ((3, 5), Sample.fresh)
  /\ get_preferred_height_vfunc Sample.ltr 3 5 Sample.fresh = Some ((3, 5), Sample.fresh)
  /\ render_vfunc cell_snapshot Sample.ltr Sample.cell Sample.cell 0 Sample.fresh
     = Some (tt, Sample.fresh).
Proof.
  split; [reflexivity |].
  destruct (null_torrent_guard cell_snapshot Sample.ltr Sample.cell Sample.cell 0 3 5 Sample.fresh)
    as (H & _).
  destruct (H eq_refl) as (H1 & H2 & H3 & _).
  repeat split; assumption.
Defined.

Lemma get_percent_done_and_color_witness :
  Double.is_nan (percent_field Sample.tor Sample.stat) = false
  /\ Double.ge (fst (get_percent_done Sample.tor Sample.stat)) Double.zero = true.
Proof.
  split; [reflexivity |].
  destruct (get_percent_done_and_color Sample.tor Sample.stat) as (_ & _ & _ & H & _).
  destruct (H eq_refl) as (H1 & _). exact H1.
Defined.

Lemma getStatusString_error_cases_witness :
  getErrorString Sample.failing = Some "Local error: 'disk full'"
  /\ getStatusString Sample.tor Sample.failing Double.zero Double.zero false
     = "Local error: 'disk full'" ++ transfer_suffix Sample.tor Sample.failing Double.zero Double.zero.
Proof.
  split; [reflexivity |].
  destruct (getStatusString_error_cases Sample.tor Sample.failing Double.zero Double.zero)
    as (_ & _ & H & _).
  exact (H "Local error: 'disk full'" eq_refl).
Defined.

End Examples.

(** * Further properties *)

(** ** The renderer as each member function leaves it *)

Section FinalStates.

Context {F : Formatters} {T : Toolkit}.

Lemma get_size_compact_final widget w tor :
  torrent w = Some tor ->
  get_size_compact widget w = Some (compact_size w tor widget, after_get_size_compact w tor).
Proof.
  intros Ht. destruct w as [t bh up down c [xpad ypad] tr pr ir dr]. cbn in Ht. subst t.
  unfold get_size_compact, compact_size, after_get_size_compact, natural_icon, natural_text,
    short_status, row_icon, styled,
    set_icon, icon_renderer_get_preferred_size, text_renderer_get_preferred_size.
  run. split_pairs. run. rewrite std_max_is_max.
  match goal with
  | |- Some (?a, ?b, ?W) = Some (?a', ?b', ?W') =>
      replace a with a' by (unfold CompactBarWidth; lia);
      replace b with b' by lia
  end.
  reflexivity.
Qed.

Lemma get_size_full_final widget w tor :
  torrent w = Some tor ->
  get_size_full widget w = Some (full_size w tor widget, after_get_size_full w tor).
Proof.
  intros Ht. destruct w as [t bh up down c [xpad ypad] tr pr ir dr]. cbn in Ht. subst t.
  unfold get_size_full, full_size, after_get_size_full, natural_icon, natural_text,
    long_status, progress_string, row_icon, styled,
    set_icon, icon_renderer_get_preferred_size, text_renderer_get_preferred_size.
  run. split_pairs. run. rewrite std_max_is_max.
  match goal with
  | |- Some (?a, ?b, ?W) = Some (?a', ?b', ?W') =>
      replace a with a' by (unfold CompactBarWidth; lia);
      replace b with b' by lia
  end.
  reflexivity.
Qed.

Lemma render_compact_final snapshot widget bg flags w tor :
  torrent w = Some tor ->
  render_compact snapshot widget bg flags w
  = Some (tt, after_render_compact w tor widget bg flags snapshot).
Proof.
  intros Ht. destruct w as [t bh up down c [xpad ypad] tr pr ir dr]. cbn in Ht. subst t.
  unfold render_compact.
  unfold bind at 1. unfold deref_torrent at 1. cbv beta iota zeta delta [torrent].
  rewrite !effective_flags_eq, !row_sensitive_eq, !get_progress_bar_color_eq.
  destruct (get_percent_done tor (tr_torrentStatCached tor)) as [pd seed] eqn:Epd.
  unfold bind at 1. rewrite set_foreground_run.
  unfold set_icon, icon_renderer_get_preferred_width, text_renderer_get_preferred_width.
  unfold after_render_compact,
    compact_row, compact_regions, compact_icon_width, compact_stat_width, compact_fill,
    compact_bar, compact_stat_text, compact_name_text, row_icon, styled, short_status,
    row_percent, ltr_regions, rtl_regions, across, name_width, inset.
  rewrite Epd.
  destruct (Z.land (get_state widget (effective_flags tor flags)) STATE_FLAG_DIR_RTL =? 0);
    run; split_pairs; run; rewrite render_progress_bar_run; run;
    rewrite <- !app_assoc; reflexivity.
Qed.

Lemma render_full_final snapshot widget bg flags w tor :
  torrent w = Some tor ->
  render_full snapshot widget bg flags w
  = Some (tt, after_render_full w tor widget bg flags snapshot).
Proof.
  intros Ht. destruct w as [t bh up down c [xpad ypad] tr pr ir dr]. cbn in Ht. subst t.
  unfold render_full.
  unfold bind at 1. unfold deref_torrent at 1. cbv beta iota zeta delta [torrent].
  rewrite !effective_flags_eq, !row_sensitive_eq, !get_progress_bar_color_eq.
  destruct (get_percent_done tor (tr_torrentStatCached tor)) as [pd seed] eqn:Epd.
  unfold bind at 1. rewrite set_foreground_run.
  unfold set_icon, icon_renderer_get_preferred_size, text_renderer_get_preferred_size.
  unfold after_render_full, full_row_of, full_regions, full_icon_size, full_name_height,
    full_prog_height, full_stat_height,
    full_row, full_bar, full_name_text, full_prog_text, full_stat_text, row_icon, styled,
    long_status, progress_string, row_percent.
  rewrite Epd.
  destruct (Z.land (get_state widget (effective_flags tor flags)) STATE_FLAG_DIR_RTL =? 0);
    run; split_pairs; run; rewrite render_progress_bar_run; run;
    cbv beta iota zeta delta [full_icon_region full_name_region full_prog_region
                               full_prct_region full_stat_region REQ_WIDTH REQ_HEIGHT];
    rewrite <- !app_assoc; reflexivity.
Qed.

End FinalStates.

(** ** The layout of a full row, and rows at their natural size *)

Section FullLayoutTheorems.

Context {F : Formatters} {T : Toolkit}.

(** X1: [render_full] on a renderer with a torrent appends the full row,
    drawn in five areas.  The icon has the size it asks for; the name, the
    progress text, the bar and the status share one column, as wide as the
    fill area less [GUI_PAD] and the icon; they are stacked from the top of
    the fill area, the bar [bar_height] high with [GUI_PAD_SMALL] above and
    below it.  Left to right the icon is at the left edge and the column
    ends at the right edge; with the RTL bit set it is the other way
    round. *)
Theorem render_full_layout (snapshot : Context) (widget : Widget)
    (background_area : Rectangle.t) (flags : CellRendererState) (w : Renderer) (tor : tr_torrent) :
  torrent w = Some tor ->
  let fill := inset background_area (padding w) in
  let state := get_state widget (effective_flags tor flags) in
  let R := full_regions w tor widget background_area flags in
  let icon := full_icon_region R in
  let name := full_name_region R in
  let prog := full_prog_region R in
  let prct := full_prct_region R in
  let stat := full_stat_region R in
  let x := Rectangle.get_x in
  let y := Rectangle.get_y in
  let width := Rectangle.get_width in
  let height := Rectangle.get_height in
  (exists w',
     render_full snapshot widget background_area flags w = Some (tt, w')
     /\ drawn w' = (drawn w ++ full_row w tor snapshot flags icon name prog prct stat)%list)
  /\ width icon = REQ_WIDTH (full_icon_size w tor widget)
  /\ height icon = REQ_HEIGHT (full_icon_size w tor widget)
  /\ Forall (fun r => x r = x name /\ width r = width fill - GUI_PAD - width icon)
            [name; prog; prct; stat]
  /\ y name = y fill
  /\ y prog = y name + height name
  /\ y prct = y prog + height prog + GUI_PAD_SMALL
  /\ height prct = bar_height w
  /\ y stat = y prct + height prct + GUI_PAD_SMALL
  /\ (Z.land state STATE_FLAG_DIR_RTL = 0 ->
      x icon = x fill
      /\ x name = x icon + width icon + GUI_PAD
      /\ x name + width name = x fill + width fill)
  /\ (Z.land state STATE_FLAG_DIR_RTL <> 0 ->
      x name = x fill
      /\ x icon = x name + width name + GUI_PAD
      /\ x icon + width icon = x fill + width fill).
Proof.
  intros Ht fill state R icon name prog prct stat x y width height.
  split.
  { eexists. split; [apply render_full_final; exact Ht | reflexivity]. }
  subst icon name prog prct stat R x y width height state fill.
  unfold full_regions, inset.
  destruct (Z.eqb_spec
              (Z.land (get_state widget (effective_flags tor flags)) STATE_FLAG_DIR_RTL) 0)
    as [E | E];
    cbn [full_icon_region full_name_region full_prog_region full_prct_region full_stat_region
         Rectangle.get_x Rectangle.get_y Rectangle.get_width Rectangle.get_height];
    repeat split; try lia; try (intros; lia).
  all: repeat (apply Forall_cons;
               [cbn [Rectangle.get_x Rectangle.get_width]; split; lia |]); apply Forall_nil.
Qed.

(** X2: the icon of a full row is drawn centred vertically in the fill
    area: the space above and the space below differ by at most one pixel,
    and the odd pixel goes below when the icon fits, above when it is taller
    than the fill area (the C++ division truncates towards zero). *)
Theorem full_icon_centred (snapshot : Context) (widget : Widget) (background_area : Rectangle.t)
    (flags : CellRendererState) (w : Renderer) (tor : tr_torrent) :
  torrent w = Some tor ->
  let fill := inset background_area (padding w) in
  let icon := full_icon_region (full_regions w tor widget background_area flags) in
  let above := Rectangle.get_y icon - Rectangle.get_y fill in
  let below := Rectangle.get_y fill + Rectangle.get_height fill
               - (Rectangle.get_y icon + Rectangle.get_height icon) in
  (exists w',
     render_full snapshot widget background_area flags w = Some (tt, w')
     /\ In (render_icon (row_icon tor FullIconSize (row_sensitive tor)) icon icon
              (effective_flags tor flags))
           (drawn w'))
  /\ -1 <= above - below <= 1
  /\ (0 <= above + below -> 0 <= above <= below)
  /\ (above + below <= 0 -> below <= above <= 0).
Proof.
  intros Ht fill icon above below.
  split.
  { eexists. split; [apply render_full_final; exact Ht |].
    unfold after_render_full, full_row_of, full_row. cbn [drawn].
    apply in_or_app. right. left. reflexivity. }
  subst above below icon fill. unfold full_regions, inset.
  destruct (Z.land (get_state widget (effective_flags tor flags)) STATE_FLAG_DIR_RTL =? 0);
    cbn [full_icon_region Rectangle.get_x Rectangle.get_y Rectangle.get_width Rectangle.get_height];
    repeat split; intros; Z.to_euclidean_division_equations; lia.
Qed.

(** X3: the width [get_size_compact] asks for leaves no room for the
    name.  When the cell is exactly as wide as requested, and the icon and
    the status measure at drawing time what they measured at sizing time,
    the name of a compact row is drawn in an area of width [- GUI_PAD]. *)
Theorem compact_name_at_negotiated_width (snapshot : Context) (widget : Widget)
    (background_area : Rectangle.t) (flags : CellRendererState) (w : Renderer) (tor : tr_torrent) :
  torrent w = Some tor ->
  option_map (fun r => fst (fst r)) (get_size_compact widget w)
  = Some (Rectangle.get_width background_area) ->
  compact_icon_width w tor widget = REQ_WIDTH (natural_icon w tor widget CompactIconSize) ->
  compact_stat_width w tor widget flags
  = REQ_WIDTH (natural_text w widget (short_status w tor)
                 (CellRendererText.property_weight (text_renderer_ w)) SmallScale) ->
  let name := name_region (compact_regions w tor widget background_area flags) in
  exists w',
    render_compact snapshot widget background_area flags w = Some (tt, w')
    /\ In (render_text (compact_name_text w tor flags) name name (effective_flags tor flags))
          (drawn w')
    /\ Rectangle.get_width name = - GUI_PAD.
Proof.
  intros Ht Hsize Hicon Hstat name.
  rewrite (get_size_compact_final widget w tor Ht) in Hsize.
  assert (Hwidth : fst (compact_size w tor widget) = Rectangle.get_width background_area)
    by (injection Hsize as H; exact H).
  clear Hsize.
  eexists. split; [apply render_compact_final; exact Ht |]. split.
  - unfold after_render_compact, compact_row. cbn [drawn].
    apply in_or_app. right. right. apply in_or_app. right. right. left. reflexivity.
  - subst name. unfold compact_regions, compact_fill.
    unfold compact_size in Hwidth. cbn [fst] in Hwidth.
    destruct (Z.land (get_state widget (effective_flags tor flags)) STATE_FLAG_DIR_RTL =? 0);
      unfold ltr_regions, rtl_regions, across, name_width, inset, CompactBarWidth;
      cbn [name_region Rectangle.get_width];
      rewrite Hicon, Hstat; lia.
Qed.

(** X4: at exactly the size [get_size_full] asks for, and with texts that
    are as high at drawing time as at sizing time, the text column of the
    full row is as wide as the wider of the progress and status texts, and
    the status area ends at the bottom of the fill area. *)
Theorem full_row_at_negotiated_size (snapshot : Context) (widget : Widget)
    (background_area : Rectangle.t) (flags : CellRendererState) (w : Renderer) (tor : tr_torrent) :
  torrent w = Some tor ->
  option_map fst (get_size_full widget w)
  = Some (Rectangle.get_width background_area, Rectangle.get_height background_area) ->
  full_name_height w tor widget flags
  = REQ_HEIGHT (natural_text w widget (tr_torrentName tor) WEIGHT_BOLD Double.one) ->
  full_prog_height w tor widget flags
  = REQ_HEIGHT (natural_text w widget (progress_string tor) WEIGHT_NORMAL SmallScale) ->
  full_stat_height w tor widget flags
  = REQ_HEIGHT (natural_text w widget (long_status w tor true) WEIGHT_NORMAL SmallScale) ->
  let fill := inset background_area (padding w) in
  let R := full_regions w tor widget background_area flags in
  exists w',
    render_full snapshot widget background_area flags w = Some (tt, w')
    /\ drawn w'
       = (drawn w ++ full_row w tor snapshot flags (full_icon_region R) (full_name_region R)
                      (full_prog_region R) (full_prct_region R) (full_stat_region R))%list
    /\ Rectangle.get_width (full_name_region R)
       = Z.max (REQ_WIDTH (natural_text w widget (progress_string tor) WEIGHT_NORMAL SmallScale))
               (REQ_WIDTH (natural_text w widget (long_status w tor true) WEIGHT_NORMAL SmallScale))
    /\ Rectangle.get_y (full_stat_region R) + Rectangle.get_height (full_stat_region R)
       = Rectangle.get_y fill + Rectangle.get_height fill.
Proof.
  intros Ht Hsize Hname Hprog Hstat fill R.
  rewrite (get_size_full_final widget w tor Ht) in Hsize.
  assert (Hwidth : fst (full_size w tor widget) = Rectangle.get_width background_area)
    by (injection Hsize as H _; exact H).
  assert (Hheight : snd (full_size w tor widget) = Rectangle.get_height background_area)
    by (injection Hsize as _ H; exact H).
  clear Hsize. unfold full_size in Hwidth, Hheight.
  cbn [fst snd] in Hwidth, Hheight.
  eexists. split; [apply render_full_final; exact Ht |]. split; [reflexivity |].
  subst R fill. unfold full_regions, inset.
  assert (Hi : full_icon_size w tor widget = natural_icon w tor widget FullIconSize) by reflexivity.
  destruct (Z.land (get_state widget (effective_flags tor flags)) STATE_FLAG_DIR_RTL =? 0);
    cbn [full_name_region full_stat_region
         Rectangle.get_x Rectangle.get_y Rectangle.get_width Rectangle.get_height];
    rewrite Hi, Hname, Hprog, Hstat; split; lia.
Qed.

End FullLayoutTheorems.

(** ** Flags, colours and sensitivity *)

Lemma drawn_flags_app (a b : list Event) :
  drawn_flags (a ++ b) = (drawn_flags a ++ drawn_flags b)%list.
Proof. induction a as [|e a IH]; [reflexivity |]. destruct e; simpl; rewrite IH; reflexivity. Qed.

Lemma drawn_text_renderers_app (a b : list Event) :
  drawn_text_renderers (a ++ b) = (drawn_text_renderers a ++ drawn_text_renderers b)%list.
Proof. induction a as [|e a IH]; [reflexivity |]. destruct e; simpl; rewrite IH; reflexivity. Qed.

Lemma drawn_sensitive_app (a b : list Event) :
  drawn_sensitive (a ++ b) = (drawn_sensitive a ++ drawn_sensitive b)%list.
Proof. induction a as [|e a IH]; [reflexivity |]. destruct e; simpl; rewrite IH; reflexivity. Qed.

Section PipelineProjections.

Context {T : Toolkit}.

Variables (snapshot : Context) (area : Rectangle.t) (flags : CellRendererState)
  (color : RGBA) (progress : CellRendererProgress.t).

Lemma pipeline_flags : drawn_flags (progress_bar_pipeline snapshot area flags color progress) = [flags].
Proof. unfold progress_bar_pipeline, draw_indicator. destruct GTKMM4; reflexivity. Qed.

Lemma pipeline_text_renderers :
  drawn_text_renderers (progress_bar_pipeline snapshot area flags color progress) = [].
Proof. unfold progress_bar_pipeline, draw_indicator. destruct GTKMM4; reflexivity. Qed.

Lemma pipeline_sensitive :
  drawn_sensitive (progress_bar_pipeline snapshot area flags color progress)
  = [CellRendererProgress.property_sensitive progress].
Proof. unfold progress_bar_pipeline, draw_indicator. destruct GTKMM4; reflexivity. Qed.

End PipelineProjections.

Lemma selected_bit_kept (tor : tr_torrent) (flags : CellRendererState) :
  Z.land (effective_flags tor flags) CELL_RENDERER_SELECTED = Z.land flags CELL_RENDERER_SELECTED.
Proof.
  unfold effective_flags. destruct (activity (tr_torrentStatCached tor)); try reflexivity.
  rewrite Z.land_lor_distr_l. unfold CELL_RENDERER_INSENSITIVE, CELL_RENDERER_SELECTED.
  change (Z.land 4 1) with 0. apply Z.lor_0_r.
Qed.

Section AppearanceTheorems.

Context {F : Formatters} {T : Toolkit}.

(** Every row, of either layout, as an existential over what was drawn. *)
Lemma render_row (mode : LayoutMode) snapshot widget bg flags w tor :
  torrent w = Some tor ->
  render mode snapshot widget bg flags w
  = Some (tt, match mode with
              | CompactLayout => after_render_compact w tor widget bg flags snapshot
              | FullLayout => after_render_full w tor widget bg flags snapshot
              end).
Proof.
  intros Ht. destruct mode; [apply render_compact_final | apply render_full_final]; exact Ht.
Qed.

(** X5: in either layout every child renderer of a row is drawn with the
    same flags.  For a stopped torrent they are the caller's flags with the
    INSENSITIVE bit (bit 2) set and every other bit kept; for any other
    activity they are the caller's flags unchanged. *)
Theorem stopped_rows_are_insensitive (mode : LayoutMode) (snapshot : Context) (widget : Widget)
    (background_area : Rectangle.t) (flags : CellRendererState) (w : Renderer) (tor : tr_torrent) :
  torrent w = Some tor ->
  exists w' row f,
    render mode snapshot widget background_area flags w = Some (tt, w')
    /\ drawn w' = (drawn w ++ row)%list
    /\ (4 <= List.length (drawn_flags row))%nat
    /\ Forall (eq f) (drawn_flags row)
    /\ (activity (tr_torrentStatCached tor) = TR_STATUS_STOPPED ->
        f = Z.lor flags CELL_RENDERER_INSENSITIVE
        /\ Z.testbit f 2 = true
        /\ forall i, i <> 2 -> Z.testbit f i = Z.testbit flags i)
    /\ (activity (tr_torrentStatCached tor) <> TR_STATUS_STOPPED -> f = flags).
Proof.
  intros Ht. rewrite (render_row mode snapshot widget background_area flags w tor Ht).
  assert (Hrow : exists row,
    drawn match mode with
          | CompactLayout => after_render_compact w tor widget background_area flags snapshot
          | FullLayout => after_render_full w tor widget background_area flags snapshot
          end = (drawn w ++ row)%list
    /\ (4 <= List.length (drawn_flags row))%nat
    /\ Forall (eq (effective_flags tor flags)) (drawn_flags row)).
  { destruct mode; eexists; (split; [reflexivity |]);
      unfold compact_row, full_row_of, full_row;
      cbn [drawn_flags]; rewrite drawn_flags_app, pipeline_flags;
      cbn [app drawn_flags List.length]; (split; [lia | repeat constructor]). }
  destruct Hrow as (row & Hd & Hl & Hf).
  eexists. exists row, (effective_flags tor flags).
  split; [reflexivity |]. split; [exact Hd |]. split; [exact Hl |]. split; [exact Hf |].
  split.
  - intros Hs. unfold effective_flags. rewrite Hs. split; [reflexivity |]. split.
    + rewrite Z.lor_spec. unfold CELL_RENDERER_INSENSITIVE.
      change (Z.testbit 4 2) with true. apply orb_true_r.
    + intros i Hi. rewrite Z.lor_spec. unfold CELL_RENDERER_INSENSITIVE.
      replace (Z.testbit 4 i) with false; [apply orb_false_r |].
      destruct i as [|p|p]; try reflexivity.
      destruct p as [p|p|]; try reflexivity.
      destruct p as [p|p|]; try reflexivity. congruence.
  - intros Hs. unfold effective_flags. destruct (activity (tr_torrentStatCached tor)); congruence.
Qed.

(** X6: in either layout every text of a row is drawn with a red
    foreground when the torrent has an error and the row is not selected;
    without an error, or when the row is selected, the foreground is
    unset. *)
Theorem errors_are_drawn_in_red (mode : LayoutMode) (snapshot : Context) (widget : Widget)
    (background_area : Rectangle.t) (flags : CellRendererState) (w : Renderer) (tor : tr_torrent) :
  torrent w = Some tor ->
  exists w' row,
    render mode snapshot widget background_area flags w = Some (tt, w')
    /\ drawn w' = (drawn w ++ row)%list
    /\ (2 <= List.length (drawn_text_renderers row))%nat
    /\ Forall (fun r =>
                 (error (tr_torrentStatCached tor) <> TR_STAT_OK
                  /\ Z.land flags CELL_RENDERER_SELECTED = 0 ->
                  CellRendererText.property_foreground r = "red"
                  /\ CellRendererText.property_foreground_set r = true)
                 /\ (error (tr_torrentStatCached tor) = TR_STAT_OK
                     \/ Z.land flags CELL_RENDERER_SELECTED <> 0 ->
                     CellRendererText.property_foreground_set r = false))
              (drawn_text_renderers row).
Proof.
  intros Ht. rewrite (render_row mode snapshot widget background_area flags w tor Ht).
  assert (Hrule :
    (error (tr_torrentStatCached tor) <> TR_STAT_OK
     /\ Z.land flags CELL_RENDERER_SELECTED = 0 ->
     CellRendererText.property_foreground (row_text w tor flags) = "red"
     /\ CellRendererText.property_foreground_set (row_text w tor flags) = true)
    /\ (error (tr_torrentStatCached tor) = TR_STAT_OK
        \/ Z.land flags CELL_RENDERER_SELECTED <> 0 ->
        CellRendererText.property_foreground_set (row_text w tor flags) = false)).
  { unfold row_text. rewrite selected_bit_kept.
    destruct (error (tr_torrentStatCached tor));
      destruct (Z.eqb_spec (Z.land flags CELL_RENDERER_SELECTED) 0) as [E | E];
      split; try (intros [H1 H2]; congruence); try (intros [H | H]; congruence);
      intros; split; reflexivity || (cbn; reflexivity). }
  destruct mode; eexists; eexists; (split; [reflexivity |]); (split; [reflexivity |]);
    unfold compact_row, full_row_of, full_row;
    cbn [drawn_text_renderers];
    rewrite drawn_text_renderers_app, pipeline_text_renderers;
    cbn [app drawn_text_renderers List.length];
    (split; [lia | repeat (apply Forall_cons; [exact Hrule |]); apply Forall_nil]).
Qed.

(** X7: in either layout the icon and the progress bar of a row get the
    same sensitivity, and it is off exactly when the torrent has no error
    and is stopped or queued (to download or to seed). *)
Theorem idle_rows_are_greyed (mode : LayoutMode) (snapshot : Context) (widget : Widget)
    (background_area : Rectangle.t) (flags : CellRendererState) (w : Renderer) (tor : tr_torrent) :
  torrent w = Some tor ->
  let st := tr_torrentStatCached tor in
  exists w' row sensitive,
    render mode snapshot widget background_area flags w = Some (tt, w')
    /\ drawn w' = (drawn w ++ row)%list
    /\ drawn_sensitive row = [sensitive; sensitive]
    /\ (sensitive = false
        <-> error st = TR_STAT_OK
            /\ (activity st = TR_STATUS_STOPPED \/ activity st = TR_STATUS_DOWNLOAD_WAIT
                \/ activity st = TR_STATUS_SEED_WAIT)).
Proof.
  intros Ht st. rewrite (render_row mode snapshot widget background_area flags w tor Ht).
  assert (Hrow : exists row,
    drawn match mode with
          | CompactLayout => after_render_compact w tor widget background_area flags snapshot
          | FullLayout => after_render_full w tor widget background_area flags snapshot
          end = (drawn w ++ row)%list
    /\ drawn_sensitive row = [row_sensitive tor; row_sensitive tor]).
  { destruct mode; eexists; (split; [reflexivity |]);
      unfold compact_row, full_row_of, full_row, compact_bar, full_bar, row_icon;
      cbn [drawn_sensitive];
      rewrite drawn_sensitive_app, pipeline_sensitive; reflexivity. }
  destruct Hrow as (row & Hd & Hs).
  eexists. exists row, (row_sensitive tor).
  split; [reflexivity |]. split; [exact Hd |]. split; [exact Hs |].
  subst st. unfold row_sensitive.
    destruct (activity (tr_torrentStatCached tor)), (error (tr_torrentStatCached tor));
      split; try discriminate; try (intros _; auto; fail);
      intros [H1 [H2 | [H2 | H2]]]; discriminate.
Qed.

End AppearanceTheorems.

(** ** What repeated calls do *)

Lemma row_text_weight (w : Renderer) (tor : tr_torrent) (flags : CellRendererState) :
  CellRendererText.property_weight (row_text w tor flags)
  = CellRendererText.property_weight (text_renderer_ w).
Proof.
  unfold row_text. destruct (error (tr_torrentStatCached tor)); try reflexivity;
    destruct (Z.land (effective_flags tor flags) CELL_RENDERER_SELECTED =? 0); reflexivity.
Qed.

(** [row_text] works on the foreground alone, and to the same effect when
    applied again. *)
Lemma row_text_again (w w' : Renderer) (tor : tr_torrent) (flags : CellRendererState) :
  CellRendererText.property_foreground (text_renderer_ w')
  = CellRendererText.property_foreground (row_text w tor flags) ->
  CellRendererText.property_foreground_set (text_renderer_ w')
  = CellRendererText.property_foreground_set (row_text w tor flags) ->
  CellRendererText.property_foreground (row_text w' tor flags)
  = CellRendererText.property_foreground (row_text w tor flags)
  /\ CellRendererText.property_foreground_set (row_text w' tor flags)
     = CellRendererText.property_foreground_set (row_text w tor flags).
Proof.
  unfold row_text. destruct (error (tr_torrentStatCached tor));
    try destruct (Z.land (effective_flags tor flags) CELL_RENDERER_SELECTED =? 0);
    cbn; intros H1 H2; split; congruence.
Qed.

Section StateTheorems.

Context {F : Formatters} {T : Toolkit}.

Lemma get_size_final (mode : LayoutMode) widget w tor :
  torrent w = Some tor ->
  get_size mode widget w
  = Some match mode with
         | CompactLayout => (compact_size w tor widget, after_get_size_compact w tor)
         | FullLayout => (full_size w tor widget, after_get_size_full w tor)
         end.
Proof.
  intros Ht. destruct mode; [apply get_size_compact_final | apply get_size_full_final]; exact Ht.
Qed.

(** X8: a text renderer of normal weight still has normal weight after a
    size request and after a draw, in either layout; so the texts of a
    compact row, whose weight [render_compact] never sets, are drawn in
    normal weight. *)
Theorem weight_stays_normal (mode : LayoutMode) (snapshot : Context) (widget : Widget)
    (background_area : Rectangle.t) (flags : CellRendererState) (w : Renderer) (tor : tr_torrent) :
  torrent w = Some tor ->
  CellRendererText.property_weight (text_renderer_ w) = WEIGHT_NORMAL ->
  (exists size w',
     get_size mode widget w = Some (size, w')
     /\ CellRendererText.property_weight (text_renderer_ w') = WEIGHT_NORMAL)
  /\ (exists w' row,
        render mode snapshot widget background_area flags w = Some (tt, w')
        /\ drawn w' = (drawn w ++ row)%list
        /\ CellRendererText.property_weight (text_renderer_ w') = WEIGHT_NORMAL
        /\ (mode = CompactLayout ->
            Forall (fun r => CellRendererText.property_weight r = WEIGHT_NORMAL)
                   (drawn_text_renderers row))).
Proof.
  intros Ht Hw. split.
  - rewrite (get_size_final mode widget w tor Ht).
    destruct mode; eexists; eexists; (split; [reflexivity |]);
      [exact Hw | reflexivity].
  - rewrite (render_row mode snapshot widget background_area flags w tor Ht).
    destruct mode; eexists; eexists; (split; [reflexivity |]); (split; [reflexivity |]).
    + pose proof (row_text_weight w tor flags) as Hr. rewrite Hw in Hr.
      split; [exact Hr |]. intros _.
      unfold compact_row. cbn [drawn_text_renderers].
      rewrite drawn_text_renderers_app, pipeline_text_renderers.
      cbn [app drawn_text_renderers].
      repeat (apply Forall_cons; [exact Hr |]); apply Forall_nil.
    + split; [reflexivity | discriminate].
Qed.

(** X9: a size request changes the child renderers only the first time:
    asking again gives the same size and leaves the renderer as it is, and
    the width and the height GTK asks for one after the other are the two
    components of that one size. *)
Theorem size_requests_repeat (widget : Widget) (w : Renderer) (tor : tr_torrent)
    (minimum natural minimum' natural' : Z) :
  torrent w = Some tor ->
  exists size w',
    get_size (layout_mode w) widget w = Some (size, w')
    /\ get_size (layout_mode w') widget w' = Some (size, w')
    /\ get_preferred_width_vfunc widget minimum natural w = Some ((fst size, fst size), w')
    /\ get_preferred_height_vfunc widget minimum' natural' w' = Some ((snd size, snd size), w').
Proof.
  intros Ht.
  assert (Hmode : forall w0, get_preferred_width_vfunc widget minimum natural w0
                             = match torrent w0 with
                               | Some _ =>
                                   match get_size (layout_mode w0) widget w0 with
                                   | Some (s, w'') => Some ((fst s, fst s), w'')
                                   | None => None
                                   end
                               | None => Some ((minimum, natural), w0)
                               end
                             /\ get_preferred_height_vfunc widget minimum' natural' w0
                                = match torrent w0 with
                                  | Some _ =>
                                      match get_size (layout_mode w0) widget w0 with
                                      | Some (s, w'') => Some ((snd s, snd s), w'')
                                      | None => None
                                      end
                                  | None => Some ((minimum', natural'), w0)
                                  end).
  { intros w0.
    cbv beta iota delta [layout_mode get_preferred_width_vfunc get_preferred_height_vfunc
                         get_size bind gets ret].
    destruct (torrent w0); [| split; reflexivity].
    destruct (compact w0); split;
      match goal with
      | |- context [match ?m w0 with _ => _ end] => destruct (m w0) as [[[? ?] ?]|]
      end; reflexivity. }
  assert (Hc : forall w0, compact w0 = true -> layout_mode w0 = CompactLayout)
    by (intros w0 H; unfold layout_mode; rewrite H; reflexivity).
  assert (Hf : forall w0, compact w0 = false -> layout_mode w0 = FullLayout)
    by (intros w0 H; unfold layout_mode; rewrite H; reflexivity).
  destruct (compact w) eqn:Ec.
  - assert (Ha : get_size_compact widget (after_get_size_compact w tor)
                 = Some (compact_size w tor widget, after_get_size_compact w tor)).
    { rewrite (get_size_compact_final widget (after_get_size_compact w tor) tor Ht).
      reflexivity. }
    exists (compact_size w tor widget), (after_get_size_compact w tor).
    destruct (Hmode w) as (Hwd & _).
    destruct (Hmode (after_get_size_compact w tor)) as (_ & Hh).
    rewrite Hwd, Hh.
    rewrite (Hc w Ec), (Hc (after_get_size_compact w tor) Ec).
    cbn [get_size torrent after_get_size_compact].
    rewrite Ht, Ha, (get_size_compact_final widget w tor Ht).
    repeat split.
  - assert (Ha : get_size_full widget (after_get_size_full w tor)
                 = Some (full_size w tor widget, after_get_size_full w tor)).
    { rewrite (get_size_full_final widget (after_get_size_full w tor) tor Ht).
      reflexivity. }
    exists (full_size w tor widget), (after_get_size_full w tor).
    destruct (Hmode w) as (Hwd & _).
    destruct (Hmode (after_get_size_full w tor)) as (_ & Hh).
    rewrite Hwd, Hh.
    rewrite (Hf w Ec), (Hf (after_get_size_full w tor) Ec).
    cbn [get_size torrent after_get_size_full].
    rewrite Ht, Ha, (get_size_full_final widget w tor Ht).
    repeat split.
Qed.

(** What a row and the renderers after it are computed from.  The weight
    of the text renderer matters to the compact row alone: the full row sets
    it for each of its texts. *)
Lemma row_depends_on (mode : LayoutMode) snapshot widget bg flags tor (w0 w1 : Renderer) :
  let after := fun w => match mode with
                        | CompactLayout => after_render_compact w tor widget bg flags snapshot
                        | FullLayout => after_render_full w tor widget bg flags snapshot
                        end in
  let row := fun w => match mode with
                      | CompactLayout => compact_row w tor snapshot widget bg flags
                      | FullLayout => full_row_of w tor widget bg flags snapshot
                      end in
  bar_height w0 = bar_height w1 ->
  upload_speed_KBps w0 = upload_speed_KBps w1 ->
  download_speed_KBps w0 = download_speed_KBps w1 ->
  padding w0 = padding w1 ->
  CellRendererPixbuf.property_sensitive (icon_renderer_ w0)
  = CellRendererPixbuf.property_sensitive (icon_renderer_ w1) ->
  (mode = CompactLayout ->
   CellRendererText.property_weight (text_renderer_ w0)
   = CellRendererText.property_weight (text_renderer_ w1)) ->
  CellRendererText.property_foreground (row_text w0 tor flags)
  = CellRendererText.property_foreground (row_text w1 tor flags) ->
  CellRendererText.property_foreground_set (row_text w0 tor flags)
  = CellRendererText.property_foreground_set (row_text w1 tor flags) ->
  CellRendererText.property_xpad (text_renderer_ w0)
  = CellRendererText.property_xpad (text_renderer_ w1) ->
  CellRendererText.property_ypad (text_renderer_ w0)
  = CellRendererText.property_ypad (text_renderer_ w1) ->
  row w0 = row w1
  /\ text_renderer_ (after w0) = text_renderer_ (after w1)
  /\ progress_renderer_ (after w0) = progress_renderer_ (after w1)
  /\ icon_renderer_ (after w0) = icon_renderer_ (after w1).
Proof.
  cbv zeta. intros Hb Hu Hd Hp Hs Hw Hf Hfs Hx Hy.
  assert (Hrx : CellRendererText.property_xpad (row_text w0 tor flags)
                = CellRendererText.property_xpad (row_text w1 tor flags)).
  { unfold row_text. destruct (error (tr_torrentStatCached tor));
      try destruct (Z.land (effective_flags tor flags) CELL_RENDERER_SELECTED =? 0);
      exact Hx. }
  assert (Hry : CellRendererText.property_ypad (row_text w0 tor flags)
                = CellRendererText.property_ypad (row_text w1 tor flags)).
  { unfold row_text. destruct (error (tr_torrentStatCached tor));
      try destruct (Z.land (effective_flags tor flags) CELL_RENDERER_SELECTED =? 0);
      exact Hy. }
  destruct mode.
  - assert (Hrw : CellRendererText.property_weight (row_text w0 tor flags)
                  = CellRendererText.property_weight (row_text w1 tor flags))
      by (rewrite !row_text_weight; exact (Hw eq_refl)).
    unfold after_render_compact, compact_row,
      compact_regions, compact_icon_width, compact_stat_width, compact_fill,
      compact_name_text, compact_stat_text, short_status, row_icon, styled;
      cbn [text_renderer_ progress_renderer_ icon_renderer_];
      rewrite ?Hb, ?Hu, ?Hd, ?Hp, ?Hs, ?Hf, ?Hfs, ?Hrw, ?Hrx, ?Hry; repeat split.
  - unfold after_render_full, full_row_of, full_row,
      full_regions, full_icon_size, full_name_height, full_prog_height, full_stat_height,
      full_name_text, full_prog_text, full_stat_text,
      long_status, row_icon, styled;
      cbn [text_renderer_ progress_renderer_ icon_renderer_];
      rewrite ?Hb, ?Hu, ?Hd, ?Hp, ?Hs, ?Hf, ?Hfs, ?Hrx, ?Hry; repeat split.
Qed.

(** The text renderer a draw leaves: the foreground is that of [row_text],
    the padding is kept. *)
Lemma after_render_text (mode : LayoutMode) snapshot widget bg flags tor (w : Renderer) :
  let a := match mode with
           | CompactLayout => after_render_compact w tor widget bg flags snapshot
           | FullLayout => after_render_full w tor widget bg flags snapshot
           end in
  CellRendererText.property_foreground (text_renderer_ a)
  = CellRendererText.property_foreground (row_text w tor flags)
  /\ CellRendererText.property_foreground_set (text_renderer_ a)
     = CellRendererText.property_foreground_set (row_text w tor flags)
  /\ CellRendererText.property_xpad (text_renderer_ a)
     = CellRendererText.property_xpad (text_renderer_ w)
  /\ CellRendererText.property_ypad (text_renderer_ a)
     = CellRendererText.property_ypad (text_renderer_ w).
Proof.
  cbv zeta.
  destruct mode; cbn [after_render_compact after_render_full text_renderer_];
    unfold compact_name_text, full_stat_text, styled;
    cbn [CellRendererText.property_foreground CellRendererText.property_foreground_set
         CellRendererText.property_xpad CellRendererText.property_ypad];
    (split; [reflexivity |]); (split; [reflexivity |]);
    unfold row_text; destruct (error (tr_torrentStatCached tor));
    try destruct (Z.land (effective_flags tor flags) CELL_RENDERER_SELECTED =? 0);
    split; reflexivity.
Qed.

(** The first draw against the next: the same row when the icon renderer
    already has the sensitivity the row gives it. *)
Lemma first_row_again (mode : LayoutMode) snapshot widget bg flags w tor :
  let after := fun w0 => match mode with
                         | CompactLayout => after_render_compact w0 tor widget bg flags snapshot
                         | FullLayout => after_render_full w0 tor widget bg flags snapshot
                         end in
  let row := fun w0 => match mode with
                       | CompactLayout => compact_row w0 tor snapshot widget bg flags
                       | FullLayout => full_row_of w0 tor widget bg flags snapshot
                       end in
  CellRendererPixbuf.property_sensitive (icon_renderer_ w) = row_sensitive tor ->
  row w = row (after w).
Proof.
  cbv zeta. intros Hsens.
  pose proof (after_render_text mode snapshot widget bg flags tor w) as H. cbv zeta in H.
  destruct H as (F1 & S1 & X1 & Y1).
  set (a1 := match mode with
             | CompactLayout => after_render_compact w tor widget bg flags snapshot
             | FullLayout => after_render_full w tor widget bg flags snapshot
             end) in *.
  destruct (row_text_again w a1 tor flags F1 S1) as (R1 & R2).
  apply (row_depends_on mode snapshot widget bg flags tor w a1).
  - subst a1. destruct mode; reflexivity.
  - subst a1. destruct mode; reflexivity.
  - subst a1. destruct mode; reflexivity.
  - subst a1. destruct mode; reflexivity.
  - rewrite Hsens. subst a1. destruct mode; reflexivity.
  - intros Hm. subst a1. rewrite Hm.
    cbn [after_render_compact text_renderer_]. unfold compact_name_text, styled.
    cbn [CellRendererText.property_weight]. rewrite row_text_weight. reflexivity.
  - symmetry. exact R1.
  - symmetry. exact R2.
  - symmetry. exact X1.
  - symmetry. exact Y1.
Qed.

Lemma after_render_again (mode : LayoutMode) snapshot widget bg flags w tor :
  let after := fun w0 => match mode with
                         | CompactLayout => after_render_compact w0 tor widget bg flags snapshot
                         | FullLayout => after_render_full w0 tor widget bg flags snapshot
                         end in
  let row := fun w0 => match mode with
                       | CompactLayout => compact_row w0 tor snapshot widget bg flags
                       | FullLayout => full_row_of w0 tor widget bg flags snapshot
                       end in
  row (after (after w)) = row (after w)
  /\ text_renderer_ (after (after w)) = text_renderer_ (after w)
  /\ progress_renderer_ (after (after w)) = progress_renderer_ (after w)
  /\ icon_renderer_ (after (after w)) = icon_renderer_ (after w).
Proof.
  cbv zeta.
  pose proof (after_render_text mode snapshot widget bg flags tor w) as H1. cbv zeta in H1.
  set (a1 := match mode with
             | CompactLayout => after_render_compact w tor widget bg flags snapshot
             | FullLayout => after_render_full w tor widget bg flags snapshot
             end) in *.
  pose proof (after_render_text mode snapshot widget bg flags tor a1) as H2. cbv zeta in H2.
  set (a2 := match mode with
             | CompactLayout => after_render_compact a1 tor widget bg flags snapshot
             | FullLayout => after_render_full a1 tor widget bg flags snapshot
             end) in *.
  destruct H1 as (F1 & S1 & X1 & Y1). destruct H2 as (F2 & S2 & X2 & Y2).
  destruct (row_text_again w a1 tor flags F1 S1) as (R1 & R2).
  assert (Hpad : forall w0,
            CellRendererText.property_xpad (row_text w0 tor flags)
            = CellRendererText.property_xpad (text_renderer_ w0)
            /\ CellRendererText.property_ypad (row_text w0 tor flags)
               = CellRendererText.property_ypad (text_renderer_ w0)).
  { intros w0. unfold row_text. destruct (error (tr_torrentStatCached tor));
      try destruct (Z.land (effective_flags tor flags) CELL_RENDERER_SELECTED =? 0);
      split; reflexivity. }
  assert (Htext : text_renderer_ a2 = text_renderer_ a1).
  { destruct (Hpad a1) as (P1 & P2). destruct (Hpad w) as (P3 & P4).
    subst a2. destruct mode; cbn [after_render_compact after_render_full text_renderer_];
      unfold compact_name_text, full_stat_text, styled, long_status;
      rewrite R1, R2, P1, P2, X1, Y1, ?row_text_weight;
      subst a1; cbn [after_render_compact after_render_full text_renderer_
                      upload_speed_KBps download_speed_KBps];
      unfold compact_name_text, full_stat_text, styled, long_status;
      cbn [CellRendererText.property_weight];
      rewrite ?row_text_weight, ?P3, ?P4; reflexivity. }
  assert (Hprog : progress_renderer_ a2 = progress_renderer_ a1)
    by (subst a2 a1; destruct mode; reflexivity).
  assert (Hicon : icon_renderer_ a2 = icon_renderer_ a1)
    by (subst a2 a1; destruct mode; reflexivity).
  split; [| repeat split; assumption].
  destruct (row_text_again a1 a2 tor flags F2 S2) as (R3 & R4).
  apply (row_depends_on mode snapshot widget bg flags tor a2 a1).
  - subst a2. destruct mode; reflexivity.
  - subst a2. destruct mode; reflexivity.
  - subst a2. destruct mode; reflexivity.
  - subst a2. destruct mode; reflexivity.
  - rewrite Hicon. reflexivity.
  - intros _. rewrite Htext. reflexivity.
  - exact R3.
  - exact R4.
  - rewrite Htext. reflexivity.
  - rewrite Htext. reflexivity.
Qed.

(** Any number of further draws after a draw. *)
Lemma after_render_many (mode : LayoutMode) snapshot widget bg flags tor (n : nat) :
  let after := fun w0 => match mode with
                         | CompactLayout => after_render_compact w0 tor widget bg flags snapshot
                         | FullLayout => after_render_full w0 tor widget bg flags snapshot
                         end in
  let row := fun w0 => match mode with
                       | CompactLayout => compact_row w0 tor snapshot widget bg flags
                       | FullLayout => full_row_of w0 tor widget bg flags snapshot
                       end in
  forall w,
    drawn (Nat.iter n after (after w))
    = (drawn (after w) ++ List.concat (repeat (row (after w)) n))%list
    /\ text_renderer_ (Nat.iter n after (after w)) = text_renderer_ (after w)
    /\ progress_renderer_ (Nat.iter n after (after w)) = progress_renderer_ (after w)
    /\ icon_renderer_ (Nat.iter n after (after w)) = icon_renderer_ (after w).
Proof.
  intros after row.
  assert (Hdrawn : forall w0, drawn (after w0) = (drawn w0 ++ row w0)%list)
    by (intros w0; subst after row; destruct mode; reflexivity).
  induction n as [|n IH]; intros w.
  - cbn [Nat.iter repeat List.concat]. rewrite app_nil_r. repeat split.
  - rewrite Nat.iter_succ_r.
    destruct (IH (after w)) as (D & Ht & Hp & Hi).
    pose proof (after_render_again mode snapshot widget bg flags w tor) as H.
    cbv zeta in H. fold after in H. fold row in H.
    change (row (after (after w)) = row (after w)
            /\ text_renderer_ (after (after w)) = text_renderer_ (after w)
            /\ progress_renderer_ (after (after w)) = progress_renderer_ (after w)
            /\ icon_renderer_ (after (after w)) = icon_renderer_ (after w)) in H.
    destruct H as (Hr & Ht' & Hp' & Hi').
    rewrite D, Ht, Hp, Hi, Hr, Ht', Hp', Hi', (Hdrawn (after w)).
    cbn [repeat List.concat]. rewrite <- app_assoc. repeat split.
Qed.

Lemma redraw_run (mode : LayoutMode) snapshot widget bg flags tor (n : nat) :
  let after := fun w0 => match mode with
                         | CompactLayout => after_render_compact w0 tor widget bg flags snapshot
                         | FullLayout => after_render_full w0 tor widget bg flags snapshot
                         end in
  forall w,
    torrent w = Some tor ->
    redraw n mode snapshot widget bg flags w = Some (tt, Nat.iter n after w).
Proof.
  intros after. induction n as [|n IH]; intros w Ht.
  - reflexivity.
  - rewrite Nat.iter_succ_r. cbn [redraw]. unfold bind.
    rewrite (render_row mode snapshot widget bg flags w tor Ht).
    fold after. apply IH. subst after. destruct mode; exact Ht.
Qed.

(** X10: any number of draws of a row, one after the other, append the
    commands of the first draw and then, for every further draw, one and the
    same list of commands, and leave the child renderers as the first draw
    left them.  The commands of the first draw are that list too when the
    icon renderer already has the sensitivity the row gives it: the icon is
    measured before its sensitivity is set. *)
Theorem redraw_is_steady (mode : LayoutMode) (snapshot : Context) (widget : Widget)
    (background_area : Rectangle.t) (flags : CellRendererState) (w : Renderer) (tor : tr_torrent) :
  torrent w = Some tor ->
  exists w1 first row,
    render mode snapshot widget background_area flags w = Some (tt, w1)
    /\ drawn w1 = (drawn w ++ first)%list
    /\ (forall n, exists wn,
          redraw (S n) mode snapshot widget background_area flags w = Some (tt, wn)
          /\ drawn wn = (drawn w ++ first ++ List.concat (repeat row n))%list
          /\ text_renderer_ wn = text_renderer_ w1
          /\ progress_renderer_ wn = progress_renderer_ w1
          /\ icon_renderer_ wn = icon_renderer_ w1)
    /\ (CellRendererPixbuf.property_sensitive (icon_renderer_ w) = row_sensitive tor ->
        first = row).
Proof.
  intros Ht.
  set (after := fun w0 =>
         match mode with
         | CompactLayout => after_render_compact w0 tor widget background_area flags snapshot
         | FullLayout => after_render_full w0 tor widget background_area flags snapshot
         end).
  set (row := fun w0 =>
         match mode with
         | CompactLayout => compact_row w0 tor snapshot widget background_area flags
         | FullLayout => full_row_of w0 tor widget background_area flags snapshot
         end).
  assert (Hdrawn : forall w0, drawn (after w0) = (drawn w0 ++ row w0)%list)
    by (intros w0; subst after row; destruct mode; reflexivity).
  exists (after w), (row w), (row (after w)).
  split; [apply (render_row mode); exact Ht |].
  split; [apply Hdrawn |].
  split.
  - intros n. exists (Nat.iter (S n) after w).
    split; [apply (redraw_run mode snapshot widget background_area flags tor (S n) w Ht) |].
    rewrite Nat.iter_succ_r.
    assert (H : drawn (Nat.iter n after (after w))
                = (drawn (after w) ++ List.concat (repeat (row (after w)) n))%list
                /\ text_renderer_ (Nat.iter n after (after w)) = text_renderer_ (after w)
                /\ progress_renderer_ (Nat.iter n after (after w)) = progress_renderer_ (after w)
                /\ icon_renderer_ (Nat.iter n after (after w)) = icon_renderer_ (after w))
      by exact (after_render_many mode snapshot widget background_area flags tor n w).
    destruct H as (D & Ht' & Hp & Hi).
    rewrite D, (Hdrawn w), <- app_assoc. repeat split; assumption.
  - intros Hsens.
    apply (first_row_again mode snapshot widget background_area flags w tor Hsens).
Qed.

End StateTheorems.

(** ** Status strings, icons and the progress bar *)

Lemma strchr_spec (s : string) (c : ascii) :
  strchr s c = true <-> exists a b, s = a ++ String c b.
Proof.
  induction s as [|x s IH]; simpl.
  - split; [discriminate |]. intros (a & b & H). destruct a; discriminate H.
  - destruct (Ascii.eqb_spec x c) as [E | E].
    + subst x. split; [| reflexivity]. intros _. exists "", s. reflexivity.
    + rewrite IH. split.
      * intros (a & b & H). exists (String x a), b. simpl. rewrite H. reflexivity.
      * intros (a & b & H). destruct a as [|y a]; simpl in H.
        -- injection H as H1 H2. contradiction.
        -- injection H as H1 H2. exists a, b. exact H2.
Qed.

Section StringExtras.

Context {F : Formatters}.

Lemma getStatusString_split tor st up down ignore_errors :
  getStatusString tor st up down ignore_errors
  = value_or (if ignore_errors then None else getErrorString st)
             (getActivityString tor st up down)
    ++ transfer_suffix tor st up down.
Proof.
  unfold getStatusString, transfer_suffix.
  destruct (activity st); cbn [negb andb activity_eqb];
    try (now rewrite append_empty_r);
    destruct (getShortTransferString tor st up down); cbn [string_empty negb];
    rewrite ?append_empty_r; reflexivity.
Qed.

(** X11: for a torrent that is neither downloading nor seeding the long
    status, with errors ignored or without an error, is the short status,
    and neither depends on the transfer speeds. *)
Theorem inactive_status_is_the_short_one (tor : tr_torrent) (st : tr_stat)
    (up down up' down' : double) :
  activity st <> TR_STATUS_DOWNLOAD ->
  activity st <> TR_STATUS_SEED ->
  getStatusString tor st up down true = getShortStatusString tor st up down
  /\ (error st = TR_STAT_OK ->
      getStatusString tor st up down false = getShortStatusString tor st up down)
  /\ getShortStatusString tor st up' down' = getShortStatusString tor st up down
  /\ getStatusString tor st up' down' true = getStatusString tor st up down true.
Proof.
  intros Hd Hs. rewrite !getStatusString_split.
  unfold transfer_suffix, getActivityString, getShortStatusString, getErrorString.
  destruct (activity st); try congruence;
    cbn [value_or]; rewrite ?append_empty_r; repeat split;
    intros He; rewrite He; cbn [value_or]; rewrite ?append_empty_r; reflexivity.
Qed.

(** X12: when a torrent is not stalled and either has no metadata or has
    no peer or web seed sending and no peer receiving, the short transfer
    string is empty: the short status of a download or a seed is a space
    and the ratio, and the long status is the activity string with no
    [" - "] after it. *)
Theorem nothing_to_report (tor : tr_torrent) (st : tr_stat) (up down : double) :
  isStalled st = false ->
  tr_torrentHasMetadata tor = false
  \/ (peersSendingToUs st <= 0 /\ webseedsSendingToUs st <= 0 /\ peersGettingFromUs st <= 0) ->
  getShortTransferString tor st up down = ""
  /\ (activity st = TR_STATUS_DOWNLOAD \/ activity st = TR_STATUS_SEED ->
      getShortStatusString tor st up down
      = " " ++ fmt_format (gettext "Ratio: {ratio}") [ arg "ratio" (tr_strlratio (ratio st)) ])
  /\ getStatusString tor st up down true = getActivityString tor st up down.
Proof.
  intros Hstall Hquiet.
  assert (Hempty : getShortTransferString tor st up down = "").
  { unfold getShortTransferString. rewrite Hstall.
    destruct Hquiet as [Hm | (H1 & H2 & H3)].
    - rewrite Hm. reflexivity.
    - destruct (Z.ltb_spec 0 (peersSendingToUs st)); [lia |].
      destruct (Z.ltb_spec 0 (webseedsSendingToUs st)); [lia |].
      destruct (Z.ltb_spec 0 (peersGettingFromUs st)); [lia |].
      destruct (tr_torrentHasMetadata tor); reflexivity. }
  split; [exact Hempty |]. split.
  - intros [Ha | Ha]; unfold getShortStatusString; rewrite Ha, Hempty; reflexivity.
  - rewrite getStatusString_split. unfold transfer_suffix. rewrite Hempty.
    cbn [value_or]. destruct (activity st); apply append_empty_r.
Qed.

End StringExtras.

Section IconExtras.

Context {T : Toolkit}.

(** X13: [get_icon] gives the icon of the unknown type to a torrent with
    no file, the directory icon to one with several files and to one with a
    single file whose name has a ['/'] anywhere in it, and otherwise the
    icon of the MIME type of the file name. *)
Theorem get_icon_cases (tor : tr_torrent) :
  (tor_files tor = [] -> get_icon tor = gtr_get_mime_type_icon UnknownMimeType)
  /\ (forall a b rest, tor_files tor = a :: b :: rest ->
                       get_icon tor = gtr_get_mime_type_icon DirectoryMimeType)
  /\ (forall name, tor_files tor = [name] ->
                   (exists dir file, name = dir ++ "/" ++ file) ->
                   get_icon tor = gtr_get_mime_type_icon DirectoryMimeType)
  /\ (forall name, tor_files tor = [name] ->
                   (forall dir file, name <> dir ++ "/" ++ file) ->
                   get_icon tor = gtr_get_mime_type_icon (tr_get_mime_type_for_filename name)).
Proof.
  unfold get_icon, tr_torrentFileCount, tr_torrentFile_name.
  repeat split.
  - intros H. rewrite H. reflexivity.
  - intros a b rest H. rewrite H.
    destruct (Z.eqb_spec (Z.of_nat (List.length (a :: b :: rest))) 0) as [E | E];
      [cbn [List.length] in E; lia |].
    destruct (Z.ltb_spec 1 (Z.of_nat (List.length (a :: b :: rest)))) as [L | L];
      [reflexivity | cbn [List.length] in L; lia].
  - intros name H (dir & file & Hn). rewrite H. cbn [List.length nth].
    change (Z.of_nat 1 =? 0) with false. change (1 <? Z.of_nat 1) with false. cbv iota.
    assert (Hs : strchr name "/" = true) by (apply strchr_spec; exists dir, file; exact Hn).
    rewrite Hs. reflexivity.
  - intros name H Hn. rewrite H. cbn [List.length nth].
    change (Z.of_nat 1 =? 0) with false. change (1 <? Z.of_nat 1) with false. cbv iota.
    destruct (strchr name "/") eqn:Hs; [| reflexivity].
    apply strchr_spec in Hs. destruct Hs as (a & b & Hab). elim (Hn a b). exact Hab.
Qed.

(** X14: the commands of [render_progress_bar] end with three on the
    cell's own context, which copy the finished indicator into the rectangle
    of the bar.  Every command before them draws the progress renderer on a
    snapshot made for the occasion or goes to one of the two contexts the
    function creates, and none goes to the cell's own context, provided that
    context is not one of those two. *)
Theorem compositing_is_off_screen (snapshot : Context) (widget : Widget) (area : Rectangle.t)
    (flags : CellRendererState) (color : RGBA) (w : Renderer) :
  snapshot <> indicator area ->
  snapshot <> mask_cr area ->
  exists w' before,
    render_progress_bar snapshot widget area flags color w = Some (tt, w')
    /\ drawn w'
       = (drawn w ++ before
          ++ [ set_source (output snapshot area) (get_target (indicator area))
                 (Double.of_int (Rectangle.get_x area)) (Double.of_int (Rectangle.get_y area));
               rectangle (output snapshot area) (Rectangle.get_x area) (Rectangle.get_y area)
                 (Rectangle.get_width area) (Rectangle.get_height area);
               fill (output snapshot area) ])%list
    /\ Forall (fun e =>
                 event_context e <> Some (output snapshot area)
                 /\ ((exists r background_area cell_area f,
                        e = render_progress OnTempSnapshot r background_area cell_area f)
                     \/ event_context e = Some (indicator area)
                     \/ event_context e = Some (mask_cr area)))
              before.
Proof.
  intros Hindicator Hmask.
  assert (Hout : forall c, (c = indicator area \/ c = mask_cr area) ->
                           Some c <> Some (output snapshot area)).
  { intros c Hc H. injection H as H. subst c. unfold output in Hc. destruct GTKMM4.
    - destruct Hc as [Hc | Hc]; discriminate Hc.
    - destruct Hc as [Hc | Hc]; [exact (Hindicator Hc) | exact (Hmask Hc)]. }
  rewrite render_progress_bar_run.
  eexists. eexists. split; [reflexivity |]. split.
  { cbn [drawn with_drawn]. f_equal. unfold progress_bar_pipeline.
    rewrite !app_assoc. unfold copy_out. reflexivity. }
  repeat rewrite Forall_app. repeat split.
  - unfold draw_indicator. destruct GTKMM4.
    + apply Forall_cons; [split; [discriminate | left; do 4 eexists; reflexivity] |].
      apply Forall_cons; [split; [apply Hout; auto | right; left; reflexivity] |].
      apply Forall_nil.
    + apply Forall_cons; [split; [apply Hout; auto | right; left; reflexivity] |].
      apply Forall_nil.
  - unfold build_mask.
    repeat (apply Forall_cons; [split; [apply Hout; auto | right; right; reflexivity] |]).
    apply Forall_nil.
  - unfold composite_background.
    repeat (apply Forall_cons; [split; [apply Hout; auto | right; left; reflexivity] |]).
    apply Forall_nil.
  - unfold recolor.
    repeat (apply Forall_cons; [split; [apply Hout; auto | right; left; reflexivity] |]).
    apply Forall_nil.
  - unfold clear_masked.
    repeat (apply Forall_cons; [split; [apply Hout; auto | right; left; reflexivity] |]).
    apply Forall_nil.
Qed.

End IconExtras.

(** ** From construction to the first row *)

Section LifeCycle.

Context {F : Formatters} {T : Toolkit}.

Lemma full_row_texts (w : Renderer) (tor : tr_torrent) widget bg flags snapshot :
  drawn_texts (full_row_of w tor widget bg flags snapshot)
  = [ tr_torrentName tor; progress_string tor; long_status w tor false ].
Proof.
  unfold full_row_of, full_row. cbn [drawn_texts]. rewrite drawn_texts_app, pipeline_texts.
  reflexivity.
Qed.

Lemma full_bar_height (w : Renderer) (tor : tr_torrent) widget bg flags :
  Rectangle.get_height (full_prct_region (full_regions w tor widget bg flags)) = bar_height w.
Proof.
  unfold full_regions.
  destruct (Z.land (get_state widget (effective_flags tor flags)) STATE_FLAG_DIR_RTL =? 0);
    reflexivity.
Qed.

(** X15: a renderer as the constructor makes it has drawn nothing, draws
    nothing and hands size requests back unanswered.  Once a torrent is
    set it draws the full row, with a bar 12 pixels high and zero speeds in
    the status, and asks for the height of that row; with [compact] set it
    draws the compact row. *)
Theorem new_renderer (text0 : CellRendererText.t) (progress0 : CellRendererProgress.t)
    (icon0 : CellRendererPixbuf.t) (pad : Z * Z) (tor : tr_torrent)
    (snapshot : Context) (widget : Widget) (background_area cell_area : Rectangle.t)
    (flags : CellRendererState) (minimum natural : Z) :
  let w0 := Impl_new text0 progress0 icon0 pad in
  let w1 := set_property_torrent (Some tor) w0 in
  let w2 := set_property_compact true w1 in
  (drawn w0 = []
   /\ render_vfunc snapshot widget background_area cell_area flags w0 = Some (tt, w0)
   /\ get_preferred_width_vfunc widget minimum natural w0 = Some ((minimum, natural), w0)
   /\ get_preferred_height_vfunc widget minimum natural w0 = Some ((minimum, natural), w0))
  /\ (exists w',
        render_vfunc snapshot widget background_area cell_area flags w1 = Some (tt, w')
        /\ drawn w' = full_row_of w1 tor widget background_area flags snapshot
        /\ Rectangle.get_height (full_prct_region (full_regions w1 tor widget background_area flags))
           = 12
        /\ long_status w1 tor false
           = getStatusString tor (tr_torrentStatCached tor) (Double.of_int 0) (Double.of_int 0)
               false)
  /\ (exists w',
        get_preferred_height_vfunc widget minimum natural w1
        = Some ((snd (full_size w1 tor widget), snd (full_size w1 tor widget)), w')
        /\ snd (full_size w1 tor widget)
           = 2 * snd pad
             + REQ_HEIGHT (natural_text w1 widget (tr_torrentName tor) WEIGHT_BOLD Double.one)
             + REQ_HEIGHT (natural_text w1 widget (progress_string tor) WEIGHT_NORMAL SmallScale)
             + GUI_PAD_SMALL + 12 + GUI_PAD_SMALL
             + REQ_HEIGHT (natural_text w1 widget (long_status w1 tor true) WEIGHT_NORMAL
                             SmallScale))
  /\ (exists w',
        render_vfunc snapshot widget background_area cell_area flags w2 = Some (tt, w')
        /\ drawn w' = compact_row w2 tor snapshot widget background_area flags).
Proof.
  intros w0 w1 w2.
  assert (Ht1 : torrent w1 = Some tor) by reflexivity.
  assert (Ht2 : torrent w2 = Some tor) by reflexivity.
  split; [repeat split |]. split; [| split].
  - eexists. split; [| split; [| split]].
    + unfold render_vfunc. cbv beta iota delta [bind gets]. rewrite Ht1.
      change (compact w1) with false. cbv iota.
      apply (render_full_final snapshot widget background_area flags w1 tor Ht1).
    + reflexivity.
    + rewrite full_bar_height. reflexivity.
    + reflexivity.
  - eexists. split.
    + unfold get_preferred_height_vfunc. cbv beta iota delta [bind gets]. rewrite Ht1.
      change (compact w1) with false. cbv iota.
      rewrite (get_size_full_final widget w1 tor Ht1).
      destruct (full_size w1 tor widget) as [width height]. reflexivity.
    + reflexivity.
  - eexists. split.
    + unfold render_vfunc. cbv beta iota delta [bind gets]. rewrite Ht2.
      change (compact w2) with true. cbv iota.
      apply (render_compact_final snapshot widget background_area flags w2 tor Ht2).
    + reflexivity.
Qed.

(** X16: [get_size_full] measures the status with errors ignored, while
    [render_full] draws it with errors shown.  Without an error the two
    strings are the same; with an error the row is sized for the activity
    string and shows the error string, both followed by the same transfer
    suffix. *)
Theorem full_size_ignores_errors (snapshot : Context) (widget : Widget)
    (background_area : Rectangle.t) (flags : CellRendererState) (w : Renderer)
    (tor : tr_torrent) :
  torrent w = Some tor ->
  let st := tr_torrentStatCached tor in
  let suffix := transfer_suffix tor st (upload_speed_KBps w) (download_speed_KBps w) in
  let measured := natural_text w widget (long_status w tor true) WEIGHT_NORMAL SmallScale in
  let prog := natural_text w widget (progress_string tor) WEIGHT_NORMAL SmallScale in
  let name := natural_text w widget (tr_torrentName tor) WEIGHT_BOLD Double.one in
  (exists w' row,
     render_full snapshot widget background_area flags w = Some (tt, w')
     /\ drawn w' = (drawn w ++ row)%list
     /\ drawn_texts row = [ tr_torrentName tor; progress_string tor; long_status w tor false ])
  /\ option_map fst (get_size_full widget w)
     = Some (2 * fst (padding w) + REQ_WIDTH (natural_icon w tor widget FullIconSize) + GUI_PAD
             + Z.max (REQ_WIDTH prog) (REQ_WIDTH measured),
             2 * snd (padding w) + REQ_HEIGHT name + REQ_HEIGHT prog + GUI_PAD_SMALL
             + bar_height w + GUI_PAD_SMALL + REQ_HEIGHT measured)
  /\ (error st = TR_STAT_OK -> long_status w tor false = long_status w tor true)
  /\ (forall e, getErrorString st = Some e ->
        long_status w tor false = e ++ suffix
        /\ long_status w tor true
           = getActivityString tor st (upload_speed_KBps w) (download_speed_KBps w) ++ suffix).
Proof.
  intros Ht st suffix measured prog name.
  split.
  { eexists. eexists.
    split; [exact (render_full_final snapshot widget background_area flags w tor Ht) |].
    split; [reflexivity | apply full_row_texts]. }
  split; [rewrite (get_size_full_final widget w tor Ht); reflexivity |].
  subst st suffix. unfold long_status. rewrite !getStatusString_split.
  cbn [value_or]. split.
  - intros He. unfold getErrorString. rewrite He. reflexivity.
  - intros e He. rewrite He. cbn [value_or]. split; reflexivity.
Qed.

End LifeCycle.

(** ** The further properties on the sample rows *)

Section MoreExamples.

Existing Instance Sample.formatters.
Existing Instance Sample.gtk3.

Lemma render_full_layout_witness :
  torrent (Sample.row false) = Some Sample.tor
  /\ Rectangle.get_y
       (full_prct_region (full_regions (Sample.row false) Sample.tor Sample.ltr Sample.cell 0))
     = 52
  /\ Rectangle.get_y
       (full_stat_region (full_regions (Sample.row false) Sample.tor Sample.ltr Sample.cell 0))
     = 67.
Proof.
  split; [reflexivity |].
  pose proof (render_full_layout cell_snapshot Sample.ltr Sample.cell 0 (Sample.row false)
                Sample.tor eq_refl) as H.
  cbv zeta in H.
  destruct H as (_ & _ & _ & _ & _ & _ & Hprct & Hbar & Hstat & _).
  split; [rewrite Hprct; reflexivity | rewrite Hstat, Hprct, Hbar; reflexivity].
Defined.

Lemma full_icon_centred_witness :
  torrent (Sample.row false) = Some Sample.tor
  /\ -1 <= (Rectangle.get_y
              (full_icon_region
                 (full_regions (Sample.row false) Sample.tor Sample.ltr Sample.cell 0))
            - Rectangle.get_y (inset Sample.cell (padding (Sample.row false))))
           - (Rectangle.get_y (inset Sample.cell (padding (Sample.row false)))
              + Rectangle.get_height (inset Sample.cell (padding (Sample.row false)))
              - (Rectangle.get_y
                   (full_icon_region
                      (full_regions (Sample.row false) Sample.tor Sample.ltr Sample.cell 0))
                 + Rectangle.get_height
                     (full_icon_region
                        (full_regions (Sample.row false) Sample.tor Sample.ltr Sample.cell 0))))
        <= 1.
Proof.
  split; [reflexivity |].
  pose proof (full_icon_centred cell_snapshot Sample.ltr Sample.cell 0 (Sample.row false)
                Sample.tor eq_refl) as H.
  cbv zeta in H. destruct H as (_ & H & _). exact H.
Defined.

Lemma compact_name_at_negotiated_width_witness :
  torrent (Sample.row true) = Some Sample.tor
  /\ option_map (fun r => fst (fst r)) (get_size_compact Sample.ltr (Sample.row true))
     = Some (Rectangle.get_width (Rectangle.mk 10 20 299 16))
  /\ exists w',
       render_compact cell_snapshot Sample.ltr (Rectangle.mk 10 20 299 16) 0 (Sample.row true)
       = Some (tt, w')
       /\ Rectangle.get_width
            (name_region
               (compact_regions (Sample.row true) Sample.tor Sample.ltr
                  (Rectangle.mk 10 20 299 16) 0))
          = -6.
Proof.
  split; [reflexivity |]. split; [vm_compute; reflexivity |].
  destruct (compact_name_at_negotiated_width cell_snapshot Sample.ltr (Rectangle.mk 10 20 299 16)
              0 (Sample.row true) Sample.tor eq_refl)
    as (w' & E & _ & Hname).
  - vm_compute. reflexivity.
  - vm_compute. reflexivity.
  - vm_compute. reflexivity.
  - exists w'. split; [exact E | exact Hname].
Defined.

Lemma full_row_at_negotiated_size_witness :
  torrent (Sample.row false) = Some Sample.tor
  /\ option_map fst (get_size_full Sample.ltr (Sample.row false)) = Some (490, 62)
  /\ exists w',
       render_full cell_snapshot Sample.ltr (Rectangle.mk 10 20 490 62) 0 (Sample.row false)
       = Some (tt, w')
       /\ Rectangle.get_y
            (full_stat_region
               (full_regions (Sample.row false) Sample.tor Sample.ltr
                  (Rectangle.mk 10 20 490 62) 0))
          + Rectangle.get_height
              (full_stat_region
                 (full_regions (Sample.row false) Sample.tor Sample.ltr
                    (Rectangle.mk 10 20 490 62) 0))
          = 81.
Proof.
  split; [reflexivity |]. split; [vm_compute; reflexivity |].
  pose proof (full_row_at_negotiated_size cell_snapshot Sample.ltr (Rectangle.mk 10 20 490 62)
                0 (Sample.row false) Sample.tor eq_refl) as H.
  cbv zeta in H.
  destruct H as (w' & E & _ & _ & Hbottom).
  - vm_compute. reflexivity.
  - vm_compute. reflexivity.
  - vm_compute. reflexivity.
  - vm_compute. reflexivity.
  - exists w'. split; [exact E | rewrite Hbottom; reflexivity].
Defined.

Lemma stopped_rows_are_insensitive_witness :
  torrent (Rows.showing Rows.paused true) = Some Rows.paused
  /\ exists w' row,
       render CompactLayout cell_snapshot Sample.ltr Sample.cell 0 (Rows.showing Rows.paused true)
       = Some (tt, w')
       /\ drawn w' = (drawn (Rows.showing Rows.paused true) ++ row)%list
       /\ Forall (eq 4) (drawn_flags row).
Proof.
  split; [reflexivity |].
  destruct (stopped_rows_are_insensitive CompactLayout cell_snapshot Sample.ltr Sample.cell 0
              (Rows.showing Rows.paused true) Rows.paused eq_refl)
    as (w' & row & f & E & D & _ & Hall & Hstop & _).
  destruct (Hstop eq_refl) as (Hf & _).
  exists w', row. split; [exact E |]. split; [exact D |].
  rewrite Hf in Hall. exact Hall.
Defined.

Lemma errors_are_drawn_in_red_witness :
  torrent (Rows.showing Rows.failing false) = Some Rows.failing
  /\ exists w' row,
       render FullLayout cell_snapshot Sample.ltr Sample.cell 0 (Rows.showing Rows.failing false)
       = Some (tt, w')
       /\ drawn w' = (drawn (Rows.showing Rows.failing false) ++ row)%list
       /\ Forall (fun r => CellRendererText.property_foreground r = "red")
                 (drawn_text_renderers row).
Proof.
  split; [reflexivity |].
  destruct (errors_are_drawn_in_red FullLayout cell_snapshot Sample.ltr Sample.cell 0
              (Rows.showing Rows.failing false) Rows.failing eq_refl)
    as (w' & row & E & D & _ & Hall).
  exists w', row. split; [exact E |]. split; [exact D |].
  eapply Forall_impl; [| exact Hall].
  intros r (Hred & _). apply Hred. split; [discriminate | reflexivity].
Defined.

Lemma idle_rows_are_greyed_witness :
  torrent (Rows.showing Rows.paused false) = Some Rows.paused
  /\ exists w' row,
       render FullLayout cell_snapshot Sample.ltr Sample.cell 0 (Rows.showing Rows.paused false)
       = Some (tt, w')
       /\ drawn w' = (drawn (Rows.showing Rows.paused false) ++ row)%list
       /\ drawn_sensitive row = [false; false].
Proof.
  split; [reflexivity |].
  pose proof (idle_rows_are_greyed FullLayout cell_snapshot Sample.ltr Sample.cell 0
                (Rows.showing Rows.paused false) Rows.paused eq_refl) as H.
  cbv zeta in H. destruct H as (w' & row & s & E & D & Hs & Hiff).
  assert (Hfalse : s = false) by (apply Hiff; split; [reflexivity | left; reflexivity]).
  exists w', row. rewrite Hfalse in Hs. split; [exact E |]. split; [exact D | exact Hs].
Defined.

Lemma weight_stays_normal_witness :
  torrent (Sample.row true) = Some Sample.tor
  /\ CellRendererText.property_weight (text_renderer_ (Sample.row true)) = WEIGHT_NORMAL
  /\ exists w' row,
       render CompactLayout cell_snapshot Sample.ltr Sample.cell 0 (Sample.row true)
       = Some (tt, w')
       /\ drawn w' = (drawn (Sample.row true) ++ row)%list
       /\ Forall (fun r => CellRendererText.property_weight r = WEIGHT_NORMAL)
                 (drawn_text_renderers row).
Proof.
  split; [reflexivity |]. split; [reflexivity |].
  destruct (weight_stays_normal CompactLayout cell_snapshot Sample.ltr Sample.cell 0
              (Sample.row true) Sample.tor eq_refl eq_refl)
    as (_ & w' & row & E & D & _ & Hall).
  exists w', row. split; [exact E |]. split; [exact D | exact (Hall eq_refl)].
Defined.

Lemma size_requests_repeat_witness :
  torrent (Sample.row false) = Some Sample.tor
  /\ exists w',
       get_preferred_width_vfunc Sample.ltr 0 0 (Sample.row false) = Some ((490, 490), w')
       /\ get_preferred_height_vfunc Sample.ltr 0 0 w' = Some ((62, 62), w').
Proof.
  split; [reflexivity |].
  destruct (size_requests_repeat Sample.ltr (Sample.row false) Sample.tor 0 0 0 0 eq_refl)
    as (size & w' & Hsize & _ & Hw & Hh).
  assert (Hs : size = (490, 62)).
  { assert (H : option_map fst (get_size (layout_mode (Sample.row false)) Sample.ltr
                                  (Sample.row false)) = Some (490, 62))
      by (vm_compute; reflexivity).
    rewrite Hsize in H. injection H as H. exact H. }
  exists w'. rewrite Hs in Hw, Hh. split; [exact Hw | exact Hh].
Defined.

Lemma redraw_is_steady_witness :
  torrent (Sample.row true) = Some Sample.tor
  /\ CellRendererPixbuf.property_sensitive (icon_renderer_ (Sample.row true))
     = row_sensitive Sample.tor
  /\ exists w1 w3 row,
       render CompactLayout cell_snapshot Sample.ltr Sample.cell 0 (Sample.row true)
       = Some (tt, w1)
       /\ drawn w1 = (drawn (Sample.row true) ++ row)%list
       /\ redraw 3 CompactLayout cell_snapshot Sample.ltr Sample.cell 0 (Sample.row true)
          = Some (tt, w3)
       /\ drawn w3 = (drawn (Sample.row true) ++ row ++ row ++ row)%list
       /\ text_renderer_ w3 = text_renderer_ w1.
Proof.
  split; [reflexivity |]. split; [reflexivity |].
  destruct (redraw_is_steady CompactLayout cell_snapshot Sample.ltr Sample.cell 0
              (Sample.row true) Sample.tor eq_refl)
    as (w1 & first & row & E & D & Hn & Hfirst).
  destruct (Hn 2%nat) as (w3 & E3 & D3 & Ht & _).
  rewrite (Hfirst eq_refl) in D, D3.
  cbn [repeat List.concat] in D3. rewrite app_nil_r in D3.
  exists w1, w3, row. repeat split; assumption.
Defined.

Lemma inactive_status_is_the_short_one_witness :
  activity Rows.paused_stat <> TR_STATUS_DOWNLOAD
  /\ activity Rows.paused_stat <> TR_STATUS_SEED
  /\ getStatusString Rows.paused Rows.paused_stat Double.one Double.one true
     = getShortStatusString Rows.paused Rows.paused_stat Double.zero Double.zero.
Proof.
  assert (Hd : activity Rows.paused_stat <> TR_STATUS_DOWNLOAD) by discriminate.
  assert (Hs : activity Rows.paused_stat <> TR_STATUS_SEED) by discriminate.
  split; [exact Hd |]. split; [exact Hs |].
  destruct (inactive_status_is_the_short_one Rows.paused Rows.paused_stat Double.zero Double.zero
              Double.one Double.one Hd Hs) as (H1 & _ & _ & H4).
  rewrite H4. exact H1.
Defined.

Lemma nothing_to_report_witness :
  isStalled Rows.quiet_stat = false
  /\ (peersSendingToUs Rows.quiet_stat <= 0 /\ webseedsSendingToUs Rows.quiet_stat <= 0
      /\ peersGettingFromUs Rows.quiet_stat <= 0)
  /\ getShortStatusString Rows.quiet Rows.quiet_stat Double.one Double.one = " Ratio: 0"
  /\ getStatusString Rows.quiet Rows.quiet_stat Double.one Double.one true
     = "Downloading from 0 of 0 connected peers".
Proof.
  assert (Hq : peersSendingToUs Rows.quiet_stat <= 0 /\ webseedsSendingToUs Rows.quiet_stat <= 0
               /\ peersGettingFromUs Rows.quiet_stat <= 0)
    by (repeat split; discriminate).
  split; [reflexivity |]. split; [exact Hq |].
  destruct (nothing_to_report Rows.quiet Rows.quiet_stat Double.one Double.one eq_refl
              (or_intror Hq)) as (_ & Hshort & Hlong).
  split; [rewrite (Hshort (or_introl eq_refl)); reflexivity | rewrite Hlong; reflexivity].
Defined.

Lemma compositing_is_off_screen_witness :
  cell_snapshot <> indicator Sample.cell
  /\ cell_snapshot <> mask_cr Sample.cell
  /\ exists w' before,
       render_progress_bar cell_snapshot Sample.ltr Sample.cell 0 (Gdk_RGBA "steelblue")
         (Sample.row true)
       = Some (tt, w')
       /\ drawn w'
          = (drawn (Sample.row true) ++ before
             ++ [ set_source cell_snapshot (get_target (indicator Sample.cell))
                    (Double.of_int 10) (Double.of_int 20);
                  rectangle cell_snapshot 10 20 400 30;
                  fill cell_snapshot ])%list
       /\ Forall (fun e => event_context e <> Some cell_snapshot) before.
Proof.
  assert (Hi : cell_snapshot <> indicator Sample.cell) by discriminate.
  assert (Hm : cell_snapshot <> mask_cr Sample.cell) by discriminate.
  split; [exact Hi |]. split; [exact Hm |].
  destruct (compositing_is_off_screen cell_snapshot Sample.ltr Sample.cell 0
              (Gdk_RGBA "steelblue") (Sample.row true) Hi Hm)
    as (w' & before & E & D & Hbefore).
  exists w', before. split; [exact E |]. split; [exact D |].
  eapply Forall_impl; [| exact Hbefore]. intros e (H & _). exact H.
Defined.

Lemma full_size_ignores_errors_witness :
  torrent (Rows.showing Rows.failing false) = Some Rows.failing
  /\ long_status (Rows.showing Rows.failing false) Rows.failing false
     = "Local error: 'disk full' - 0 kB/s ▼  0 kB/s ▲"
  /\ long_status (Rows.showing Rows.failing false) Rows.failing true
     = "Downloading from 2 of 3 connected peers - 0 kB/s ▼  0 kB/s ▲".
Proof.
  split; [reflexivity |].
  pose proof (full_size_ignores_errors cell_snapshot Sample.ltr Sample.cell 0
                (Rows.showing Rows.failing false) Rows.failing eq_refl) as H.
  cbv zeta in H. destruct H as (_ & _ & _ & H).
  destruct (H "Local error: 'disk full'" eq_refl) as (Hdrawn & Hmeasured).
  split; [rewrite Hdrawn; reflexivity | rewrite Hmeasured; reflexivity].
Defined.

End MoreExamples.
